(** * Event-ingestion functions and REST boundary of the ACS reference app

    Shallow embedding of [src/python/functions/function_app.py] (the
    Event Grid handlers and the timer health check) and of
    [src/python/app.py] (the error boundary, the lazily created clients and
    the identity, readiness and SMS views).

    Python values are JSON-shaped data ([pyval]); a Python function that
    logs, talks to Cosmos DB and may raise is a computation in a small
    state-and-exception monad [M] over a [World] that records the log lines
    and the items handed to [upsert_item]. *)

From Stdlib Require Import List String Ascii ZArith Bool Arith Lia.
Import ListNotations.
Local Open Scope string_scope.

Set Implicit Arguments.
Set Warnings "-register-all".
#[local] Unset Elimination Schemes.

(* ================================================================== *)
(** * Python values *)
(* ================================================================== *)

(** The values an Event Grid payload or a request body can hold after JSON
    decoding. A [dict] is kept as its items in insertion order, a [str] as
    the bytes of its UTF-8 encoding. *)
Inductive pyval : Type :=
| PNone
| PBool (b : bool)
| PInt (z : Z)
| PStr (s : string)
| PList (l : list pyval)
| PDict (d : list (string * pyval)).
#[local] Set Elimination Schemes.

Definition pydict : Type := list (string * pyval).

(** Induction principle that reaches below lists and dicts. *)
Section PyvalInduction.
Variable P : pyval -> Prop.
Hypothesis HNone : P PNone.
Hypothesis HBool : forall b, P (PBool b).
Hypothesis HInt : forall z, P (PInt z).
Hypothesis HStr : forall s, P (PStr s).
Hypothesis HList : forall l, Forall P l -> P (PList l).
Hypothesis HDict : forall d, Forall (fun kv => P (snd kv)) d -> P (PDict d).

Fixpoint pyval_nested_ind (v : pyval) : P v :=
  match v with
  | PNone => HNone
  | PBool b => HBool b
  | PInt z => HInt z
  | PStr s => HStr s
  | PList l =>
      HList ((fix go (l : list pyval) : Forall P l :=
                match l with
                | [] => Forall_nil _
                | x :: l' => Forall_cons _ (pyval_nested_ind x) (go l')
                end) l)
  | PDict d =>
      HDict ((fix go (d : pydict) : Forall (fun kv => P (snd kv)) d :=
                match d with
                | [] => Forall_nil _
                | kv :: d' =>
                    Forall_cons (P := fun kv => P (snd kv)) kv
                      (pyval_nested_ind (snd kv)) (go d')
                end) d)
  end.
End PyvalInduction.

(** Structural equality of values (same constructor, same contents, dict
    items in the same order). *)
Fixpoint pyval_eqb (a b : pyval) : bool :=
  match a, b with
  | PNone, PNone => true
  | PBool x, PBool y => Bool.eqb x y
  | PInt x, PInt y => Z.eqb x y
  | PStr x, PStr y => String.eqb x y
  | PList x, PList y =>
      (fix go (x y : list pyval) : bool :=
         match x, y with
         | [], [] => true
         | a' :: x', b' :: y' => pyval_eqb a' b' && go x' y'
         | _, _ => false
         end) x y
  | PDict x, PDict y =>
      (fix go (x y : pydict) : bool :=
         match x, y with
         | [], [] => true
         | (k, a') :: x', (k', b') :: y' =>
             String.eqb k k' && pyval_eqb a' b' && go x' y'
         | _, _ => false
         end) x y
  | _, _ => false
  end.

(** [type(v).__name__] *)
Definition type_name (v : pyval) : string :=
  match v with
  | PNone => "NoneType"
  | PBool _ => "bool"
  | PInt _ => "int"
  | PStr _ => "str"
  | PList _ => "list"
  | PDict _ => "dict"
  end.

(** Truth value of [v] in [if v:] and [not v]. *)
Definition truthy (v : pyval) : bool :=
  match v with
  | PNone => false
  | PBool b => b
  | PInt z => negb (Z.eqb z 0)
  | PStr s => negb (String.eqb s "")
  | PList l => match l with [] => false | _ => true end
  | PDict d => match d with [] => false | _ => true end
  end.

(** [v == "literal"]: only the string itself compares equal to a string. *)
Definition py_eq_str (v : pyval) (s : string) : bool :=
  match v with
  | PStr x => String.eqb x s
  | _ => false
  end.

(** Item lookup in a dict. *)
Fixpoint dict_lookup (k : string) (d : pydict) : option pyval :=
  match d with
  | [] => None
  | (k', v) :: d' => if String.eqb k k' then Some v else dict_lookup k d'
  end.

(** [d.get(k, default)] on a dict. *)
Definition dict_get (d : pydict) (k : string) (default : pyval) : pyval :=
  match dict_lookup k d with
  | Some v => v
  | None => default
  end.

(** [k in d] on a dict. *)
Definition dict_mem (k : string) (d : pydict) : bool :=
  match dict_lookup k d with
  | Some _ => true
  | None => false
  end.

(* ================================================================== *)
(** * Exceptions *)
(* ================================================================== *)

(** The class of a raised exception, as far as the [except] clauses of the
    source tell classes apart. A constructor stands for the class and its
    subclasses; [HttpResponseError] carries its [status_code] attribute. All
    of them derive from [Exception]. *)
Inductive exn_class : Type :=
| TypeError
| AttributeError
| KeyError
| IndexError
| ValueError
| HttpResponseError (status_code : option Z)
| OtherException (name : string).

(** A raised exception: its class and [str(e)]. *)
Record exn : Type := Raise { exn_cls : exn_class; exn_str : string }.

(** Result of running a piece of Python: a value or a raised exception. *)
Inductive outcome (A : Type) : Type :=
| Ok (a : A)
| Exc (e : exn).
Arguments Ok {A} a.
Arguments Exc {A} e.

(** [v.get(k, default)]: only a dict has [get]. *)
Definition py_get (v : pyval) (k : string) (default : pyval) : outcome pyval :=
  match v with
  | PDict d => Ok (dict_get d k default)
  | _ => Exc (Raise AttributeError
                ("'" ++ type_name v ++ "' object has no attribute 'get'"))
  end.

(** A byte that continues a UTF-8 code point ([10xxxxxx]). *)
Definition is_continuation (c : ascii) : bool :=
  (128 <=? nat_of_ascii c)%nat && (nat_of_ascii c <? 192)%nat.

(** [len(s)]: the number of code points of [s]. *)
Fixpoint code_points (s : string) : nat :=
  match s with
  | EmptyString => 0
  | String c s' =>
      if is_continuation c then code_points s' else S (code_points s')
  end.

(** [s[:n]] on a [str]: its first [n] code points, each with all its
    bytes. *)
Fixpoint str_prefix (n : nat) (s : string) : string :=
  match s with
  | EmptyString => EmptyString
  | String c s' =>
      if is_continuation c then String c (str_prefix n s')
      else
        match n with
        | O => EmptyString
        | S n' => String c (str_prefix n' s')
        end
  end.

(** [v[:n]]: a prefix of a string or of a list. [None], numbers and
    booleans are not subscriptable; a dict cannot be indexed by a slice. *)
Definition py_slice_to (n : nat) (v : pyval) : outcome pyval :=
  match v with
  | PStr s => Ok (PStr (str_prefix n s))
  | PList l => Ok (PList (firstn n l))
  | PDict _ => Exc (Raise TypeError "unhashable type: 'slice'")
  | _ => Exc (Raise TypeError
                ("'" ++ type_name v ++ "' object is not subscriptable"))
  end.

(** The characters of a [str], one string per code point. *)
Fixpoint characters (s : string) : list string :=
  match s with
  | EmptyString => []
  | String c s' =>
      let rest := characters s' in
      match s' with
      | EmptyString => [String c EmptyString]
      | String c' _ =>
          if is_continuation c'
          then match rest with
               | x :: rest' => String c x :: rest'
               | [] => [String c EmptyString]
               end
          else String c EmptyString :: rest
      end
  end.

Definition chars_of (s : string) : list pyval := map PStr (characters s).

(** The elements [for x in v] runs over. *)
Definition py_iter (v : pyval) : outcome (list pyval) :=
  match v with
  | PList l => Ok l
  | PStr s => Ok (chars_of s)
  | PDict d => Ok (map (fun kv => PStr (fst kv)) d)
  | _ => Exc (Raise TypeError
                ("'" ++ type_name v ++ "' object is not iterable"))
  end.

(** [p in s] for strings: [p] occurs in [s]. *)
Fixpoint str_contains (p s : string) : bool :=
  prefix p s ||
  match s with
  | EmptyString => false
  | String _ s' => str_contains p s'
  end.

(** [k in v] for a string [k]. *)
Definition py_contains (k : string) (v : pyval) : outcome bool :=
  match v with
  | PDict d => Ok (dict_mem k d)
  | PList l => Ok (existsb (fun x => py_eq_str x k) l)
  | PStr s => Ok (str_contains k s)
  | _ => Exc (Raise TypeError
                ("argument of type '" ++ type_name v ++ "' is not iterable"))
  end.

(** [v[k]] for a string key [k]. *)
Definition py_index (v : pyval) (k : string) : outcome pyval :=
  match v with
  | PDict d =>
      match dict_lookup k d with
      | Some x => Ok x
      | None => Exc (Raise KeyError ("'" ++ k ++ "'"))
      end
  | PList _ =>
      Exc (Raise TypeError "list indices must be integers or slices, not str")
  | PStr _ =>
      Exc (Raise TypeError "string indices must be integers, not 'str'")
  | _ => Exc (Raise TypeError
                ("'" ++ type_name v ++ "' object is not subscriptable"))
  end.

(** [d[k] = v] on a dict: an existing key keeps its place. *)
Fixpoint dict_set (k : string) (v : pyval) (d : pydict) : pydict :=
  match d with
  | [] => [(k, v)]
  | (k', v') :: d' =>
      if String.eqb k k' then (k, v) :: d' else (k', v') :: dict_set k v d'
  end.

(* ================================================================== *)
(** * Logging *)
(* ================================================================== *)

(** [logger.info], [logger.warning], [logger.error] and [logger.exception]
    (the last logs at error level with the traceback). *)
Inductive level : Type := INFO | WARNING | ERROR | EXCEPTION.

(** The pieces of an f-string: literal text, a formatted value, a formatted
    exception, and the text of [json.dumps]. *)
Inductive frag : Type :=
| Lit (s : string)
| Val (v : pyval)
| Err (e : exn)
| Dumps (v : pyval).

Definition log_entry : Type := (level * list frag)%type.

(** An environment variable read with [os.environ.get]: [if X:] holds when
    it is set to a non-empty string. *)
Definition configured (x : option string) : bool :=
  match x with
  | Some s => negb (String.eqb s "")
  | None => false
  end.

(* ================================================================== *)
(** * Running Python: state and exceptions *)
(* ================================================================== *)

(** A computation over a world [W]: it returns the world it leaves behind
    together with a value or the exception raised. What was logged or
    written before a [raise] stays in the world. *)
Definition M (W A : Type) : Type := W -> W * outcome A.

Section Monad.
Context {W : Type}.

Definition ret {A} (a : A) : M W A := fun w => (w, Ok a).

Definition bind {A B} (m : M W A) (k : A -> M W B) : M W B :=
  fun w =>
    match m w with
    | (w', Ok a) => k a w'
    | (w', Exc e) => (w', Exc e)
    end.

Definition raise {A} (e : exn) : M W A := fun w => (w, Exc e).

Definition lift {A} (o : outcome A) : M W A := fun w => (w, o).

(** [try: body except Exception as e: handler e] *)
Definition try_except {A} (body : M W A) (handler : exn -> M W A) : M W A :=
  fun w =>
    match body w with
    | (w', Ok a) => (w', Ok a)
    | (w', Exc e) => handler e w'
    end.

(** A call into the SDK that either raises or returns. *)
Definition external (fault : option exn) : M W unit :=
  match fault with
  | Some e => raise e
  | None => ret tt
  end.
End Monad.

Notation "x <- m ;; k" := (bind m (fun x => k))
  (at level 61, m at next level, right associativity).
Notation "m ;; k" := (bind m (fun _ => k))
  (at level 61, right associativity).

(** [for x in l: body x] *)
Fixpoint for_each {W A} (l : list A) (body : A -> M W unit) : M W unit :=
  match l with
  | [] => ret tt
  | x :: l' => body x ;; for_each l' body
  end.

(* ================================================================== *)
(** * functions/function_app.py *)
(* ================================================================== *)

Module FunctionApp.

(** What an invocation leaves behind: the lines logged, the number of
    [CosmosClient] constructions, and the items the store accepted through
    [upsert_item], each with its database and container, oldest first. *)
Record World : Type := {
  logs : list log_entry;
  cosmos_clients : nat;
  upserted : list (string * string * pydict)
}.

Definition empty_world : World :=
  {| logs := []; cosmos_clients := 0; upserted := [] |}.

(** What the surroundings decide for one invocation: the module constant
    [COSMOS_ENDPOINT], the reading of the clock, and whether a call into
    the Azure SDK raises. *)
Record Env : Type := {
  COSMOS_ENDPOINT : option string;
  utcnow_isoformat : string;
  credential_fault : option exn;
  client_fault : option exn;
  upsert_fault : string -> pydict -> option exn;
  list_containers_fault : option exn
}.

Definition COSMOS_DATABASE : string := "acs-database".

(** [func.EventGridEvent] as the handlers use it. The attributes hold
    whatever the trigger binding decoded; an absent envelope field is
    [PNone]. *)
Record EventGridEvent : Type := {
  id : pyval;
  event_type : pyval;
  data : pyval
}.

Definition get_json (event : EventGridEvent) : pyval := data event.

(** ** Effects *)

Definition log (lv : level) (msg : list frag) : M World unit :=
  fun w =>
    ({| logs := logs w ++ [(lv, msg)];
        cosmos_clients := cosmos_clients w;
        upserted := upserted w |}, Ok tt).

Definition count_client : M World unit :=
  fun w =>
    ({| logs := logs w;
        cosmos_clients := S (cosmos_clients w);
        upserted := upserted w |}, Ok tt).

(** A computation that only logs: it leaves the store and the client count
    as they were, however it ends. *)
Definition quiet {A} (m : M World A) : Prop :=
  forall w w' o, m w = (w', o) ->
    upserted w' = upserted w /\ cosmos_clients w' = cosmos_clients w.

Section Handlers.
Variable env : Env.

(** [get_cosmos_client()]: a fresh credential, then the client. *)
Definition get_cosmos_client : M World unit :=
  external (credential_fault env) ;;
  count_client ;;
  external (client_fault env).

(** [container.upsert_item(item)] on container [c] of database [db]: the
    service refuses (and raises) or accepts the item. *)
Definition upsert_item (db c : string) (item : pydict) : M World unit :=
  match upsert_fault env c item with
  | Some e => raise e
  | None =>
      fun w =>
        ({| logs := logs w;
            cosmos_clients := cosmos_clients w;
            upserted := upserted w ++ [(db, c, item)] |}, Ok tt)
  end.

(** [list(database.list_containers(max_item_count=n))] *)
Definition list_containers (db : string) (max_item_count : Z) : M World unit :=
  external (list_containers_fault env).

Definition utcnow : M World pyval := ret (PStr (utcnow_isoformat env)).

Definition process_sms_received (event : EventGridEvent) : M World unit :=
  log INFO [Lit "SMS Received Event: "; Val (id event)] ;;
  try_except
    (let data := get_json event in
     messageId <- lift (py_get data "messageId" PNone) ;;
     from <- lift (py_get data "from" PNone) ;;
     to <- lift (py_get data "to" PNone) ;;
     message <- lift (py_get data "message" PNone) ;;
     receivedAt <- lift (py_get data "receivedTimestamp" PNone) ;;
     processedAt <- utcnow ;;
     let sms_data :=
       [("id", id event); ("type", PStr "sms_received");
        ("messageId", messageId); ("from", from); ("to", to);
        ("message", message); ("receivedAt", receivedAt);
        ("processedAt", processedAt)] in
     sms_from <- lift (py_index (PDict sms_data) "from") ;;
     sms_to <- lift (py_index (PDict sms_data) "to") ;;
     log INFO [Lit "SMS from "; Val sms_from; Lit " to "; Val sms_to] ;;
     if configured (COSMOS_ENDPOINT env) then
       get_cosmos_client ;;
       callId <- lift (py_get data "messageId" PNone) ;;
       upsert_item COSMOS_DATABASE "call-logs"
         [("id", id event); ("callId", callId); ("type", PStr "sms");
          ("direction", PStr "inbound"); ("data", PDict sms_data)] ;;
       log INFO [Lit "SMS logged to Cosmos DB: "; Val (id event)]
     else ret tt)
    (fun e =>
       log EXCEPTION [Lit "Error processing SMS event: "; Err e] ;;
       raise e).

Definition process_chat_message (event_id : pyval) (data : pyval) : M World unit :=
  thread_id <- lift (py_get data "threadId" PNone) ;;
  sender_id <- lift (py_get data "senderId" PNone) ;;
  message <- lift (py_get data "messageBody" PNone) ;;
  thread_20 <- lift (py_slice_to 20 thread_id) ;;
  sender_20 <- lift (py_slice_to 20 sender_id) ;;
  log INFO [Lit "Chat message in thread "; Val thread_20;
            Lit "... from "; Val sender_20; Lit "..."] ;;
  if configured (COSMOS_ENDPOINT env) then
    get_cosmos_client ;;
    timestamp <- lift (py_get data "transactionId" PNone) ;;
    processedAt <- utcnow ;;
    upsert_item COSMOS_DATABASE "chat-history"
      [("id", event_id); ("threadId", thread_id); ("senderId", sender_id);
       ("message", message); ("timestamp", timestamp);
       ("processedAt", processedAt)] ;;
    log INFO [Lit "Chat message logged: "; Val event_id]
  else ret tt.

Definition process_thread_created (event_id : pyval) (data : pyval) : M World unit :=
  thread_id <- lift (py_get data "threadId" PNone) ;;
  created_by <- lift (py_get data "createdBy" PNone) ;;
  thread_20 <- lift (py_slice_to 20 thread_id) ;;
  created_20 <- lift (py_slice_to 20 created_by) ;;
  log INFO [Lit "Chat thread created: "; Val thread_20;
            Lit "... by "; Val created_20; Lit "..."].

Definition process_participant_added (event_id : pyval) (data : pyval)
  : M World unit :=
  thread_id <- lift (py_get data "threadId" PNone) ;;
  participants <- lift (py_get data "participantsAdded" (PList [])) ;;
  ps <- lift (py_iter participants) ;;
  for_each ps (fun p =>
    thread_20 <- lift (py_slice_to 20 thread_id) ;;
    p_id <- lift (py_get p "id" (PStr "")) ;;
    p_20 <- lift (py_slice_to 20 p_id) ;;
    log INFO [Lit "Participant added to "; Val thread_20;
              Lit "...: "; Val p_20; Lit "..."]).

Definition process_chat_event (event : EventGridEvent) : M World unit :=
  let event_type := event_type event in
  log INFO [Lit "Chat Event: "; Val event_type; Lit ", ID: "; Val (id event)] ;;
  try_except
    (let data := get_json event in
     if py_eq_str event_type "Microsoft.Communication.ChatMessageReceived"
     then process_chat_message (id event) data
     else if py_eq_str event_type "Microsoft.Communication.ChatThreadCreated"
     then process_thread_created (id event) data
     else if py_eq_str event_type "Microsoft.Communication.ChatParticipantAdded"
     then process_participant_added (id event) data
     else log WARNING [Lit "Unknown chat event type: "; Val event_type])
    (fun e =>
       log EXCEPTION [Lit "Error processing chat event: "; Err e] ;;
       raise e).

Definition process_recording_event (event : EventGridEvent) : M World unit :=
  log INFO [Lit "Recording Event: "; Val (id event)] ;;
  try_except
    (let data := get_json event in
     recording_status <- lift (py_get data "recordingStorageInfo" (PDict [])) ;;
     recording_chunks <-
       lift (py_get recording_status "recordingChunks" (PList [])) ;;
     chunks <- lift (py_iter recording_chunks) ;;
     for_each chunks (fun chunk =>
       content_location <- lift (py_get chunk "contentLocation" PNone) ;;
       delete_location <- lift (py_get chunk "deleteLocation" PNone) ;;
       log INFO [Lit "Recording available at: "; Val content_location]) ;;
     if configured (COSMOS_ENDPOINT env) then
       get_cosmos_client ;;
       callId <- lift (py_get data "serverCallId" PNone) ;;
       processedAt <- utcnow ;;
       upsert_item COSMOS_DATABASE "call-logs"
         [("id", id event); ("callId", callId); ("type", PStr "recording");
          ("status", PStr "available"); ("chunks", recording_chunks);
          ("processedAt", processedAt)] ;;
       log INFO [Lit "Recording event logged: "; Val (id event)]
     else ret tt)
    (fun e =>
       log EXCEPTION [Lit "Error processing recording event: "; Err e] ;;
       raise e).

(** The timer-triggered function; the [timer] argument is not read. *)
Definition health_check : M World unit :=
  log INFO [Lit "Running health check..."] ;;
  timestamp <- utcnow ;;
  let health_status :=
    [("timestamp", timestamp); ("cosmos_db", PStr "unknown");
     ("key_vault", PStr "unknown")] in
  health_status <-
    (if configured (COSMOS_ENDPOINT env) then
       try_except
         (get_cosmos_client ;;
          list_containers COSMOS_DATABASE 1 ;;
          ret (dict_set "cosmos_db" (PStr "healthy") health_status))
         (fun e =>
            let health_status :=
              dict_set "cosmos_db" (PStr ("unhealthy: " ++ exn_str e))
                health_status in
            log ERROR [Lit "Cosmos DB health check failed: "; Err e] ;;
            ret health_status)
     else ret (dict_set "cosmos_db" (PStr "not configured") health_status)) ;;
  log INFO [Lit "Health check complete: "; Dumps (PDict health_status)].

(** The first exception the probe of [health_check] meets, if any: from
    the credential, from the client, or from listing the containers. *)
Definition probe_fault : option exn :=
  match credential_fault env with
  | Some e => Some e
  | None =>
      match client_fault env with
      | Some e => Some e
      | None => list_containers_fault env
      end
  end.

(** The line [health_check] ends with, for the snapshot [health_status]. *)
Definition health_line (health_status : pydict) : log_entry :=
  (INFO, [Lit "Health check complete: "; Dumps (PDict health_status)]).

(** What a run of a handler from [w] to [w'] with outcome [o] did to the
    store: a run that completes has appended exactly one item, to container
    [c], and the item satisfies [P]; a run that raises has appended
    nothing. *)
Definition wrote_one (w w' : World) (o : outcome unit) (c : string)
  (P : pydict -> Prop) : Prop :=
  match o with
  | Ok _ =>
      exists item,
        upserted w' = (upserted w ++ [(COSMOS_DATABASE, c, item)])%list /\
        P item
  | Exc _ => upserted w' = upserted w
  end.

(** The item has the event's id, and its field [key] is the entry [field]
    of the event data ([None] when the data has no such entry). *)
Definition keyed_by (event : EventGridEvent) (key field : string)
  (item : pydict) : Prop :=
  dict_lookup "id" item = Some (id event) /\
  exists d,
    data event = PDict d /\
    dict_lookup key item = Some (dict_get d field PNone).

(** ** The items written

    The dict literals the three persisting handlers pass to [upsert_item],
    for an event with id [event_id] whose data is the dict [d]. *)

Definition sms_item (event_id : pyval) (d : pydict) : pydict :=
  [("id", event_id);
   ("callId", dict_get d "messageId" PNone);
   ("type", PStr "sms");
   ("direction", PStr "inbound");
   ("data", PDict
      [("id", event_id); ("type", PStr "sms_received");
       ("messageId", dict_get d "messageId" PNone);
       ("from", dict_get d "from" PNone);
       ("to", dict_get d "to" PNone);
       ("message", dict_get d "message" PNone);
       ("receivedAt", dict_get d "receivedTimestamp" PNone);
       ("processedAt", PStr (utcnow_isoformat env))])].

Definition chat_item (event_id : pyval) (d : pydict) : pydict :=
  [("id", event_id);
   ("threadId", dict_get d "threadId" PNone);
   ("senderId", dict_get d "senderId" PNone);
   ("message", dict_get d "messageBody" PNone);
   ("timestamp", dict_get d "transactionId" PNone);
   ("processedAt", PStr (utcnow_isoformat env))].

Definition recording_item (event_id : pyval) (d : pydict) (chunks : pyval)
  : pydict :=
  [("id", event_id);
   ("callId", dict_get d "serverCallId" PNone);
   ("type", PStr "recording");
   ("status", PStr "available");
   ("chunks", chunks);
   ("processedAt", PStr (utcnow_isoformat env))].

(** [recording_chunks] as [process_recording_event] computes it from the
    data dict [d]. *)
Definition recording_chunks_of (d : pydict) : outcome pyval :=
  py_get (dict_get d "recordingStorageInfo" (PDict [])) "recordingChunks"
    (PList []).

End Handlers.

End FunctionApp.

(* ================================================================== *)
(** * The document store *)
(* ================================================================== *)

Module Store.

Definition opt_eqb (a b : option pyval) : bool :=
  match a, b with
  | Some x, Some y => pyval_eqb x y
  | None, None => true
  | _, _ => false
  end.

(** A slot of a container: the record id and the partition key. *)
Definition slot : Type := (option pyval * option pyval)%type.

Definition slot_eqb (a b : slot) : bool :=
  opt_eqb (fst a) (fst b) && opt_eqb (snd a) (snd b).

Section Container.
(** The field of a record that holds the partition key of the container
    ([callId] for [call-logs], [threadId] for [chat-history]). *)
Variable partition_key : string.

Definition slot_of (record : pydict) : slot :=
  (dict_lookup "id" record, dict_lookup partition_key record).

(** Modelled from the spec: the store behind [container.upsert_item] is the
    Azure Cosmos DB service, which has no source in the repository. The
    spec gives its contract: [record.id] and [record.partitionKey] together
    address a single logical slot, and an upsert inserts if the slot is
    absent or overwrites if it is present. A container is the list of its
    records. *)
Fixpoint upsert (record : pydict) (store : list pydict) : list pydict :=
  match store with
  | [] => [record]
  | r :: store' =>
      if slot_eqb (slot_of r) (slot_of record)
      then record :: store'
      else r :: upsert record store'
  end.

(** The records a container holds at a slot. *)
Definition records_at (k : slot) (store : list pydict) : list pydict :=
  filter (fun r => slot_eqb (slot_of r) k) store.

(** The container after a sequence of upserts into the empty container. *)
Definition store_after (records : list pydict) : list pydict :=
  fold_left (fun store r => upsert r store) records [].

(** No two records of the container share a slot. *)
Definition distinct_slots (store : list pydict) : Prop :=
  NoDup (map slot_of store).

End Container.

End Store.

(* ================================================================== *)
(** * app.py *)
(* ================================================================== *)

Module App.

(** The module globals of the lazily created clients ([true] once the
    object exists) and the lines logged. *)
Record World : Type := {
  logs : list log_entry;
  _credential : bool;
  _sms_client : bool
}.

(** One entry of the list [SmsClient.send] returns. *)
Record SmsSendResult : Type := {
  message_id : pyval;
  to : pyval;
  successful : pyval;
  http_status_code : pyval
}.

(** What the surroundings decide for one request: the module constant
    [ACS_ENDPOINT], what [request.get_json()] gives, and how the calls
    into the Azure SDK end. *)
Record Env : Type := {
  ACS_ENDPOINT : option string;
  request_get_json : outcome pyval;
  credential_fault : option exn;
  sms_client_fault : option exn;
  sms_send :
    pyval -> pyval -> pyval -> pyval -> pyval -> outcome (list SmsSendResult)
}.

(** What a view hands to Flask: the JSON body and the status code. *)
Record Response : Type := {
  body : pyval;
  status : Z
}.

(** [return jsonify(d), code] *)
Definition jsonify (d : pydict) (code : Z) : Response :=
  {| body := PDict d; status := code |}.

Definition empty_world : World :=
  {| logs := []; _credential := false; _sms_client := false |}.

(** [e.status_code] as a value. *)
Definition status_code_value (sc : option Z) : pyval :=
  match sc with
  | Some z => PInt z
  | None => PNone
  end.

(** [e.status_code or 500] *)
Definition status_code_or_500 (sc : option Z) : Z :=
  match sc with
  | Some z => if Z.eqb z 0 then 500 else z
  | None => 500
  end.

(** The status an exception is answered with by [handle_errors]. *)
Definition status_of_exception (e : exn) : Z :=
  match exn_cls e with
  | ValueError => 400
  | HttpResponseError sc => status_code_or_500 sc
  | _ => 500
  end.

(** The body is a JSON object with an [error] and a [type] field. *)
Definition structured_error (r : Response) : Prop :=
  exists d,
    body r = PDict d /\ dict_mem "error" d = true /\ dict_mem "type" d = true.

Definition log (lv : level) (msg : list frag) : M World unit :=
  fun w =>
    ({| logs := logs w ++ [(lv, msg)];
        _credential := _credential w;
        _sms_client := _sms_client w |}, Ok tt).

Definition set_credential : M World unit :=
  fun w =>
    ({| logs := logs w; _credential := true; _sms_client := _sms_client w |},
     Ok tt).

Definition set_sms_client : M World unit :=
  fun w =>
    ({| logs := logs w; _credential := _credential w; _sms_client := true |},
     Ok tt).

Definition read {A} (f : World -> A) : M World A := fun w => (w, Ok (f w)).

(** The decorator [handle_errors] applied to a view [f]. The [except]
    clauses are tried in the order of the source. *)
Definition handle_errors (f : M World Response) : M World Response :=
  try_except f
    (fun e =>
       match exn_cls e with
       | ValueError =>
           log ERROR [Lit "Validation error: "; Err e] ;;
           ret (jsonify [("error", PStr (exn_str e));
                         ("type", PStr "validation_error")] 400)
       | HttpResponseError sc =>
           log ERROR [Lit "ACS error: "; Err e] ;;
           ret (jsonify [("error", PStr (exn_str e));
                         ("type", PStr "acs_error");
                         ("status_code", status_code_value sc)]
                  (status_code_or_500 sc))
       | _ =>
           log EXCEPTION [Lit "Unexpected error: "; Err e] ;;
           ret (jsonify [("error", PStr "Internal server error");
                         ("type", PStr "internal_error")] 500)
       end).

(** The loop over [required_fields] of [send_sms]: the response of the
    first missing field, if any. *)
Fixpoint check_required (fields : list string) (data : pyval)
  : outcome (option Response) :=
  match fields with
  | [] => Ok None
  | field :: fields' =>
      match py_contains field data with
      | Exc e => Exc e
      | Ok false =>
          Ok (Some (jsonify
                      [("error", PStr ("Missing required field: " ++ field))]
                      400))
      | Ok true => check_required fields' data
      end
  end.

(** [response[0]] *)
Definition first_result (response : list SmsSendResult)
  : outcome SmsSendResult :=
  match response with
  | r :: _ => Ok r
  | [] => Exc (Raise IndexError "list index out of range")
  end.

Section Views.
Variable env : Env.

Definition get_credential : M World unit :=
  created <- read _credential ;;
  if created then ret tt
  else external (credential_fault env) ;; set_credential.

Definition get_sms_client : M World unit :=
  created <- read _sms_client ;;
  if created then ret tt
  else
    if negb (configured (ACS_ENDPOINT env))
    then raise (Raise ValueError "ACS_ENDPOINT environment variable not set")
    else
      get_credential ;;
      external (sms_client_fault env) ;;
      set_sms_client.

(** The view [send_sms], before decoration. *)
Definition send_sms_view : M World Response :=
  data <- lift (request_get_json env) ;;
  if negb (truthy data)
  then ret (jsonify [("error", PStr "Request body required")] 400)
  else
    missing <- lift (check_required ["from"; "to"; "message"] data) ;;
    match missing with
    | Some response => ret response
    | None =>
        get_sms_client ;;
        from_ <- lift (py_index data "from") ;;
        to_ <- lift (py_index data "to") ;;
        message <- lift (py_index data "message") ;;
        enable_delivery_report <-
          lift (py_get data "enable_delivery_report" (PBool true)) ;;
        tag <- lift (py_get data "tag" PNone) ;;
        response <-
          lift (sms_send env from_ to_ message enable_delivery_report tag) ;;
        result <- lift (first_result response) ;;
        data_to <- lift (py_index data "to") ;;
        log INFO [Lit "SMS sent: "; Val (message_id result);
                  Lit " to "; Val data_to] ;;
        ret (jsonify [("message_id", message_id result);
                      ("to", to result);
                      ("successful", successful result);
                      ("http_status", http_status_code result)] 200)
    end.

(** [send_sms] as routed: [@handle_errors] around the view. *)
Definition send_sms : M World Response := handle_errors send_sms_view.

End Views.

End App.

(* ================================================================== *)
(** * Concrete inputs *)
(* ================================================================== *)

Module Scenario.
Import FunctionApp.

(** A deployment with the store configured and every SDK call succeeding. *)
Definition env_ok : Env :=
  {| COSMOS_ENDPOINT := Some "https://acs.documents.azure.com";
     utcnow_isoformat := "2024-01-01T00:00:05";
     credential_fault := None;
     client_fault := None;
     upsert_fault := fun _ _ => None;
     list_containers_fault := None |}.

(** The same deployment without [COSMOS_DB_ENDPOINT]. *)
Definition env_unconfigured : Env :=
  {| COSMOS_ENDPOINT := None;
     utcnow_isoformat := "2024-01-01T00:00:05";
     credential_fault := None;
     client_fault := None;
     upsert_fault := fun _ _ => None;
     list_containers_fault := None |}.

(** The store configured but unreachable, the SDK raising an exception
    whose text is [text]. *)
Definition env_unreachable (text : string) : Env :=
  {| COSMOS_ENDPOINT := Some "https://acs.documents.azure.com";
     utcnow_isoformat := "2024-01-01T00:00:05";
     credential_fault := None;
     client_fault := None;
     upsert_fault := fun _ _ => None;
     list_containers_fault :=
       Some (Raise (OtherException "ServiceRequestError") text) |}.

(** The SMS envelope of the spec's scenario. *)
Definition sms_data : pydict :=
  [("messageId", PStr "m1"); ("from", PStr "+1"); ("to", PStr "+2");
   ("message", PStr "hi");
   ("receivedTimestamp", PStr "2024-01-01T00:00:00Z")].

Definition sms_event : EventGridEvent :=
  {| id := PStr "evt-1";
     event_type := PStr "Microsoft.Communication.SMSReceived";
     data := PDict sms_data |}.

(** The record the spec's scenario expects in the store. *)
Definition sms_record_of_spec : pydict :=
  [("id", PStr "evt-1"); ("partitionKey", PStr "m1"); ("type", PStr "sms");
   ("direction", PStr "inbound"); ("from", PStr "+1"); ("to", PStr "+2");
   ("message", PStr "hi")].

(** The same envelope delivered without an [id]. *)
Definition sms_event_without_id : EventGridEvent :=
  {| id := PNone;
     event_type := PStr "Microsoft.Communication.SMSReceived";
     data := PDict sms_data |}.

(** A chat message event whose data has no [threadId]. *)
Definition chat_event_without_thread : EventGridEvent :=
  {| id := PStr "evt-2";
     event_type := PStr "Microsoft.Communication.ChatMessageReceived";
     data := PDict [("senderId", PStr "8:acs:user-1");
                    ("messageBody", PStr "hello")] |}.

(** A complete chat message event. *)
Definition chat_event : EventGridEvent :=
  {| id := PStr "evt-3";
     event_type := PStr "Microsoft.Communication.ChatMessageReceived";
     data := PDict [("threadId", PStr "19:thread-1");
                    ("senderId", PStr "8:acs:user-1");
                    ("messageBody", PStr "hello");
                    ("transactionId", PStr "tx-1")] |}.

(** A recording event with an empty chunk list and a [status] entry of its
    own in the payload. *)
Definition recording_event : EventGridEvent :=
  {| id := PStr "evt-4";
     event_type := PStr "Microsoft.Communication.RecordingFileStatusUpdated";
     data := PDict [("serverCallId", PStr "call-1");
                    ("status", PStr "failed");
                    ("recordingStorageInfo",
                     PDict [("recordingChunks", PList [])])] |}.

End Scenario.

Module ApiScenario.
Import App.

Definition sent : SmsSendResult :=
  {| message_id := PStr "msg-1"; to := PStr "+2";
     successful := PBool true; http_status_code := PInt 202 |}.

(** A request to [/api/v1/sms/send] with JSON body [request_body], the
    endpoint configured and every SDK call succeeding. *)
Definition env_with (request_body : pyval) : Env :=
  {| ACS_ENDPOINT := Some "https://acs.communication.azure.com";
     request_get_json := Ok request_body;
     credential_fault := None;
     sms_client_fault := None;
     sms_send := fun _ _ _ _ _ => Ok [sent] |}.

(** A body without the recipient. *)
Definition body_without_to : pyval :=
  PDict [("from", PStr "+1"); ("message", PStr "hi")].

(** A view that raises [e]. *)
Definition raising (e : exn) : M World Response := raise e.

End ApiScenario.

(* ================================================================== *)
(** * Vocabulary for the behaviour of the event functions *)
(* ================================================================== *)

Module Ingest.
Import FunctionApp.

(** [v[:20]] succeeds: [v] is a string or a list. *)
Definition sliceable (v : pyval) : bool :=
  match v with
  | PStr _ | PList _ => true
  | _ => false
  end.

Definition is_dict (v : pyval) : bool :=
  match v with
  | PDict _ => true
  | _ => false
  end.

(** The first exception a handler meets on its way to the store for
    [item] in container [c]: from the credential, from the client, or from
    the upsert. *)
Definition store_fault (env : Env) (c : string) (item : pydict)
  : option exn :=
  match credential_fault env with
  | Some e => Some e
  | None =>
      match client_fault env with
      | Some e => Some e
      | None => upsert_fault env c item
      end
  end.

(** The exception [v.get(...)] raises when [v] is not a dict. *)
Definition no_get (v : pyval) : exn :=
  Raise AttributeError ("'" ++ type_name v ++ "' object has no attribute 'get'").

(** The line [process_recording_event] logs for one chunk. *)
Definition chunk_line (chunk : pyval) : log_entry :=
  (INFO, [Lit "Recording available at: ";
          Val (match chunk with
               | PDict c => dict_get c "contentLocation" PNone
               | _ => PNone
               end)]).

(** The id of a participant as [process_participant_added] prints it, when
    the participant is a dict whose [id] is a string or is absent. *)
Definition participant_id (p : pyval) : option string :=
  match p with
  | PDict d =>
      match dict_get d "id" (PStr "") with
      | PStr s => Some s
      | _ => None
      end
  | _ => None
  end.

(** The line [process_participant_added] logs for participant [p] of the
    thread [thread_id]. *)
Definition participant_line (thread_id : string) (p : pyval) : log_entry :=
  (INFO, [Lit "Participant added to ";
          Val (PStr (str_prefix 20 thread_id));
          Lit "...: ";
          Val (PStr (str_prefix 20
                       (match participant_id p with
                        | Some s => s
                        | None => ""
                        end)));
          Lit "..."]).

(** The line the three trigger functions log before they raise [e]
    again. *)
Definition failure_line (what : string) (e : exn) : log_entry :=
  (EXCEPTION, [Lit ("Error processing " ++ what ++ ": "); Err e]).

(** The world [w] with one more line logged. *)
Definition with_line (w : World) (line : log_entry) : World :=
  {| logs := logs w ++ [line];
     cosmos_clients := cosmos_clients w;
     upserted := upserted w |}.

(** The [try] block of [process_sms_received]. *)
Definition sms_try_block (env : Env) (event : EventGridEvent) : M World unit :=
  let data := get_json event in
  messageId <- lift (py_get data "messageId" PNone) ;;
  from <- lift (py_get data "from" PNone) ;;
  to <- lift (py_get data "to" PNone) ;;
  message <- lift (py_get data "message" PNone) ;;
  receivedAt <- lift (py_get data "receivedTimestamp" PNone) ;;
  processedAt <- utcnow env ;;
  let sms_data :=
    [("id", id event); ("type", PStr "sms_received");
     ("messageId", messageId); ("from", from); ("to", to);
     ("message", message); ("receivedAt", receivedAt);
     ("processedAt", processedAt)] in
  sms_from <- lift (py_index (PDict sms_data) "from") ;;
  sms_to <- lift (py_index (PDict sms_data) "to") ;;
  log INFO [Lit "SMS from "; Val sms_from; Lit " to "; Val sms_to] ;;
  if configured (COSMOS_ENDPOINT env) then
    get_cosmos_client env ;;
    callId <- lift (py_get data "messageId" PNone) ;;
    upsert_item env COSMOS_DATABASE "call-logs"
      [("id", id event); ("callId", callId); ("type", PStr "sms");
       ("direction", PStr "inbound"); ("data", PDict sms_data)] ;;
    log INFO [Lit "SMS logged to Cosmos DB: "; Val (id event)]
  else ret tt.

(** The [try] block of [process_chat_event]. *)
Definition chat_try_block (env : Env) (event : EventGridEvent) : M World unit :=
  let event_type := event_type event in
  let data := get_json event in
  if py_eq_str event_type "Microsoft.Communication.ChatMessageReceived"
  then process_chat_message env (id event) data
  else if py_eq_str event_type "Microsoft.Communication.ChatThreadCreated"
  then process_thread_created (id event) data
  else if py_eq_str event_type "Microsoft.Communication.ChatParticipantAdded"
  then process_participant_added (id event) data
  else log WARNING [Lit "Unknown chat event type: "; Val event_type].

(** The [try] block of [process_recording_event]. *)
Definition recording_try_block (env : Env) (event : EventGridEvent)
  : M World unit :=
  let data := get_json event in
  recording_status <- lift (py_get data "recordingStorageInfo" (PDict [])) ;;
  recording_chunks <-
    lift (py_get recording_status "recordingChunks" (PList [])) ;;
  chunks <- lift (py_iter recording_chunks) ;;
  for_each chunks (fun chunk =>
    content_location <- lift (py_get chunk "contentLocation" PNone) ;;
    delete_location <- lift (py_get chunk "deleteLocation" PNone) ;;
    log INFO [Lit "Recording available at: "; Val content_location]) ;;
  if configured (COSMOS_ENDPOINT env) then
    get_cosmos_client env ;;
    callId <- lift (py_get data "serverCallId" PNone) ;;
    processedAt <- utcnow env ;;
    upsert_item env COSMOS_DATABASE "call-logs"
      [("id", id event); ("callId", callId); ("type", PStr "recording");
       ("status", PStr "available"); ("chunks", recording_chunks);
       ("processedAt", processedAt)] ;;
    log INFO [Lit "Recording event logged: "; Val (id event)]
  else ret tt.

(** A function [run], started in [w], is its opening line followed by
    [block] under [except Exception as e: logger.exception(...); raise]:
    when the block completes the function completes in the block's world,
    and when the block raises [e] the function logs the failure line for
    [e] and leaves with [e] itself. *)
Definition reraises (what : string) (opening : log_entry)
  (block : M World unit) (w : World) (run : World * outcome unit) : Prop :=
  forall w1 o,
    block (with_line w opening) = (w1, o) ->
    match o with
    | Ok a => run = (w1, Ok a)
    | Exc e => run = (with_line w1 (failure_line what e), Exc e)
    end.

(** A computation that constructs no store client, however it ends. *)
Definition keeps_clients {A} (m : M World A) : Prop :=
  forall w w' o, m w = (w', o) -> cosmos_clients w' = cosmos_clients w.

(** A computation that, when it completes, has constructed exactly one
    store client. *)
Definition opens_one {A} (m : M World A) : Prop :=
  forall w w' a, m w = (w', Ok a) -> cosmos_clients w' = S (cosmos_clients w).

(** The records of container [c] among the items a world has seen
    accepted, oldest first. *)
Definition accepted_in (c : string) (w : World) : list pydict :=
  map snd (filter (fun x => String.eqb (snd (fst x)) c) (upserted w)).

(** The event type is one of the three [process_chat_event] routes. *)
Definition known_chat_type (t : pyval) : bool :=
  py_eq_str t "Microsoft.Communication.ChatMessageReceived" ||
  py_eq_str t "Microsoft.Communication.ChatThreadCreated" ||
  py_eq_str t "Microsoft.Communication.ChatParticipantAdded".

End Ingest.

Module Samples.
Import FunctionApp.

Definition thread_created_event : EventGridEvent :=
  {| id := PStr "evt-5";
     event_type := PStr "Microsoft.Communication.ChatThreadCreated";
     data := PDict [("threadId", PStr "19:thread-1");
                    ("createdBy", PStr "8:acs:user-1")] |}.

Definition participants_event : EventGridEvent :=
  {| id := PStr "evt-6";
     event_type := PStr "Microsoft.Communication.ChatParticipantAdded";
     data := PDict [("threadId", PStr "19:a-thread-with-a-long-identifier");
                    ("participantsAdded",
                     PList [PDict [("id", PStr "8:acs:user-1")];
                            PDict [("displayName", PStr "Ann")]])] |}.

(** An SMS event whose data is a list, not an object. *)
Definition sms_event_with_list : EventGridEvent :=
  {| id := PStr "evt-7";
     event_type := PStr "Microsoft.Communication.SMSReceived";
     data := PList [PStr "m1"] |}.

(** A recording event with two chunks, the second of them a string. *)
Definition recording_event_bad_chunk : EventGridEvent :=
  {| id := PStr "evt-8";
     event_type := PStr "Microsoft.Communication.RecordingFileStatusUpdated";
     data := PDict [("serverCallId", PStr "call-1");
                    ("recordingStorageInfo",
                     PDict [("recordingChunks",
                             PList [PDict [("contentLocation", PStr "https://a/1")];
                                    PStr "https://a/2"])])] |}.

(** A recording event with two well-formed chunks. *)
Definition recording_event_two_chunks : EventGridEvent :=
  {| id := PStr "evt-9";
     event_type := PStr "Microsoft.Communication.RecordingFileStatusUpdated";
     data := PDict [("serverCallId", PStr "call-1");
                    ("recordingStorageInfo",
                     PDict [("recordingChunks",
                             PList [PDict [("contentLocation", PStr "https://a/1");
                                           ("deleteLocation", PStr "https://d/1")];
                                    PDict [("documentId", PStr "doc-2")]])])] |}.

(** The deployment of [Scenario.env_ok] some minutes later. *)
Definition env_later : Env :=
  {| COSMOS_ENDPOINT := Some "https://acs.documents.azure.com";
     utcnow_isoformat := "2024-01-01T00:09:00";
     credential_fault := None;
     client_fault := None;
     upsert_fault := fun _ _ => None;
     list_containers_fault := None |}.

(** An SMS payload under an event type no function knows. *)
Definition sms_event_of_unknown_type : EventGridEvent :=
  {| id := PStr "evt-1";
     event_type := PStr "Contoso.Unknown";
     data := PDict Scenario.sms_data |}.

(** The store configured, the upsert refused by the service. *)
Definition env_upsert_refused : Env :=
  {| COSMOS_ENDPOINT := Some "https://acs.documents.azure.com";
     utcnow_isoformat := "2024-01-01T00:00:05";
     credential_fault := None;
     client_fault := None;
     upsert_fault := fun _ _ =>
       Some (Raise (HttpResponseError (Some 503%Z)) "Service Unavailable");
     list_containers_fault := None |}.

End Samples.

(* ================================================================== *)
(** * app.py: identity endpoints, readiness and bulk SMS *)
(* ================================================================== *)

Module Api.

(** The value of a number in a comparison: [True] and [False] count as 1
    and 0. (JSON numbers with a fraction are outside [pyval].) *)
Definition as_number (v : pyval) : option Z :=
  match v with
  | PInt z => Some z
  | PBool true => Some 1%Z
  | PBool false => Some 0%Z
  | _ => None
  end.

(** [v < n] for an integer literal [n]. *)
Definition py_lt_int (v : pyval) (n : Z) : outcome bool :=
  match as_number v with
  | Some z => Ok (Z.ltb z n)
  | None =>
      Exc (Raise TypeError
             ("'<' not supported between instances of '" ++ type_name v
              ++ "' and 'int'"))
  end.

(** [v > n] for an integer literal [n]. *)
Definition py_gt_int (v : pyval) (n : Z) : outcome bool :=
  match as_number v with
  | Some z => Ok (Z.gtb z n)
  | None =>
      Exc (Raise TypeError
             ("'>' not supported between instances of '" ++ type_name v
              ++ "' and 'int'"))
  end.

(** The calls the views make on the identity and SMS clients, with their
    arguments. *)
Inductive sdk_call : Type :=
| CreateUserAndToken (scopes token_expires_hours : pyval)
| GetToken (user_id : string) (scopes : pyval)
| RevokeTokens (user_id : string)
| DeleteUser (user_id : string)
| SendSms (from_ to_ message enable_delivery_report : pyval).

(** The state of [app.py]: the globals and log lines of [App.World], the
    global [_identity_client], and the SDK calls made so far, oldest
    first. *)
Record World : Type := {
  app : App.World;
  _identity_client : bool;
  calls : list sdk_call
}.

Definition empty_world : World :=
  {| app := App.empty_world; _identity_client := false; calls := [] |}.

(** What the SDK returns for a token: the token and
    [expires_on.isoformat()]. *)
Record TokenResponse : Type := {
  token : string;
  expires_on : string
}.

(** What the surroundings decide for one request, beyond [App.Env]: how the
    calls on the identity client end. [create_user_and_token] returns the
    id of the new user ([user.properties["id"]]) and the token. *)
Record Env : Type := {
  base : App.Env;
  identity_client_fault : option exn;
  create_user_and_token : pyval -> pyval -> outcome (string * TokenResponse);
  client_get_token : string -> pyval -> outcome TokenResponse;
  revoke_tokens_fault : string -> option exn;
  client_delete_user_fault : string -> option exn
}.

(** A computation of the rest of the module, run on the [app] part. *)
Definition in_app {A} (m : M App.World A) : M World A :=
  fun w =>
    let (a, o) := m (app w) in
    ({| app := a; _identity_client := _identity_client w; calls := calls w |},
     o).

Definition log (lv : level) (msg : list frag) : M World unit :=
  in_app (App.log lv msg).

Definition record_call (c : sdk_call) : M World unit :=
  fun w =>
    ({| app := app w; _identity_client := _identity_client w;
        calls := calls w ++ [c] |}, Ok tt).

Definition set_identity_client : M World unit :=
  fun w =>
    ({| app := app w; _identity_client := true; calls := calls w |}, Ok tt).

Definition read {A} (f : World -> A) : M World A := fun w => (w, Ok (f w)).

(** The decorator [handle_errors] on a view over this world: the [except]
    clauses are those of [App.handle_errors]. *)
Definition handle_errors (f : M World App.Response) : M World App.Response :=
  try_except f (fun e => in_app (App.handle_errors (raise e))).

(** [request.get_json() or {}] *)
Definition or_empty_dict (v : pyval) : pyval :=
  if truthy v then v else PDict [].

Definition default_scopes : pyval := PList [PStr "voip"; PStr "chat"].

(** One entry of the [results] list of [send_bulk_sms]. *)
Definition bulk_entry (result : App.SmsSendResult) : pyval :=
  PDict [("message_id", App.message_id result);
         ("to", App.to result);
         ("successful", App.successful result)].

Definition is_list (v : pyval) : bool :=
  match v with
  | PList _ => true
  | _ => false
  end.

Section Views.
Variable env : Env.

Definition get_identity_client : M World unit :=
  created <- read _identity_client ;;
  if created then ret tt
  else
    if negb (configured (App.ACS_ENDPOINT (base env)))
    then raise (Raise ValueError "ACS_ENDPOINT environment variable not set")
    else
      in_app (App.get_credential (base env)) ;;
      external (identity_client_fault env) ;;
      set_identity_client.

(** The view [health]; it is not decorated. *)
Definition health : M World App.Response :=
  ret (App.jsonify [("status", PStr "healthy"); ("service", PStr "acs-api");
                    ("version", PStr "1.0.0")] 200).

Definition readiness_view : M World App.Response :=
  get_identity_client ;;
  ret (App.jsonify
         [("status", PStr "ready");
          ("acs_endpoint",
           match App.ACS_ENDPOINT (base env) with
           | Some s => PStr s
           | None => PNone
           end)] 200).

Definition create_user_view : M World App.Response :=
  body <- lift (App.request_get_json (base env)) ;;
  let data := or_empty_dict body in
  scopes <- lift (py_get data "scopes" default_scopes) ;;
  expires_hours <- lift (py_get data "token_expires_hours" (PInt 24)) ;;
  too_short <- lift (py_lt_int expires_hours 1) ;;
  out_of_range <-
    (if too_short then ret true else lift (py_gt_int expires_hours 24)) ;;
  if out_of_range
  then ret (App.jsonify
              [("error", PStr "token_expires_hours must be between 1 and 24")]
              400)
  else
    get_identity_client ;;
    record_call (CreateUserAndToken scopes expires_hours) ;;
    created <- lift (create_user_and_token env scopes expires_hours) ;;
    let (user_id, token_response) := created in
    log INFO [Lit "Created user: "; Val (PStr (str_prefix 20 user_id));
              Lit "..."] ;;
    ret (App.jsonify
           [("user_id", PStr user_id);
            ("token", PStr (token token_response));
            ("expires_on", PStr (expires_on token_response))] 201).

Definition get_token_view (user_id : string) : M World App.Response :=
  body <- lift (App.request_get_json (base env)) ;;
  let data := or_empty_dict body in
  scopes <- lift (py_get data "scopes" default_scopes) ;;
  get_identity_client ;;
  record_call (GetToken user_id scopes) ;;
  token_response <- lift (client_get_token env user_id scopes) ;;
  log INFO [Lit "Issued token for user: ";
            Val (PStr (str_prefix 20 user_id)); Lit "..."] ;;
  ret (App.jsonify
         [("token", PStr (token token_response));
          ("expires_on", PStr (expires_on token_response))] 200).

Definition delete_user_view (user_id : string) : M World App.Response :=
  get_identity_client ;;
  record_call (RevokeTokens user_id) ;;
  external (revoke_tokens_fault env user_id) ;;
  record_call (DeleteUser user_id) ;;
  external (client_delete_user_fault env user_id) ;;
  log INFO [Lit "Deleted user: "; Val (PStr (str_prefix 20 user_id));
            Lit "..."] ;;
  ret {| App.body := PStr ""; App.status := 204 |}.

Definition send_bulk_sms_view : M World App.Response :=
  data <- lift (App.request_get_json (base env)) ;;
  if negb (truthy data)
  then ret (App.jsonify [("error", PStr "Request body required")] 400)
  else
    has_to <- lift (py_contains "to" data) ;;
    to_is_list <-
      (if has_to
       then to_ <- lift (py_index data "to") ;; ret (is_list to_)
       else ret false) ;;
    if negb to_is_list
    then ret (App.jsonify
                [("error", PStr "'to' must be a list of phone numbers")] 400)
    else
      in_app (App.get_sms_client (base env)) ;;
      from_ <- lift (py_index data "from") ;;
      to_ <- lift (py_index data "to") ;;
      message <- lift (py_index data "message") ;;
      enable_delivery_report <-
        lift (py_get data "enable_delivery_report" (PBool true)) ;;
      record_call (SendSms from_ to_ message enable_delivery_report) ;;
      response <-
        lift (App.sms_send (base env) from_ to_ message
                enable_delivery_report PNone) ;;
      let results := map bulk_entry response in
      log INFO [Lit "Bulk SMS sent to ";
                Val (PInt (Z.of_nat (List.length results)));
                Lit " recipients"] ;;
      ret (App.jsonify [("results", PList results)] 200).

(** The views as routed, behind [@handle_errors]. *)
Definition readiness : M World App.Response := handle_errors readiness_view.

Definition create_user : M World App.Response := handle_errors create_user_view.

Definition get_token (user_id : string) : M World App.Response :=
  handle_errors (get_token_view user_id).

Definition delete_user (user_id : string) : M World App.Response :=
  handle_errors (delete_user_view user_id).

Definition send_bulk_sms : M World App.Response :=
  handle_errors send_bulk_sms_view.

End Views.

(** The response the decorator gives for an exception [e] raised in a
    view. *)
Definition error_response (e : exn) : App.Response :=
  match exn_cls e with
  | ValueError =>
      App.jsonify [("error", PStr (exn_str e));
                   ("type", PStr "validation_error")] 400
  | HttpResponseError sc =>
      App.jsonify [("error", PStr (exn_str e)); ("type", PStr "acs_error");
                   ("status_code", App.status_code_value sc)]
        (App.status_code_or_500 sc)
  | _ =>
      App.jsonify [("error", PStr "Internal server error");
                   ("type", PStr "internal_error")] 500
  end.

(** A computation that makes no SDK call and leaves the identity client
    global alone, however it ends. *)
Definition no_call {A} (m : M World A) : Prop :=
  forall w w' o, m w = (w', o) ->
    calls w' = calls w /\ _identity_client w' = _identity_client w.

(** The hours the identity client accepts as a token lifetime. *)
Definition lifetime_in_range (hours : pyval) : Prop :=
  exists z, as_number hours = Some z /\ (1 <= z <= 24)%Z.

End Api.

Module ApiSamples.
Import Api.

(** The environment [env] with another SMS client behind it. *)
Definition with_sms_send (env : App.Env)
  (send : pyval -> pyval -> pyval -> pyval -> pyval ->
          outcome (list App.SmsSendResult)) : App.Env :=
  {| App.ACS_ENDPOINT := App.ACS_ENDPOINT env;
     App.request_get_json := App.request_get_json env;
     App.credential_fault := App.credential_fault env;
     App.sms_client_fault := App.sms_client_fault env;
     App.sms_send := send |}.

(** A request with JSON body [request_body]: the endpoint is configured,
    every SDK call succeeds, [create_user_and_token] makes user
    ["8:acs:0001"], and the SMS client reports one result per call. *)
Definition env_with (request_body : pyval) : Env :=
  {| base := ApiScenario.env_with request_body;
     identity_client_fault := None;
     create_user_and_token := fun _ _ =>
       Ok ("8:acs:0001",
           {| token := "eyJ"; expires_on := "2024-01-02T00:00:00" |});
     client_get_token := fun _ _ =>
       Ok {| token := "eyJ"; expires_on := "2024-01-02T00:00:00" |};
     revoke_tokens_fault := fun _ => None;
     client_delete_user_fault := fun _ => None |}.

(** The same, with token revocation refused by the service. *)
Definition env_revoke_refused : Env :=
  {| base := ApiScenario.env_with PNone;
     identity_client_fault := None;
     create_user_and_token := fun _ _ =>
       Exc (Raise (HttpResponseError (Some 500%Z)) "unreachable");
     client_get_token := fun _ _ =>
       Exc (Raise (HttpResponseError (Some 500%Z)) "unreachable");
     revoke_tokens_fault := fun _ =>
       Some (Raise (HttpResponseError (Some 404%Z)) "user not found");
     client_delete_user_fault := fun _ => None |}.

(** A deployment without [ACS_ENDPOINT]. *)
Definition base_without_endpoint (request_body : pyval) : App.Env :=
  {| App.ACS_ENDPOINT := None;
     App.request_get_json := Ok request_body;
     App.credential_fault := None;
     App.sms_client_fault := None;
     App.sms_send := fun _ _ _ _ _ => Ok [ApiScenario.sent] |}.

Definition env_without_endpoint (request_body : pyval) : Env :=
  {| base := base_without_endpoint request_body;
     identity_client_fault := None;
     create_user_and_token := fun _ _ =>
       Ok ("8:acs:0001",
           {| token := "eyJ"; expires_on := "2024-01-02T00:00:00" |});
     client_get_token := fun _ _ =>
       Ok {| token := "eyJ"; expires_on := "2024-01-02T00:00:00" |};
     revoke_tokens_fault := fun _ => None;
     client_delete_user_fault := fun _ => None |}.

(** The SMS client answering with an empty list. *)
Definition base_empty_response (request_body : pyval) : App.Env :=
  {| App.ACS_ENDPOINT := Some "https://acs.communication.azure.com";
     App.request_get_json := Ok request_body;
     App.credential_fault := None;
     App.sms_client_fault := None;
     App.sms_send := fun _ _ _ _ _ => Ok [] |}.

Definition sms_body : pyval :=
  PDict [("from", PStr "+1"); ("to", PStr "+2"); ("message", PStr "hi")].

Definition bulk_body : pyval :=
  PDict [("from", PStr "+1"); ("to", PList [PStr "+2"; PStr "+3"]);
         ("message", PStr "hi")].

Definition bulk_body_without_from : pyval :=
  PDict [("to", PList [PStr "+2"; PStr "+3"]); ("message", PStr "hi")].

End ApiSamples.

Unset Implicit Arguments.

(* ================================================================== *)
(** * Lemmas on values *)
(* ================================================================== *)

Lemma pyval_eqb_refl (v : pyval) : pyval_eqb v v = true.
Proof.
  induction v using pyval_nested_ind; simpl.
  - reflexivity.
  - apply Bool.eqb_reflx.
  - apply Z.eqb_refl.
  - apply String.eqb_refl.
  - induction H as [| x l Hx _ IH]; [reflexivity |].
    now rewrite Hx, IH.
  - induction H as [| [k x] d Hx _ IH]; [reflexivity |].
    simpl in Hx. now rewrite String.eqb_refl, Hx, IH.
Qed.

Lemma pyval_eqb_true (a b : pyval) : pyval_eqb a b = true -> a = b.
Proof.
  revert b. induction a using pyval_nested_ind; intros [] E; simpl in E;
    try discriminate E.
  - reflexivity.
  - now apply Bool.eqb_prop in E; subst.
  - now apply Z.eqb_eq in E; subst.
  - now apply String.eqb_eq in E; subst.
  - f_equal. revert l0 E.
    induction H as [| x l Hx _ IH]; intros [| y l0] E;
      try discriminate E; [reflexivity |].
    apply andb_prop in E as [E1 E2]. f_equal; auto.
  - f_equal. revert d0 E.
    induction H as [| [k x] d Hx _ IH]; intros [| [k' y] d0] E;
      try discriminate E; [reflexivity |].
    apply andb_prop in E as [E12 E3]. apply andb_prop in E12 as [E1 E2].
    apply String.eqb_eq in E1. simpl in Hx. apply Hx in E2. subst.
    f_equal. auto.
Qed.

Lemma pyval_eqb_eq (a b : pyval) : pyval_eqb a b = true <-> a = b.
Proof.
  split; [apply pyval_eqb_true | intros ->; apply pyval_eqb_refl].
Qed.

(* ================================================================== *)
(** * The store keeps one record per slot *)
(* ================================================================== *)

Section StoreFacts.
Import Store.
Variable pk : string.

Lemma opt_eqb_eq (a b : option pyval) : opt_eqb a b = true <-> a = b.
Proof.
  destruct a, b; simpl; split; intros E; try discriminate E; auto.
  - f_equal. now apply pyval_eqb_eq.
  - injection E as ->. apply pyval_eqb_refl.
Qed.

Lemma slot_eqb_eq (a b : slot) : slot_eqb a b = true <-> a = b.
Proof.
  destruct a as [a1 a2], b as [b1 b2]. unfold slot_eqb. simpl.
  rewrite andb_true_iff, !opt_eqb_eq. split.
  - now intros [-> ->].
  - intros E. now injection E.
Qed.

Lemma slot_eqb_refl (a : slot) : slot_eqb a a = true.
Proof. now apply slot_eqb_eq. Qed.

Lemma upsert_slots (r : pydict) (store : list pydict) :
  (In (slot_of pk r) (map (slot_of pk) store) /\
   map (slot_of pk) (upsert pk r store) = map (slot_of pk) store) \/
  (~ In (slot_of pk r) (map (slot_of pk) store) /\
   map (slot_of pk) (upsert pk r store) =
   (map (slot_of pk) store ++ [slot_of pk r])%list).
Proof.
  induction store as [| x store IH]; simpl.
  - right. split; [tauto | reflexivity].
  - destruct (slot_eqb (slot_of pk x) (slot_of pk r)) eqn:E.
    + apply slot_eqb_eq in E. left. simpl. split; [now left |].
      now rewrite E.
    + assert (slot_of pk x <> slot_of pk r) as N.
      { intros Q. apply slot_eqb_eq in Q. congruence. }
      destruct IH as [[I Q] | [I Q]]; [left | right]; simpl; rewrite Q;
        split; auto.
      intros [L | L]; auto.
Qed.

Lemma upsert_distinct (r : pydict) (store : list pydict) :
  distinct_slots pk store -> distinct_slots pk (upsert pk r store).
Proof.
  unfold distinct_slots. intros D.
  destruct (upsert_slots r store) as [[_ Q] | [I Q]]; rewrite Q; auto.
  apply NoDup_app; auto.
  - constructor; [intros [] | constructor].
  - intros a Ia [<- | []]. contradiction.
Qed.

Lemma store_after_distinct (records : list pydict) :
  distinct_slots pk (store_after pk records).
Proof.
  unfold store_after.
  assert (forall init, distinct_slots pk init ->
            distinct_slots pk (fold_left (fun s r => upsert pk r s) records init))
    as G.
  { induction records as [| r records IH]; intros init D; simpl; auto.
    apply IH. now apply upsert_distinct. }
  apply G. constructor.
Qed.

Lemma records_at_absent (k : slot) (store : list pydict) :
  ~ In k (map (slot_of pk) store) -> records_at pk k store = [].
Proof.
  induction store as [| x store IH]; simpl; intros N; [reflexivity |].
  destruct (slot_eqb (slot_of pk x) k) eqn:E.
  - apply slot_eqb_eq in E. tauto.
  - apply IH. tauto.
Qed.

Lemma records_at_upsert (r : pydict) (store : list pydict) :
  distinct_slots pk store ->
  records_at pk (slot_of pk r) (upsert pk r store) = [r].
Proof.
  unfold distinct_slots.
  induction store as [| x store IH]; simpl; intros D.
  - now rewrite slot_eqb_refl.
  - inversion D as [| ? ? N D']; subst.
    destruct (slot_eqb (slot_of pk x) (slot_of pk r)) eqn:E; simpl.
    + rewrite slot_eqb_refl. f_equal.
      apply slot_eqb_eq in E. rewrite <- E.
      now apply records_at_absent.
    + rewrite E. now apply IH.
Qed.

Lemma upsert_present_length (r : pydict) (store : list pydict) :
  In (slot_of pk r) (map (slot_of pk) store) ->
  List.length (upsert pk r store) = List.length store.
Proof.
  induction store as [| x store IH]; simpl; intros I; [tauto |].
  destruct (slot_eqb (slot_of pk x) (slot_of pk r)) eqn:E; simpl; auto.
  f_equal. apply IH. destruct I as [Q | I]; auto.
  apply slot_eqb_eq in Q. congruence.
Qed.

Lemma upsert_slot_present (r : pydict) (store : list pydict) :
  In (slot_of pk r) (map (slot_of pk) (upsert pk r store)).
Proof.
  destruct (upsert_slots r store) as [[I Q] | [_ Q]]; rewrite Q; auto.
  apply in_or_app. right. now left.
Qed.

End StoreFacts.

(** C2. Two upserts with the same record id and the same partition key,
    applied to a container built by upserts, leave exactly one record at
    that slot, the record of the second call, and the second call adds no
    record to the container: the last write wins and nothing is
    duplicated. *)
Theorem upsert_twice_last_write_wins
  (pk : string) (history : list pydict) (first second : pydict) :
  Store.slot_of pk first = Store.slot_of pk second ->
  let store := Store.store_after pk history in
  let store' := Store.upsert pk second (Store.upsert pk first store) in
  Store.records_at pk (Store.slot_of pk second) store' = [second] /\
  List.length store' = List.length (Store.upsert pk first store).
Proof.
  intros E store store'. split.
  - apply records_at_upsert, upsert_distinct, store_after_distinct.
  - apply upsert_present_length. rewrite <- E. apply upsert_slot_present.
Qed.

Lemma upsert_twice_last_write_wins_witness :
  let pk := "callId" in
  let first := [("id", PStr "evt-1"); ("callId", PStr "m1"); ("type", PStr "sms")] in
  let second := [("id", PStr "evt-1"); ("callId", PStr "m1"); ("type", PStr "recording")] in
  let store' := Store.upsert pk second (Store.upsert pk first (Store.store_after pk [])) in
  Store.records_at pk (Store.slot_of pk second) store' = [second] /\
  List.length store' = List.length (Store.upsert pk first (Store.store_after pk [])).
Proof.
  intros pk first second.
  apply (upsert_twice_last_write_wins pk [] first second).
  reflexivity.
Defined.

(* ================================================================== *)
(** * The event handlers *)
(* ================================================================== *)

Section HandlerFacts.
Import FunctionApp.
Variable env : Env.

Lemma quiet_ret {A} (a : A) : quiet (ret a).
Proof. intros w w' o E. injection E as <- _. auto. Qed.

Lemma quiet_lift {A} (x : outcome A) : quiet (lift x).
Proof. intros w w' o E. injection E as <- _. auto. Qed.

Lemma quiet_log (lv : level) (msg : list frag) : quiet (log lv msg).
Proof. intros w w' o E. injection E as <- _. auto. Qed.

Lemma quiet_bind {A B} (m : M World A) (k : A -> M World B) :
  quiet m -> (forall a, quiet (k a)) -> quiet (bind m k).
Proof.
  intros Hm Hk w w' o E. unfold bind in E.
  destruct (m w) as [w1 [a | e]] eqn:E1.
  - destruct (Hm _ _ _ E1) as [U C]. destruct (Hk _ _ _ _ E) as [U' C'].
    split; congruence.
  - injection E as <- _. exact (Hm _ _ _ E1).
Qed.

Lemma quiet_for_each {A} (l : list A) (body : A -> M World unit) :
  (forall x, quiet (body x)) -> quiet (for_each l body).
Proof.
  intros Hb. induction l as [| x l IH]; simpl.
  - apply quiet_ret.
  - apply quiet_bind; auto.
Qed.

End HandlerFacts.

Ltac quiet_tac := repeat (intros; first
  [ apply quiet_log | apply quiet_lift | apply quiet_ret
  | apply quiet_for_each | apply quiet_bind ]).

Section ChatFacts.
Import FunctionApp.
Variable env : Env.

Lemma process_thread_created_quiet (i d : pyval) :
  quiet (process_thread_created i d).
Proof. unfold process_thread_created. quiet_tac. Qed.

Lemma process_participant_added_quiet (i d : pyval) :
  quiet (process_participant_added i d).
Proof. unfold process_participant_added. quiet_tac. Qed.

End ChatFacts.

(** C5. An event whose type is none of the three chat types goes through
    [process_chat_event] without an exception: the function logs its
    opening line and one warning that names the type, constructs no store
    client and writes nothing. *)
Theorem unknown_event_type_is_logged_and_dropped
  (env : FunctionApp.Env) (event : FunctionApp.EventGridEvent)
  (w : FunctionApp.World) :
  let t := FunctionApp.event_type event in
  py_eq_str t "Microsoft.Communication.ChatMessageReceived" = false ->
  py_eq_str t "Microsoft.Communication.ChatThreadCreated" = false ->
  py_eq_str t "Microsoft.Communication.ChatParticipantAdded" = false ->
  exists w',
    FunctionApp.process_chat_event env event w = (w', Ok tt) /\
    FunctionApp.upserted w' = FunctionApp.upserted w /\
    FunctionApp.cosmos_clients w' = FunctionApp.cosmos_clients w /\
    FunctionApp.logs w' =
      (FunctionApp.logs w ++
       [(INFO, [Lit "Chat Event: "; Val t; Lit ", ID: ";
                Val (FunctionApp.id event)]);
        (WARNING, [Lit "Unknown chat event type: "; Val t])])%list.
Proof.
  intros t E1 E2 E3. unfold FunctionApp.process_chat_event.
  fold t. unfold bind, try_except, FunctionApp.log. simpl.
  rewrite E1, E2, E3. simpl.
  eexists. split; [reflexivity |]. simpl.
  repeat split. now rewrite <- app_assoc.
Qed.

Lemma unknown_event_type_is_logged_and_dropped_witness :
  let event := {| FunctionApp.id := PStr "evt-9";
                  FunctionApp.event_type :=
                    PStr "Microsoft.Communication.ChatMessageEdited";
                  FunctionApp.data := PDict [] |} in
  let env := {| FunctionApp.COSMOS_ENDPOINT := Some "https://db";
                FunctionApp.utcnow_isoformat := "2024-01-01T00:00:00";
                FunctionApp.credential_fault := None;
                FunctionApp.client_fault := None;
                FunctionApp.upsert_fault := fun _ _ => None;
                FunctionApp.list_containers_fault := None |} in
  exists w',
    FunctionApp.process_chat_event env event FunctionApp.empty_world
      = (w', Ok tt) /\
    FunctionApp.upserted w' = [] /\
    FunctionApp.cosmos_clients w' = 0%nat /\
    FunctionApp.logs w' =
      [(INFO, [Lit "Chat Event: ";
               Val (PStr "Microsoft.Communication.ChatMessageEdited");
               Lit ", ID: "; Val (PStr "evt-9")]);
       (WARNING, [Lit "Unknown chat event type: ";
                  Val (PStr "Microsoft.Communication.ChatMessageEdited")])].
Proof.
  intros event env.
  apply (unknown_event_type_is_logged_and_dropped env event
           FunctionApp.empty_world); reflexivity.
Defined.

Section PersistingHandlers.
Import FunctionApp.
Variable env : Env.
Hypothesis store_configured : configured (COSMOS_ENDPOINT env) = true.

(** [try: body except Exception as e: logger.exception(...); raise] ends as
    [body] ends and adds at most a log line. *)
Lemma try_except_reraise {A} (body : M World A) (lv : level)
  (msg : exn -> list frag) (w w' : World) (o : outcome A) :
  try_except body (fun e => log lv (msg e) ;; raise e) w = (w', o) ->
  exists w1,
    body w = (w1, o) /\
    upserted w' = upserted w1 /\ cosmos_clients w' = cosmos_clients w1.
Proof.
  unfold try_except, bind, raise, log.
  destruct (body w) as [w1 [x | e]]; intros E; injection E as <- <-;
    exists w1; auto.
Qed.

Ltac raised :=
  let E := fresh "E" in
  intros E; injection E as <- <-; simpl; try reflexivity; try congruence.

Ltac store_calls :=
  unfold get_cosmos_client, upsert_item, external, count_client, bind, ret,
    raise, lift, utcnow, log; simpl.

Lemma sms_run (event : EventGridEvent) (w w' : World) (o : outcome unit) :
  process_sms_received env event w = (w', o) ->
  match o with
  | Ok _ =>
      exists d,
        data event = PDict d /\
        upserted w' =
          (upserted w ++
           [(COSMOS_DATABASE, "call-logs", sms_item env (id event) d)])%list
  | Exc _ => upserted w' = upserted w
  end.
Proof.
  unfold process_sms_received, get_json.
  unfold bind at 1. simpl. intros E.
  apply try_except_reraise in E as (w1 & E & -> & _). revert E.
  destruct (data event) as [| b | z | s | l | d]; simpl;
    try (unfold bind, lift; simpl; raised).
  unfold bind, lift, log, utcnow, ret. simpl.
  rewrite store_configured. store_calls.
  destruct (credential_fault env); [raised |].
  destruct (client_fault env); [raised |].
  fold (sms_item env (id event) d).
  destruct (upsert_fault env "call-logs" (sms_item env (id event) d));
    [raised |].
  raised. now exists d.
Qed.

Lemma chat_message_run (event_id d : pyval) (w w' : World) (o : outcome unit) :
  process_chat_message env event_id d w = (w', o) ->
  match o with
  | Ok _ =>
      exists items,
        d = PDict items /\
        upserted w' =
          (upserted w ++
           [(COSMOS_DATABASE, "chat-history", chat_item env event_id items)])%list
  | Exc _ => upserted w' = upserted w
  end.
Proof.
  unfold process_chat_message.
  destruct d as [| b | z | s | l | items]; simpl;
    try (unfold bind, lift; simpl; raised).
  unfold bind, lift, log, utcnow, ret. simpl.
  destruct (py_slice_to 20 (dict_get items "threadId" PNone)); [| raised].
  destruct (py_slice_to 20 (dict_get items "senderId" PNone)); [| raised].
  rewrite store_configured. store_calls.
  destruct (credential_fault env); [raised |].
  destruct (client_fault env); [raised |].
  fold (chat_item env event_id items).
  destruct (upsert_fault env "chat-history" (chat_item env event_id items));
    [raised |].
  raised. now exists items.
Qed.

Lemma chat_run (event : EventGridEvent) (w w' : World) (o : outcome unit) :
  py_eq_str (event_type event) "Microsoft.Communication.ChatMessageReceived"
    = true ->
  process_chat_event env event w = (w', o) ->
  match o with
  | Ok _ =>
      exists d,
        data event = PDict d /\
        upserted w' =
          (upserted w ++
           [(COSMOS_DATABASE, "chat-history", chat_item env (id event) d)])%list
  | Exc _ => upserted w' = upserted w
  end.
Proof.
  intros T. unfold process_chat_event. rewrite T.
  unfold bind at 1. simpl. intros E.
  apply try_except_reraise in E as (w1 & E & -> & _).
  apply chat_message_run in E. exact E.
Qed.

Lemma recording_loop_quiet (chunks : list pyval) :
  quiet (for_each chunks (fun chunk =>
    content_location <- lift (py_get chunk "contentLocation" PNone) ;;
    delete_location <- lift (py_get chunk "deleteLocation" PNone) ;;
    log INFO [Lit "Recording available at: "; Val content_location])).
Proof. quiet_tac. Qed.

Lemma recording_run (event : EventGridEvent) (w w' : World) (o : outcome unit) :
  process_recording_event env event w = (w', o) ->
  match o with
  | Ok _ =>
      exists d chunks,
        data event = PDict d /\
        recording_chunks_of d = Ok chunks /\
        upserted w' =
          (upserted w ++
           [(COSMOS_DATABASE, "call-logs",
             recording_item env (id event) d chunks)])%list
  | Exc _ => upserted w' = upserted w
  end.
Proof.
  unfold process_recording_event, get_json.
  unfold bind at 1. simpl. intros E.
  apply try_except_reraise in E as (w1 & E & -> & _). revert E.
  destruct (data event) as [| b | z | s | l | d]; simpl;
    try (unfold bind, lift; simpl; raised).
  unfold bind at 1. unfold lift at 1. simpl.
  unfold bind at 1. unfold lift at 1.
  fold (recording_chunks_of d).
  destruct (recording_chunks_of d) as [chunks | e] eqn:RC; [| raised].
  unfold bind at 1. unfold lift at 1.
  destruct (py_iter chunks) as [cs | e]; [| raised].
  unfold bind at 1.
  match goal with
  | |- context [for_each cs ?body ?w0] =>
      destruct (for_each cs body w0) as [w2 [[] | e]] eqn:L;
      apply recording_loop_quiet in L as [U _]; simpl in U; [| raised]
  end.
  rewrite store_configured. store_calls.
  destruct (credential_fault env); [raised |].
  destruct (client_fault env); [raised |].
  fold (recording_item env (id event) d chunks).
  destruct (upsert_fault env "call-logs"
              (recording_item env (id event) d chunks)); [raised |].
  raised. exists d, chunks. repeat split; [exact RC | now rewrite U].
Qed.

End PersistingHandlers.

Section Accepted.
Import FunctionApp.
Variable env : Env.
Hypothesis store_configured : configured (COSMOS_ENDPOINT env) = true.
Hypothesis credential_ok : credential_fault env = None.
Hypothesis client_ok : client_fault env = None.

(** With the store reachable, [process_sms_received] completes on every
    event whose data is a dict, and writes [sms_item]. *)
Lemma sms_accepted (event_id t : pyval) (d : pydict) (w : World) :
  upsert_fault env "call-logs" (sms_item env event_id d) = None ->
  exists w',
    process_sms_received env
      {| id := event_id; event_type := t; data := PDict d |} w = (w', Ok tt) /\
    upserted w' =
      (upserted w ++
       [(COSMOS_DATABASE, "call-logs", sms_item env event_id d)])%list /\
    cosmos_clients w' = S (cosmos_clients w).
Proof.
  intros U. unfold process_sms_received, get_json. simpl.
  unfold bind, try_except, lift, log, utcnow, ret. simpl.
  rewrite store_configured.
  unfold get_cosmos_client, upsert_item, external, count_client, bind, ret.
  simpl. rewrite credential_ok, client_ok.
  fold (sms_item env event_id d). rewrite U.
  eexists. split; [reflexivity |]. simpl. auto.
Qed.

(** With the store reachable, [process_recording_event] completes on every
    event whose chunk list is empty, and writes [recording_item]. *)
Lemma recording_accepted (event : EventGridEvent) (d : pydict) (w : World) :
  data event = PDict d ->
  recording_chunks_of d = Ok (PList []) ->
  upsert_fault env "call-logs" (recording_item env (id event) d (PList []))
    = None ->
  exists w',
    process_recording_event env event w = (w', Ok tt) /\
    upserted w' =
      (upserted w ++
       [(COSMOS_DATABASE, "call-logs",
         recording_item env (id event) d (PList []))])%list.
Proof.
  intros D RC U. unfold process_recording_event, get_json. rewrite D.
  unfold bind at 1. simpl. unfold try_except.
  unfold bind at 1. unfold lift at 1. simpl.
  unfold bind at 1. unfold lift at 1.
  fold (recording_chunks_of d). rewrite RC.
  unfold bind, lift, log, utcnow, ret. simpl.
  rewrite store_configured.
  unfold get_cosmos_client, upsert_item, external, count_client, bind, ret.
  simpl. rewrite credential_ok, client_ok.
  fold (recording_item env (id event) d (PList [])). rewrite U.
  eexists. split; reflexivity.
Qed.

End Accepted.

(* ================================================================== *)
(** * Properties of the ingestion functions *)
(* ================================================================== *)

(** C10. With the store configured, the one record a completed run of
    [process_recording_event] writes has the [status] ["available"],
    whatever the event data holds; a run that raises writes nothing. *)
Theorem recording_status_is_available
  (env : FunctionApp.Env) (event : FunctionApp.EventGridEvent)
  (w w' : FunctionApp.World) (o : outcome unit) :
  configured (FunctionApp.COSMOS_ENDPOINT env) = true ->
  FunctionApp.process_recording_event env event w = (w', o) ->
  FunctionApp.wrote_one w w' o "call-logs"
    (fun item => dict_lookup "status" item = Some (PStr "available")).
Proof.
  intros C R. apply (recording_run _ C) in R. unfold FunctionApp.wrote_one.
  destruct o as [[] | e]; [| exact R].
  destruct R as (d & chunks & _ & _ & U).
  eexists. split; [exact U | reflexivity].
Qed.

Lemma recording_status_is_available_witness :
  configured (FunctionApp.COSMOS_ENDPOINT Scenario.env_ok) = true /\
  FunctionApp.wrote_one FunctionApp.empty_world
    (fst (FunctionApp.process_recording_event Scenario.env_ok
            Scenario.recording_event FunctionApp.empty_world))
    (Ok tt) "call-logs"
    (fun item => dict_lookup "status" item = Some (PStr "available")).
Proof.
  split; [reflexivity |].
  apply (recording_status_is_available Scenario.env_ok
           Scenario.recording_event FunctionApp.empty_world _ (Ok tt) eq_refl).
  reflexivity.
Defined.

(** C6. With the store configured and reachable, a recording event whose
    data has no [recordingStorageInfo], or whose [recordingChunks] is the
    empty list, is processed to completion, and the record written has
    [chunks] equal to the empty list. *)
Theorem recording_without_chunks_is_written
  (env : FunctionApp.Env) (event : FunctionApp.EventGridEvent) (d : pydict)
  (w : FunctionApp.World) :
  configured (FunctionApp.COSMOS_ENDPOINT env) = true ->
  FunctionApp.credential_fault env = None ->
  FunctionApp.client_fault env = None ->
  (forall item, FunctionApp.upsert_fault env "call-logs" item = None) ->
  FunctionApp.data event = PDict d ->
  (dict_lookup "recordingStorageInfo" d = None \/
   exists info,
     dict_lookup "recordingStorageInfo" d = Some (PDict info) /\
     dict_lookup "recordingChunks" info = Some (PList [])) ->
  exists w' item,
    FunctionApp.process_recording_event env event w = (w', Ok tt) /\
    FunctionApp.upserted w' =
      (FunctionApp.upserted w ++
       [(FunctionApp.COSMOS_DATABASE, "call-logs", item)])%list /\
    dict_lookup "chunks" item = Some (PList []).
Proof.
  intros C F1 F2 F3 D H.
  assert (FunctionApp.recording_chunks_of d = Ok (PList [])) as RC.
  { unfold FunctionApp.recording_chunks_of, dict_get.
    destruct H as [N | (info & I & K)].
    - now rewrite N.
    - rewrite I. simpl. unfold dict_get. now rewrite K. }
  destruct (recording_accepted _ C F1 F2 event d w D RC (F3 _)) as (w' & R & U).
  exists w'. eexists. split; [exact R |]. split; [exact U | reflexivity].
Qed.

Lemma recording_without_chunks_is_written_witness :
  exists w' item,
    FunctionApp.process_recording_event Scenario.env_ok
      Scenario.recording_event FunctionApp.empty_world = (w', Ok tt) /\
    FunctionApp.upserted w' =
      [(FunctionApp.COSMOS_DATABASE, "call-logs", item)] /\
    dict_lookup "chunks" item = Some (PList []).
Proof.
  apply (recording_without_chunks_is_written Scenario.env_ok
           Scenario.recording_event _ FunctionApp.empty_world
           eq_refl eq_refl eq_refl (fun _ => eq_refl) eq_refl).
  right. eexists. split; reflexivity.
Defined.

(** The record [process_sms_received] stores for the envelope of the
    scenario. *)
Lemma sms_scenario_item (env : FunctionApp.Env) :
  FunctionApp.sms_item env (PStr "evt-1") Scenario.sms_data =
  [("id", PStr "evt-1"); ("callId", PStr "m1"); ("type", PStr "sms");
   ("direction", PStr "inbound");
   ("data", PDict
      [("id", PStr "evt-1"); ("type", PStr "sms_received");
       ("messageId", PStr "m1"); ("from", PStr "+1"); ("to", PStr "+2");
       ("message", PStr "hi");
       ("receivedAt", PStr "2024-01-01T00:00:00Z");
       ("processedAt", PStr (FunctionApp.utcnow_isoformat env))])].
Proof. reflexivity. Qed.

(** C3, as the spec states it, fails: for the envelope of the scenario the
    handler completes and stores one record, and that record is not the
    one the scenario gives. It has no [partitionKey] field, and [from],
    [to] and [message] are not fields of the record itself. *)
Lemma sms_scenario_record_differs :
  exists w' item,
    FunctionApp.process_sms_received Scenario.env_ok Scenario.sms_event
      FunctionApp.empty_world = (w', Ok tt) /\
    FunctionApp.upserted w' =
      [(FunctionApp.COSMOS_DATABASE, "call-logs", item)] /\
    item <> Scenario.sms_record_of_spec /\
    dict_lookup "partitionKey" item = None /\
    dict_lookup "from" item = None /\
    dict_lookup "to" item = None /\
    dict_lookup "message" item = None.
Proof.
  eexists. eexists. split; [reflexivity |]. split; [reflexivity |].
  split; [discriminate |]. repeat split.
Qed.

(** C3, amended. For the envelope of the scenario, with the store
    configured and reachable, the handler completes and stores exactly the
    record [{id: "evt-1", callId: "m1", type: "sms", direction: "inbound",
    data: {...}}]: the partition key is the field [callId] and equals the
    [messageId]; the direction is fixed to ["inbound"]; sender, recipient,
    text and timestamps are the fields of the nested [data] dict. *)
Theorem sms_scenario_stored_record
  (env : FunctionApp.Env) (w : FunctionApp.World) :
  configured (FunctionApp.COSMOS_ENDPOINT env) = true ->
  FunctionApp.credential_fault env = None ->
  FunctionApp.client_fault env = None ->
  (forall item, FunctionApp.upsert_fault env "call-logs" item = None) ->
  exists w',
    FunctionApp.process_sms_received env Scenario.sms_event w = (w', Ok tt) /\
    FunctionApp.upserted w' =
      (FunctionApp.upserted w ++
       [(FunctionApp.COSMOS_DATABASE, "call-logs",
         [("id", PStr "evt-1"); ("callId", PStr "m1"); ("type", PStr "sms");
          ("direction", PStr "inbound");
          ("data", PDict
             [("id", PStr "evt-1"); ("type", PStr "sms_received");
              ("messageId", PStr "m1"); ("from", PStr "+1");
              ("to", PStr "+2"); ("message", PStr "hi");
              ("receivedAt", PStr "2024-01-01T00:00:00Z");
              ("processedAt",
               PStr (FunctionApp.utcnow_isoformat env))])])])%list.
Proof.
  intros C F1 F2 F3.
  destruct (sms_accepted env C F1 F2 (PStr "evt-1")
              (PStr "Microsoft.Communication.SMSReceived")
              Scenario.sms_data w (F3 _)) as (w' & R & U & _).
  exists w'. split; [exact R |]. rewrite U. now rewrite sms_scenario_item.
Qed.

Lemma sms_scenario_stored_record_witness :
  exists w',
    FunctionApp.process_sms_received Scenario.env_ok Scenario.sms_event
      FunctionApp.empty_world = (w', Ok tt) /\
    FunctionApp.upserted w' =
      [(FunctionApp.COSMOS_DATABASE, "call-logs",
        [("id", PStr "evt-1"); ("callId", PStr "m1"); ("type", PStr "sms");
         ("direction", PStr "inbound");
         ("data", PDict
            [("id", PStr "evt-1"); ("type", PStr "sms_received");
             ("messageId", PStr "m1"); ("from", PStr "+1");
             ("to", PStr "+2"); ("message", PStr "hi");
             ("receivedAt", PStr "2024-01-01T00:00:00Z");
             ("processedAt", PStr "2024-01-01T00:00:05")])])].
Proof.
  apply (sms_scenario_stored_record Scenario.env_ok FunctionApp.empty_world
           eq_refl eq_refl eq_refl (fun _ => eq_refl)).
Defined.

(** C4 fails on the chat message handler: for a chat message event whose
    data has no [threadId], the log line that slices [thread_id] raises a
    [TypeError]; the router logs it and raises it again, and nothing is
    written. This holds in every environment and from every world. *)
Theorem chat_message_without_thread_raises
  (env : FunctionApp.Env) (w : FunctionApp.World) :
  exists w',
    FunctionApp.process_chat_event env Scenario.chat_event_without_thread w
      = (w', Exc (Raise TypeError "'NoneType' object is not subscriptable")) /\
    FunctionApp.upserted w' = FunctionApp.upserted w /\
    FunctionApp.cosmos_clients w' = FunctionApp.cosmos_clients w.
Proof.
  eexists. split; [reflexivity |]. split; reflexivity.
Qed.

(** C8, as the spec states it, fails: the functions receive the event
    already decoded and check neither [id] nor [event_type]. An SMS event
    delivered without an id is processed like any other: the handler
    runs, completes, and writes a record whose id is [None]. *)
Lemma event_without_id_is_processed :
  exists w',
    FunctionApp.process_sms_received Scenario.env_ok
      Scenario.sms_event_without_id FunctionApp.empty_world = (w', Ok tt) /\
    FunctionApp.upserted w' =
      [(FunctionApp.COSMOS_DATABASE, "call-logs",
        FunctionApp.sms_item Scenario.env_ok PNone Scenario.sms_data)] /\
    dict_lookup "id" (FunctionApp.sms_item Scenario.env_ok PNone
                        Scenario.sms_data) = Some PNone.
Proof.
  eexists. split; [reflexivity |]. split; reflexivity.
Qed.

(** C8, amended. [process_sms_received] does not validate the envelope:
    whatever the [id] and the [event_type] of the event are, absent
    included, when its data is a dict and the store is configured and
    reachable, the handler completes and writes one record under that
    id. *)
Theorem envelope_fields_are_not_validated
  (env : FunctionApp.Env) (event_id t : pyval) (d : pydict)
  (w : FunctionApp.World) :
  configured (FunctionApp.COSMOS_ENDPOINT env) = true ->
  FunctionApp.credential_fault env = None ->
  FunctionApp.client_fault env = None ->
  (forall item, FunctionApp.upsert_fault env "call-logs" item = None) ->
  exists w' item,
    FunctionApp.process_sms_received env
      {| FunctionApp.id := event_id; FunctionApp.event_type := t;
         FunctionApp.data := PDict d |} w = (w', Ok tt) /\
    FunctionApp.upserted w' =
      (FunctionApp.upserted w ++
       [(FunctionApp.COSMOS_DATABASE, "call-logs", item)])%list /\
    dict_lookup "id" item = Some event_id.
Proof.
  intros C F1 F2 F3.
  destruct (sms_accepted env C F1 F2 event_id t d w (F3 _)) as (w' & R & U & _).
  exists w'. eexists. split; [exact R |]. split; [exact U | reflexivity].
Qed.

Lemma envelope_fields_are_not_validated_witness :
  exists w' item,
    FunctionApp.process_sms_received Scenario.env_ok
      {| FunctionApp.id := PNone; FunctionApp.event_type := PInt 7;
         FunctionApp.data := PDict [] |} FunctionApp.empty_world
      = (w', Ok tt) /\
    FunctionApp.upserted w' =
      [(FunctionApp.COSMOS_DATABASE, "call-logs", item)] /\
    dict_lookup "id" item = Some PNone.
Proof.
  apply (envelope_fields_are_not_validated Scenario.env_ok PNone (PInt 7) []
           FunctionApp.empty_world eq_refl eq_refl eq_refl
           (fun _ => eq_refl)).
Defined.

(* ================================================================== *)
(** * The health check *)
(* ================================================================== *)

(** C7, as the spec states it, fails on two literals. Without a store
    endpoint the snapshot says ["not configured"], which is not the value
    ["not_configured"]. And the text after ["unhealthy: "] is [str(e)] of
    the exception caught, which is empty when the exception has no
    message. *)
Lemma health_status_literals_differ :
  (exists w' earlier snapshot,
     FunctionApp.health_check Scenario.env_unconfigured FunctionApp.empty_world
       = (w', Ok tt) /\
     FunctionApp.logs w' = (earlier ++ [FunctionApp.health_line snapshot])%list /\
     dict_lookup "cosmos_db" snapshot = Some (PStr "not configured") /\
     dict_lookup "cosmos_db" snapshot <> Some (PStr "not_configured")) /\
  (exists w' earlier snapshot,
     FunctionApp.health_check (Scenario.env_unreachable "")
       FunctionApp.empty_world = (w', Ok tt) /\
     FunctionApp.logs w' = (earlier ++ [FunctionApp.health_line snapshot])%list /\
     dict_lookup "cosmos_db" snapshot = Some (PStr "unhealthy: ")).
Proof.
  split.
  - eexists. exists [(INFO, [Lit "Running health check..."])]. eexists.
    split; [cbv; reflexivity |]. split; [reflexivity |].
    split; [reflexivity | discriminate].
  - eexists.
    exists [(INFO, [Lit "Running health check..."]);
            (ERROR, [Lit "Cosmos DB health check failed: ";
                     Err (Raise (OtherException "ServiceRequestError") "")])].
    eexists. split; [cbv; reflexivity |]. split; reflexivity.
Qed.

(** C7, amended. [health_check] never raises and writes nothing: in every
    environment it completes and its last log line carries a snapshot.
    The snapshot's [cosmos_db] field is ["not configured"] when the store
    endpoint is not configured, and then no client was constructed; it is
    ["healthy"] when the probe succeeds; it is ["unhealthy: "] followed by
    the text of the exception when the probe raises. *)
Theorem health_check_always_reports
  (env : FunctionApp.Env) (w : FunctionApp.World) :
  exists w' earlier snapshot,
    FunctionApp.health_check env w = (w', Ok tt) /\
    FunctionApp.logs w' = (earlier ++ [FunctionApp.health_line snapshot])%list /\
    FunctionApp.upserted w' = FunctionApp.upserted w /\
    (configured (FunctionApp.COSMOS_ENDPOINT env) = false ->
     dict_lookup "cosmos_db" snapshot = Some (PStr "not configured") /\
     FunctionApp.cosmos_clients w' = FunctionApp.cosmos_clients w) /\
    (configured (FunctionApp.COSMOS_ENDPOINT env) = true ->
     FunctionApp.probe_fault env = None ->
     dict_lookup "cosmos_db" snapshot = Some (PStr "healthy")) /\
    (configured (FunctionApp.COSMOS_ENDPOINT env) = true ->
     forall e, FunctionApp.probe_fault env = Some e ->
     dict_lookup "cosmos_db" snapshot =
       Some (PStr ("unhealthy: " ++ exn_str e))).
Proof.
  pose (running := (INFO, [Lit "Running health check..."]) : log_entry).
  pose (failed := fun e : exn =>
    (ERROR, [Lit "Cosmos DB health check failed: "; Err e]) : log_entry).
  unfold FunctionApp.health_check, FunctionApp.probe_fault,
    FunctionApp.get_cosmos_client, FunctionApp.list_containers.
  destruct (configured (FunctionApp.COSMOS_ENDPOINT env));
    [destruct (FunctionApp.credential_fault env) as [e |];
     [| destruct (FunctionApp.client_fault env) as [e |];
        [| destruct (FunctionApp.list_containers_fault env) as [e |]]] |];
    eexists;
    [ exists ((FunctionApp.logs w ++ [running]) ++ [failed e])%list
    | exists ((FunctionApp.logs w ++ [running]) ++ [failed e])%list
    | exists ((FunctionApp.logs w ++ [running]) ++ [failed e])%list
    | exists (FunctionApp.logs w ++ [running])%list
    | exists (FunctionApp.logs w ++ [running])%list ];
    eexists;
    (split; [cbv [bind try_except ret raise external FunctionApp.log
                  FunctionApp.count_client FunctionApp.utcnow];
             reflexivity |];
     split; [reflexivity |];
     split; [reflexivity |];
     split; [intros C; try discriminate C; split; reflexivity |];
     split; [intros C P; try discriminate C; try discriminate P;
             reflexivity |];
     intros C e' P; try discriminate C; try discriminate P;
     injection P as <-; reflexivity).
Qed.

Lemma health_check_always_reports_witness :
  exists w' snapshot,
    FunctionApp.health_check (Scenario.env_unreachable "connection refused")
      FunctionApp.empty_world = (w', Ok tt) /\
    dict_lookup "cosmos_db" snapshot =
      Some (PStr "unhealthy: connection refused").
Proof.
  destruct (health_check_always_reports
              (Scenario.env_unreachable "connection refused")
              FunctionApp.empty_world)
    as (w' & earlier & snapshot & R & _ & _ & _ & _ & U).
  exists w', snapshot. split; [exact R |].
  exact (U eq_refl _ eq_refl).
Defined.

(* ================================================================== *)
(** * The error boundary of the REST API *)
(* ================================================================== *)

Section ApiFacts.
Import App.

Lemma check_required_response (fields : list string) (data : pyval)
  (r : Response) :
  check_required fields data = Ok (Some r) ->
  exists field,
    In field fields /\
    r = jsonify [("error", PStr ("Missing required field: " ++ field))] 400.
Proof.
  induction fields as [| f fields IH]; simpl; [discriminate |].
  destruct (py_contains f data) as [[|] | e]; [| | discriminate].
  - intros E. destruct (IH E) as (field & I & Q). exists field. auto.
  - intros E. injection E as <-. exists f. auto.
Qed.

Lemma handle_errors_total (f : M World Response) (w : World) :
  exists w' r,
    handle_errors f w = (w', Ok r) /\
    match f w with
    | (_, Ok r0) => r = r0
    | (_, Exc e) => structured_error r /\ status r = status_of_exception e
    end.
Proof.
  unfold handle_errors, try_except, status_of_exception, structured_error.
  destruct (f w) as [w1 [r0 | [c text]]].
  - exists w1, r0. auto.
  - destruct c; simpl; unfold bind, log, ret; simpl;
      eexists; eexists; (split; [reflexivity |]); simpl;
      (split; [eexists; split; [reflexivity |]; split; reflexivity
              | reflexivity]).
Qed.

End ApiFacts.

(** C9, as the spec states it, fails: a request to send an SMS whose body
    lacks the recipient fails with status 400, and the body of the
    response has an [error] field but no [type] field. *)
Lemma send_sms_missing_field_has_no_type :
  exists w' d,
    App.send_sms (ApiScenario.env_with ApiScenario.body_without_to)
      App.empty_world
      = (w', Ok {| App.body := PDict d; App.status := 400 |}) /\
    dict_lookup "error" d = Some (PStr "Missing required field: to") /\
    dict_lookup "type" d = None.
Proof.
  eexists. eexists. split; [cbv; reflexivity |]. split; reflexivity.
Qed.

(** C9, amended. No exception escapes a view decorated with
    [handle_errors]: the decorated view always returns a response, the
    view's own when it returns one. An exception raised in the view is
    answered with a JSON object that has an [error] and a [type] field,
    with status 400 for a [ValueError], the [status_code] of an
    [HttpResponseError] (500 when it has none), and 500 for any other
    exception. The validation failures [send_sms] itself detects, an empty
    body or a missing required field, are answered with status 400 and a
    JSON object that has the [error] field only. *)
Theorem rest_errors_are_answered :
  (forall (f : M App.World App.Response) (w : App.World),
     exists w' r,
       App.handle_errors f w = (w', Ok r) /\
       match f w with
       | (_, Ok r0) => r = r0
       | (_, Exc e) =>
           App.structured_error r /\ App.status r = App.status_of_exception e
       end) /\
  (forall (env : App.Env) (w : App.World) (data : pyval),
     App.request_get_json env = Ok data ->
     truthy data = false ->
     App.send_sms env w =
       (w, Ok (App.jsonify [("error", PStr "Request body required")] 400))) /\
  (forall (env : App.Env) (w : App.World) (data : pyval) (r : App.Response),
     App.request_get_json env = Ok data ->
     truthy data = true ->
     App.check_required ["from"; "to"; "message"] data = Ok (Some r) ->
     App.send_sms env w = (w, Ok r) /\
     App.status r = 400%Z /\
     exists field,
       App.body r =
         PDict [("error", PStr ("Missing required field: " ++ field))]).
Proof.
  split; [exact handle_errors_total | split].
  - intros env w data J T.
    unfold App.send_sms, App.handle_errors, App.send_sms_view, try_except,
      bind, lift.
    rewrite J, T. reflexivity.
  - intros env w data r J T K.
    unfold App.send_sms, App.handle_errors, App.send_sms_view, try_except,
      bind, lift.
    rewrite J, T, K. simpl. split; [reflexivity |].
    destruct (check_required_response _ _ _ K) as (field & _ & ->).
    split; [reflexivity |]. now exists field.
Qed.

Lemma rest_errors_are_answered_witness :
  (exists w' r,
     App.handle_errors
       (ApiScenario.raising (Raise (HttpResponseError (Some 429%Z)) "throttled"))
       App.empty_world = (w', Ok r) /\
     App.structured_error r /\ App.status r = 429%Z) /\
  App.send_sms (ApiScenario.env_with (PDict [])) App.empty_world =
    (App.empty_world,
     Ok (App.jsonify [("error", PStr "Request body required")] 400)) /\
  App.send_sms (ApiScenario.env_with ApiScenario.body_without_to)
    App.empty_world =
    (App.empty_world,
     Ok (App.jsonify [("error", PStr "Missing required field: to")] 400)).
Proof.
  destruct rest_errors_are_answered as (H1 & H2 & H3).
  split; [| split].
  - exact (H1 (ApiScenario.raising
                 (Raise (HttpResponseError (Some 429%Z)) "throttled"))
              App.empty_world).
  - exact (H2 (ApiScenario.env_with (PDict [])) App.empty_world (PDict [])
              eq_refl eq_refl).
  - exact (proj1 (H3 (ApiScenario.env_with ApiScenario.body_without_to)
                    App.empty_world ApiScenario.body_without_to
                    (App.jsonify
                       [("error", PStr "Missing required field: to")] 400)
                    eq_refl eq_refl eq_refl)).
Defined.

(* ================================================================== *)
(** * Further properties of the event functions *)
(* ================================================================== *)

Section MoreHandlerFacts.
Import FunctionApp Ingest.
Variable env : Env.

Lemma quiet_try_except {A} (body : M World A) (h : exn -> M World A) :
  quiet body -> (forall e, quiet (h e)) -> quiet (try_except body h).
Proof.
  intros Hb Hh w w' o E. unfold try_except in E.
  destruct (body w) as [w1 [a | e]] eqn:E1.
  - injection E as <- _. exact (Hb _ _ _ E1).
  - destruct (Hb _ _ _ E1) as [U C]. destruct (Hh _ _ _ _ E) as [U' C'].
    split; congruence.
Qed.

Lemma quiet_raise {A} (e : exn) : quiet (raise (A := A) e).
Proof. intros w w' o E. injection E as <- _. auto. Qed.

Ltac quiet_all := repeat (intros; first
  [ apply quiet_log | apply quiet_lift | apply quiet_ret | apply quiet_raise
  | apply quiet_for_each | apply quiet_bind | apply quiet_try_except
  | match goal with
    | |- quiet (if ?b then _ else _) => destruct b
    end ]).

Lemma sms_quiet_unconfigured (event : EventGridEvent) :
  configured (COSMOS_ENDPOINT env) = false ->
  quiet (process_sms_received env event).
Proof.
  intros C. unfold process_sms_received, utcnow. rewrite C. quiet_all.
Qed.

Lemma chat_message_quiet_unconfigured (i d : pyval) :
  configured (COSMOS_ENDPOINT env) = false ->
  quiet (process_chat_message env i d).
Proof.
  intros C. unfold process_chat_message. rewrite C. quiet_all.
Qed.

Lemma chat_event_quiet_unconfigured (event : EventGridEvent) :
  configured (COSMOS_ENDPOINT env) = false ->
  quiet (process_chat_event env event).
Proof.
  intros C. unfold process_chat_event.
  apply quiet_bind; [apply quiet_log | intros _].
  apply quiet_try_except; [| quiet_all].
  repeat match goal with
         | |- quiet (if ?b then _ else _) => destruct b
         end.
  - now apply chat_message_quiet_unconfigured.
  - apply process_thread_created_quiet.
  - apply process_participant_added_quiet.
  - apply quiet_log.
Qed.

Lemma recording_quiet_unconfigured (event : EventGridEvent) :
  configured (COSMOS_ENDPOINT env) = false ->
  quiet (process_recording_event env event).
Proof.
  intros C. unfold process_recording_event. rewrite C. quiet_all.
Qed.

Lemma informational_quiet (event : EventGridEvent) :
  py_eq_str (event_type event) "Microsoft.Communication.ChatMessageReceived"
    = false ->
  quiet (process_chat_event env event).
Proof.
  intros T. unfold process_chat_event. rewrite T.
  apply quiet_bind; [apply quiet_log | intros _].
  apply quiet_try_except; [| quiet_all].
  repeat match goal with
         | |- quiet (if ?b then _ else _) => destruct b
         end.
  - apply process_thread_created_quiet.
  - apply process_participant_added_quiet.
  - apply quiet_log.
Qed.

End MoreHandlerFacts.

(** X1. Whatever the store configuration and however the run ends,
    [process_chat_event] on an event that is not a chat message (a created
    thread, an added participant, an unknown type) constructs no store
    client and writes nothing. *)
Theorem informational_chat_events_never_touch_store
  (env : FunctionApp.Env) (event : FunctionApp.EventGridEvent)
  (w w' : FunctionApp.World) (o : outcome unit) :
  py_eq_str (FunctionApp.event_type event)
    "Microsoft.Communication.ChatMessageReceived" = false ->
  FunctionApp.process_chat_event env event w = (w', o) ->
  FunctionApp.upserted w' = FunctionApp.upserted w /\
  FunctionApp.cosmos_clients w' = FunctionApp.cosmos_clients w.
Proof.
  intros T R. exact (informational_quiet env event T _ _ _ R).
Qed.

(** X2. Without a store endpoint, none of the three trigger functions
    constructs a store client or writes anything, for every event and
    however the run ends. *)
Theorem unconfigured_store_is_never_contacted
  (env : FunctionApp.Env) (event : FunctionApp.EventGridEvent)
  (w w' : FunctionApp.World) (o : outcome unit) :
  configured (FunctionApp.COSMOS_ENDPOINT env) = false ->
  FunctionApp.process_sms_received env event w = (w', o) \/
  FunctionApp.process_chat_event env event w = (w', o) \/
  FunctionApp.process_recording_event env event w = (w', o) ->
  FunctionApp.upserted w' = FunctionApp.upserted w /\
  FunctionApp.cosmos_clients w' = FunctionApp.cosmos_clients w.
Proof.
  intros C [R | [R | R]].
  - exact (sms_quiet_unconfigured env event C _ _ _ R).
  - exact (chat_event_quiet_unconfigured env event C _ _ _ R).
  - exact (recording_quiet_unconfigured env event C _ _ _ R).
Qed.

Lemma informational_chat_events_never_touch_store_witness :
  let run := FunctionApp.process_chat_event Scenario.env_ok
               Samples.participants_event FunctionApp.empty_world in
  FunctionApp.upserted (fst run) = [] /\
  FunctionApp.cosmos_clients (fst run) = 0%nat.
Proof.
  intros run.
  apply (informational_chat_events_never_touch_store Scenario.env_ok
           Samples.participants_event FunctionApp.empty_world
           (fst run) (snd run) eq_refl).
  reflexivity.
Defined.

Lemma unconfigured_store_is_never_contacted_witness :
  let run := FunctionApp.process_sms_received Scenario.env_unconfigured
               Scenario.sms_event FunctionApp.empty_world in
  FunctionApp.upserted (fst run) = [] /\
  FunctionApp.cosmos_clients (fst run) = 0%nat.
Proof.
  intros run.
  apply (unconfigured_store_is_never_contacted Scenario.env_unconfigured
           Scenario.sms_event FunctionApp.empty_world
           (fst run) (snd run) eq_refl).
  left. reflexivity.
Defined.

Section FailureFacts.
Import FunctionApp Ingest.
Variable env : Env.

Lemma try_except_reraise_logs {A} (body : M World A) (lv : level)
  (msg : exn -> list frag) (w w' : World) (e : exn) :
  try_except body (fun e => log lv (msg e) ;; raise e) w = (w', Exc e) ->
  exists w1,
    body w = (w1, Exc e) /\
    logs w' = (logs w1 ++ [(lv, msg e)])%list.
Proof.
  unfold try_except, bind, raise, log.
  destruct (body w) as [w1 [x | e1]]; intros E; [discriminate E |].
  injection E as <- <-. exists w1. auto.
Qed.

End FailureFacts.

Lemma try_block_reraises (what : string) (lv : level) (msg : list frag)
  (block : M FunctionApp.World unit) (w : FunctionApp.World) :
  Ingest.reraises what (lv, msg) block w
    ((FunctionApp.log lv msg ;;
      try_except block
        (fun e =>
           FunctionApp.log EXCEPTION
             [Lit ("Error processing " ++ what ++ ": "); Err e] ;;
           raise e)) w).
Proof.
  intros w1 o B.
  change ((FunctionApp.log lv msg ;;
           try_except block
             (fun e =>
                FunctionApp.log EXCEPTION
                  [Lit ("Error processing " ++ what ++ ": "); Err e] ;;
                raise e)) w)
    with (try_except block
            (fun e =>
               FunctionApp.log EXCEPTION
                 [Lit ("Error processing " ++ what ++ ": "); Err e] ;;
               raise e) (Ingest.with_line w (lv, msg))).
  unfold try_except. rewrite B. destruct o as [[] | e]; reflexivity.
Qed.

(** X3. Each trigger function is its opening log line followed by its
    [try] block, and it ends as the block ends: when the block completes,
    the function completes and logs nothing more; when the block raises,
    the function logs one [logger.exception] line that carries the
    exception and then raises that same exception. No failure is
    swallowed or replaced. *)
Theorem failures_are_logged_before_they_propagate
  (env : FunctionApp.Env) (event : FunctionApp.EventGridEvent)
  (w : FunctionApp.World) :
  Ingest.reraises "SMS event"
    (INFO, [Lit "SMS Received Event: "; Val (FunctionApp.id event)])
    (Ingest.sms_try_block env event) w
    (FunctionApp.process_sms_received env event w) /\
  Ingest.reraises "chat event"
    (INFO, [Lit "Chat Event: "; Val (FunctionApp.event_type event);
            Lit ", ID: "; Val (FunctionApp.id event)])
    (Ingest.chat_try_block env event) w
    (FunctionApp.process_chat_event env event w) /\
  Ingest.reraises "recording event"
    (INFO, [Lit "Recording Event: "; Val (FunctionApp.id event)])
    (Ingest.recording_try_block env event) w
    (FunctionApp.process_recording_event env event w).
Proof.
  split; [| split].
  - exact (try_block_reraises "SMS event" INFO
             [Lit "SMS Received Event: "; Val (FunctionApp.id event)]
             (Ingest.sms_try_block env event) w).
  - exact (try_block_reraises "chat event" INFO
             [Lit "Chat Event: "; Val (FunctionApp.event_type event);
              Lit ", ID: "; Val (FunctionApp.id event)]
             (Ingest.chat_try_block env event) w).
  - exact (try_block_reraises "recording event" INFO
             [Lit "Recording Event: "; Val (FunctionApp.id event)]
             (Ingest.recording_try_block env event) w).
Qed.

Lemma failures_are_logged_before_they_propagate_witness :
  FunctionApp.process_sms_received Samples.env_upsert_refused
    Scenario.sms_event FunctionApp.empty_world =
  (Ingest.with_line
     (fst (Ingest.sms_try_block Samples.env_upsert_refused Scenario.sms_event
             (Ingest.with_line FunctionApp.empty_world
                (INFO, [Lit "SMS Received Event: "; Val (PStr "evt-1")]))))
     (Ingest.failure_line "SMS event"
        (Raise (HttpResponseError (Some 503%Z)) "Service Unavailable")),
   Exc (Raise (HttpResponseError (Some 503%Z)) "Service Unavailable")).
Proof.
  exact (proj1 (failures_are_logged_before_they_propagate
                  Samples.env_upsert_refused Scenario.sms_event
                  FunctionApp.empty_world)
           _ (Exc (Raise (HttpResponseError (Some 503%Z))
                     "Service Unavailable"))
           eq_refl).
Defined.

(** X4. With the store configured and an event whose data is a dict,
    how [process_sms_received] ends is decided by the store alone: it
    completes when neither the credential, nor the client, nor the upsert
    raises, and otherwise raises the first of these exceptions unchanged,
    having written nothing. *)
Theorem sms_outcome_follows_the_store
  (env : FunctionApp.Env) (event : FunctionApp.EventGridEvent) (d : pydict)
  (w : FunctionApp.World) :
  configured (FunctionApp.COSMOS_ENDPOINT env) = true ->
  FunctionApp.data event = PDict d ->
  exists w',
    FunctionApp.process_sms_received env event w =
      (w',
       match Ingest.store_fault env "call-logs"
               (FunctionApp.sms_item env (FunctionApp.id event) d) with
       | None => Ok tt
       | Some e => Exc e
       end) /\
    (Ingest.store_fault env "call-logs"
       (FunctionApp.sms_item env (FunctionApp.id event) d) <> None ->
     FunctionApp.upserted w' = FunctionApp.upserted w).
Proof.
  intros C D. unfold Ingest.store_fault.
  unfold FunctionApp.process_sms_received, FunctionApp.get_json. rewrite D.
  unfold bind, try_except, lift, FunctionApp.log, FunctionApp.utcnow, ret.
  simpl. rewrite C.
  unfold FunctionApp.get_cosmos_client, FunctionApp.upsert_item, external,
    FunctionApp.count_client, bind, ret, raise.
  simpl.
  fold (FunctionApp.sms_item env (FunctionApp.id event) d).
  destruct (FunctionApp.credential_fault env) as [e |];
    [eexists; split; [reflexivity | reflexivity] |].
  destruct (FunctionApp.client_fault env) as [e |];
    [eexists; split; [reflexivity | reflexivity] |].
  destruct (FunctionApp.upsert_fault env "call-logs"
              (FunctionApp.sms_item env (FunctionApp.id event) d)) as [e |];
    eexists; (split; [reflexivity |]); [reflexivity | congruence].
Qed.

Lemma sms_outcome_follows_the_store_witness :
  exists w',
    FunctionApp.process_sms_received Samples.env_upsert_refused
      Scenario.sms_event FunctionApp.empty_world =
      (w', Exc (Raise (HttpResponseError (Some 503%Z)) "Service Unavailable")) /\
    FunctionApp.upserted w' = [].
Proof.
  destruct (sms_outcome_follows_the_store Samples.env_upsert_refused
              Scenario.sms_event Scenario.sms_data FunctionApp.empty_world
              eq_refl eq_refl) as (w' & R & U).
  exists w'. split; [exact R |]. apply U. discriminate.
Defined.

(** X5. An event whose data is not a JSON object (a list, a string, a
    number, [null]) makes [process_sms_received] and
    [process_recording_event] raise the [AttributeError] of the first
    [data.get], and [process_chat_event] too when the event type is one it
    routes. No store client is constructed and nothing is written. *)
Theorem non_mapping_data_raises
  (env : FunctionApp.Env) (event : FunctionApp.EventGridEvent)
  (w : FunctionApp.World) :
  Ingest.is_dict (FunctionApp.data event) = false ->
  let raises (run : FunctionApp.World * outcome unit) :=
    snd run = Exc (Ingest.no_get (FunctionApp.data event)) /\
    FunctionApp.upserted (fst run) = FunctionApp.upserted w /\
    FunctionApp.cosmos_clients (fst run) = FunctionApp.cosmos_clients w in
  raises (FunctionApp.process_sms_received env event w) /\
  raises (FunctionApp.process_recording_event env event w) /\
  (Ingest.known_chat_type (FunctionApp.event_type event) = true ->
   raises (FunctionApp.process_chat_event env event w)).
Proof.
  intros D raises. unfold raises, Ingest.no_get, Ingest.known_chat_type.
  unfold FunctionApp.process_sms_received, FunctionApp.process_recording_event,
    FunctionApp.process_chat_event, FunctionApp.process_chat_message,
    FunctionApp.process_thread_created, FunctionApp.process_participant_added,
    FunctionApp.get_json.
  split; [| split].
  - destruct (FunctionApp.data event); try discriminate D; repeat split.
  - destruct (FunctionApp.data event); try discriminate D; repeat split.
  - intros K.
    destruct (py_eq_str (FunctionApp.event_type event)
                "Microsoft.Communication.ChatMessageReceived");
      [destruct (FunctionApp.data event); try discriminate D; repeat split |].
    destruct (py_eq_str (FunctionApp.event_type event)
                "Microsoft.Communication.ChatThreadCreated");
      [destruct (FunctionApp.data event); try discriminate D; repeat split |].
    destruct (py_eq_str (FunctionApp.event_type event)
                "Microsoft.Communication.ChatParticipantAdded");
      [destruct (FunctionApp.data event); try discriminate D; repeat split |].
    discriminate K.
Qed.

Lemma non_mapping_data_raises_witness :
  snd (FunctionApp.process_sms_received Scenario.env_ok
         Samples.sms_event_with_list FunctionApp.empty_world) =
    Exc (Raise AttributeError "'list' object has no attribute 'get'") /\
  FunctionApp.upserted
    (fst (FunctionApp.process_sms_received Scenario.env_ok
            Samples.sms_event_with_list FunctionApp.empty_world)) = [].
Proof.
  destruct (non_mapping_data_raises Scenario.env_ok
              Samples.sms_event_with_list FunctionApp.empty_world eq_refl)
    as ((R & U & _) & _).
  split; [exact R | exact U].
Defined.

Section SliceFacts.
Import FunctionApp Ingest.

Lemma slice_ok (v : pyval) :
  sliceable v = true -> exists x, py_slice_to 20 v = Ok x.
Proof. destruct v; try discriminate; simpl; eauto. Qed.

Lemma slice_fails (v : pyval) :
  sliceable v = false ->
  exists text, py_slice_to 20 v = Exc (Raise TypeError text).
Proof. destruct v; try discriminate; simpl; eauto. Qed.

Lemma code_points_prefix (n : nat) (s : string) :
  code_points (str_prefix n s) = Nat.min n (code_points s).
Proof.
  revert n. induction s as [| c s IH]; intros n; simpl.
  - now rewrite Nat.min_0_r.
  - destruct (is_continuation c) eqn:E; simpl.
    + rewrite E. apply IH.
    + destruct n as [| n]; simpl; [reflexivity |].
      rewrite E. f_equal. apply IH.
Qed.

End SliceFacts.

(** X6. [process_thread_created] completes exactly when the data is a JSON
    object whose [threadId] and [createdBy] are both strings (or lists):
    an absent or [null] field, a number or an object there makes the log
    line raise. *)
Theorem thread_created_completes_iff
  (event_id data : pyval) (w : FunctionApp.World) :
  (exists w', FunctionApp.process_thread_created event_id data w = (w', Ok tt))
  <->
  (exists d,
     data = PDict d /\
     Ingest.sliceable (dict_get d "threadId" PNone) = true /\
     Ingest.sliceable (dict_get d "createdBy" PNone) = true).
Proof.
  unfold FunctionApp.process_thread_created. split.
  - intros (w' & R). destruct data as [| b | z | s | l | d];
      try (unfold bind, lift in R; simpl in R; discriminate R).
    exists d. split; [reflexivity |]. revert R.
    unfold bind, lift. simpl.
    destruct (Ingest.sliceable (dict_get d "threadId" PNone)) eqn:S1.
    + destruct (Ingest.sliceable (dict_get d "createdBy" PNone)) eqn:S2;
        [auto |].
      destruct (slice_ok _ S1) as (x & ->).
      destruct (slice_fails _ S2) as (t & ->). discriminate.
    + destruct (slice_fails _ S1) as (t & ->). discriminate.
  - intros (d & -> & S1 & S2).
    destruct (slice_ok _ S1) as (x & X). destruct (slice_ok _ S2) as (y & Y).
    unfold bind, lift, FunctionApp.log. simpl. rewrite X, Y.
    eexists. reflexivity.
Qed.

(** X7. Whatever the environment, a chat message whose [threadId] or
    [senderId] is absent, [null], a number or an object makes
    [process_chat_message] raise a [TypeError] at its log line: the world
    is left exactly as it was, so nothing is logged by the handler and
    nothing reaches the store. *)
Theorem chat_message_needs_thread_and_sender
  (env : FunctionApp.Env) (event_id : pyval) (d : pydict)
  (w : FunctionApp.World) :
  Ingest.sliceable (dict_get d "threadId" PNone) = false \/
  Ingest.sliceable (dict_get d "senderId" PNone) = false ->
  exists text,
    FunctionApp.process_chat_message env event_id (PDict d) w =
      (w, Exc (Raise TypeError text)).
Proof.
  intros H. unfold FunctionApp.process_chat_message, bind, lift. simpl.
  destruct (Ingest.sliceable (dict_get d "threadId" PNone)) eqn:S1.
  - destruct H as [H | H]; [discriminate H |].
    destruct (slice_ok _ S1) as (x & ->).
    destruct (slice_fails _ H) as (t & ->). now exists t.
  - destruct (slice_fails _ S1) as (t & ->). now exists t.
Qed.

Lemma chat_message_needs_thread_and_sender_witness :
  exists text,
    FunctionApp.process_chat_message Scenario.env_ok (PStr "evt-2")
      (PDict [("threadId", PStr "19:thread-1"); ("senderId", PInt 7)])
      FunctionApp.empty_world =
      (FunctionApp.empty_world, Exc (Raise TypeError text)).
Proof.
  apply (chat_message_needs_thread_and_sender Scenario.env_ok (PStr "evt-2")
           [("threadId", PStr "19:thread-1"); ("senderId", PInt 7)]
           FunctionApp.empty_world).
  right. reflexivity.
Defined.

Lemma thread_created_completes_iff_witness :
  exists w',
    FunctionApp.process_thread_created (PStr "evt-5")
      (FunctionApp.data Samples.thread_created_event)
      FunctionApp.empty_world = (w', Ok tt).
Proof.
  apply (proj2 (thread_created_completes_iff (PStr "evt-5")
                  (FunctionApp.data Samples.thread_created_event)
                  FunctionApp.empty_world)).
  eexists. split; [reflexivity |]. split; reflexivity.
Defined.

Section ParticipantFacts.
Import FunctionApp Ingest.

Lemma participant_loop (t : string) (ps : list pyval) (w : World) :
  Forall (fun p => participant_id p <> None) ps ->
  exists w',
    for_each ps (fun p =>
      thread_20 <- lift (py_slice_to 20 (PStr t)) ;;
      p_id <- lift (py_get p "id" (PStr "")) ;;
      p_20 <- lift (py_slice_to 20 p_id) ;;
      log INFO [Lit "Participant added to "; Val thread_20;
                Lit "...: "; Val p_20; Lit "..."]) w = (w', Ok tt) /\
    logs w' = (logs w ++ map (participant_line t) ps)%list.
Proof.
  match goal with
  | |- context [for_each _ ?b] => set (body := b)
  end.
  intros H. revert w. induction H as [| p ps Hp _ IH]; intros w.
  - exists w. split; [reflexivity |]. simpl. now rewrite app_nil_r.
  - assert (body p w =
            ({| logs := logs w ++ [participant_line t p];
                cosmos_clients := cosmos_clients w;
                upserted := upserted w |}, Ok tt)) as B.
    { unfold body, participant_line, participant_id in *.
      destruct p as [| b | z | s | l | d]; try congruence.
      unfold bind, lift, log. simpl.
      destruct (dict_get d "id" (PStr "")); try congruence. reflexivity. }
    simpl for_each. unfold bind at 1. rewrite B.
    destruct (IH {| logs := logs w ++ [participant_line t p];
                    cosmos_clients := cosmos_clients w;
                    upserted := upserted w |}) as (w' & R & L).
    exists w'. split; [exact R |].
    rewrite L. simpl. now rewrite <- app_assoc.
Qed.

End ParticipantFacts.

(** X8. For a thread whose id is a string and a list of participants that
    are JSON objects with a string [id] or none, [process_participant_added]
    completes and logs exactly one line per participant, in order; each
    line shows at most the first 20 characters of the thread id and of the
    participant id, an absent id as the empty string. Nothing else
    changes. *)
Theorem participants_are_logged_one_by_one
  (event_id : pyval) (d : pydict) (t : string) (ps : list pyval)
  (w : FunctionApp.World) :
  dict_lookup "threadId" d = Some (PStr t) ->
  dict_lookup "participantsAdded" d = Some (PList ps) ->
  Forall (fun p => Ingest.participant_id p <> None) ps ->
  exists w',
    FunctionApp.process_participant_added event_id (PDict d) w = (w', Ok tt) /\
    FunctionApp.logs w' =
      (FunctionApp.logs w ++ map (Ingest.participant_line t) ps)%list /\
    FunctionApp.upserted w' = FunctionApp.upserted w /\
    FunctionApp.cosmos_clients w' = FunctionApp.cosmos_clients w.
Proof.
  intros T P H.
  destruct (participant_loop t ps w H) as (w' & R & L).
  assert (FunctionApp.process_participant_added event_id (PDict d) w
          = (w', Ok tt)) as E.
  { unfold FunctionApp.process_participant_added.
    unfold bind at 1. unfold lift at 1. simpl py_get.
    unfold bind at 1. unfold lift at 1.
    unfold bind at 1. unfold lift at 1.
    unfold dict_get. rewrite T, P. simpl py_iter. cbv iota beta.
    exact R. }
  exists w'. split; [exact E |]. split; [exact L |].
  exact (process_participant_added_quiet _ _ _ _ _ E).
Qed.

Lemma participants_are_logged_one_by_one_witness :
  exists w',
    FunctionApp.process_participant_added (PStr "evt-6")
      (FunctionApp.data Samples.participants_event) FunctionApp.empty_world
      = (w', Ok tt) /\
    FunctionApp.logs w' =
      [(INFO, [Lit "Participant added to "; Val (PStr "19:a-thread-with-a-l");
               Lit "...: "; Val (PStr "8:acs:user-1"); Lit "..."]);
       (INFO, [Lit "Participant added to "; Val (PStr "19:a-thread-with-a-l");
               Lit "...: "; Val (PStr ""); Lit "..."])].
Proof.
  destruct (participants_are_logged_one_by_one (PStr "evt-6")
              [("threadId", PStr "19:a-thread-with-a-long-identifier");
               ("participantsAdded",
                PList [PDict [("id", PStr "8:acs:user-1")];
                       PDict [("displayName", PStr "Ann")]])]
              "19:a-thread-with-a-long-identifier"
              [PDict [("id", PStr "8:acs:user-1")];
               PDict [("displayName", PStr "Ann")]]
              FunctionApp.empty_world eq_refl eq_refl)
    as (w' & R & L & _).
  - repeat constructor; discriminate.
  - exists w'. split; [exact R | exact L].
Defined.

(** X9. When the thread id is absent (or not a string or list),
    [process_participant_added] completes exactly when there is no
    participant to report: with an empty list it returns without logging,
    with any participant it raises at the log line. *)
Theorem participants_without_thread
  (event_id : pyval) (d : pydict) (ps : list pyval) (w : FunctionApp.World) :
  Ingest.sliceable (dict_get d "threadId" PNone) = false ->
  dict_get d "participantsAdded" (PList []) = PList ps ->
  (ps = [] ->
   FunctionApp.process_participant_added event_id (PDict d) w = (w, Ok tt)) /\
  (ps <> [] ->
   exists text,
     FunctionApp.process_participant_added event_id (PDict d) w =
       (w, Exc (Raise TypeError text))).
Proof.
  intros S P. unfold FunctionApp.process_participant_added.
  unfold bind at 1. unfold lift at 1. simpl py_get.
  unfold bind at 1. unfold lift at 1.
  unfold bind at 1. unfold lift at 1. rewrite P. simpl py_iter. cbv iota beta.
  split.
  - intros ->. reflexivity.
  - intros N. destruct ps as [| p ps]; [congruence |].
    destruct (slice_fails _ S) as (text & F).
    exists text. simpl for_each. unfold bind, lift. now rewrite F.
Qed.

Lemma participants_without_thread_witness :
  FunctionApp.process_participant_added (PStr "evt-6") (PDict [])
    FunctionApp.empty_world = (FunctionApp.empty_world, Ok tt).
Proof.
  apply (proj1 (participants_without_thread (PStr "evt-6") [] []
                  FunctionApp.empty_world eq_refl eq_refl)).
  reflexivity.
Defined.

Section RecordingLoop.
Import FunctionApp Ingest.

Lemma chunk_loop_ok (cs : list pyval) (w : World) :
  forallb is_dict cs = true ->
  for_each cs (fun chunk =>
    content_location <- lift (py_get chunk "contentLocation" PNone) ;;
    delete_location <- lift (py_get chunk "deleteLocation" PNone) ;;
    log INFO [Lit "Recording available at: "; Val content_location]) w =
    ({| logs := logs w ++ map chunk_line cs;
        cosmos_clients := cosmos_clients w;
        upserted := upserted w |}, Ok tt).
Proof.
  match goal with
  | |- context [for_each _ ?b] => set (body := b)
  end.
  revert w. induction cs as [| c cs IH]; intros w H.
  - simpl. rewrite app_nil_r. now destruct w.
  - simpl in H. apply andb_prop in H as [Hc Hcs].
    destruct c as [| b | z | s | l | d]; try discriminate Hc.
    simpl for_each. unfold bind at 1.
    replace (body (PDict d) w) with
      ({| logs := logs w ++ [chunk_line (PDict d)];
          cosmos_clients := cosmos_clients w;
          upserted := upserted w |}, Ok tt) by reflexivity.
    rewrite (IH _ Hcs). simpl. now rewrite <- app_assoc.
Qed.

Lemma chunk_loop_fails (cs : list pyval) (w : World) :
  forallb is_dict cs = false ->
  exists w' e,
    for_each cs (fun chunk =>
      content_location <- lift (py_get chunk "contentLocation" PNone) ;;
      delete_location <- lift (py_get chunk "deleteLocation" PNone) ;;
      log INFO [Lit "Recording available at: "; Val content_location]) w =
      (w', Exc e) /\
    exn_cls e = AttributeError.
Proof.
  match goal with
  | |- context [for_each _ ?b] => set (body := b)
  end.
  revert w. induction cs as [| c cs IH]; intros w H; [discriminate H |].
  simpl in H. simpl for_each. unfold bind at 1.
  destruct c as [| b | z | s | l | d];
    try (eexists; eexists; split; [reflexivity | reflexivity]).
  simpl in H.
  replace (body (PDict d) w) with
    ({| logs := logs w ++ [chunk_line (PDict d)];
        cosmos_clients := cosmos_clients w;
        upserted := upserted w |}, Ok tt) by reflexivity.
  apply IH. exact H.
Qed.

End RecordingLoop.

(** X10. With the store configured and reachable, a recording event whose
    chunks are all JSON objects is processed to completion: between its
    opening and closing lines the function logs one line per chunk, in
    order, with the chunk's [contentLocation] ([None] when absent), and
    the record keeps the chunk list exactly as it came in the payload. *)
Theorem recording_logs_and_keeps_every_chunk
  (env : FunctionApp.Env) (event : FunctionApp.EventGridEvent) (d : pydict)
  (cs : list pyval) (w : FunctionApp.World) :
  configured (FunctionApp.COSMOS_ENDPOINT env) = true ->
  FunctionApp.data event = PDict d ->
  FunctionApp.recording_chunks_of d = Ok (PList cs) ->
  forallb Ingest.is_dict cs = true ->
  Ingest.store_fault env "call-logs"
    (FunctionApp.recording_item env (FunctionApp.id event) d (PList cs))
    = None ->
  exists w',
    FunctionApp.process_recording_event env event w = (w', Ok tt) /\
    FunctionApp.logs w' =
      (FunctionApp.logs w ++
       [(INFO, [Lit "Recording Event: "; Val (FunctionApp.id event)])] ++
       map Ingest.chunk_line cs ++
       [(INFO, [Lit "Recording event logged: ";
                Val (FunctionApp.id event)])])%list /\
    FunctionApp.upserted w' =
      (FunctionApp.upserted w ++
       [(FunctionApp.COSMOS_DATABASE, "call-logs",
         FunctionApp.recording_item env (FunctionApp.id event) d (PList cs))])%list.
Proof.
  intros C D RC H F. unfold Ingest.store_fault in F.
  destruct (FunctionApp.credential_fault env) eqn:F1; [discriminate F |].
  destruct (FunctionApp.client_fault env) eqn:F2; [discriminate F |].
  unfold FunctionApp.process_recording_event, FunctionApp.get_json.
  rewrite D. unfold bind at 1. unfold FunctionApp.log at 1. cbv iota beta.
  unfold try_except.
  unfold bind at 1. unfold lift at 1. simpl py_get.
  unfold bind at 1. unfold lift at 1.
  fold (FunctionApp.recording_chunks_of d). rewrite RC.
  unfold bind at 1. unfold lift at 1. simpl py_iter. cbv iota beta.
  unfold bind at 1. rewrite (chunk_loop_ok cs _ H).
  rewrite C.
  unfold FunctionApp.get_cosmos_client, FunctionApp.upsert_item, external,
    FunctionApp.count_client, bind, ret, lift, FunctionApp.utcnow,
    FunctionApp.log.
  simpl. rewrite F1, F2.
  fold (FunctionApp.recording_item env (FunctionApp.id event) d (PList cs)).
  rewrite F.
  eexists. split; [reflexivity |]. simpl. split; [| reflexivity].
  now rewrite <- !app_assoc.
Qed.

Lemma recording_logs_and_keeps_every_chunk_witness :
  exists w',
    FunctionApp.process_recording_event Scenario.env_ok
      Samples.recording_event_two_chunks FunctionApp.empty_world
      = (w', Ok tt) /\
    FunctionApp.logs w' =
      [(INFO, [Lit "Recording Event: "; Val (PStr "evt-9")]);
       (INFO, [Lit "Recording available at: "; Val (PStr "https://a/1")]);
       (INFO, [Lit "Recording available at: "; Val PNone]);
       (INFO, [Lit "Recording event logged: "; Val (PStr "evt-9")])].
Proof.
  destruct (recording_logs_and_keeps_every_chunk Scenario.env_ok
              Samples.recording_event_two_chunks _ _ FunctionApp.empty_world
              eq_refl eq_refl eq_refl eq_refl eq_refl) as (w' & R & L & _).
  exists w'. split; [exact R | exact L].
Defined.

(** X11. In every environment, a recording event whose chunk list holds
    an element that is not a JSON object makes [process_recording_event]
    raise an [AttributeError] while it walks the chunks: no store client is
    constructed and no record is written, not even for the chunks before
    the bad one. *)
Theorem recording_with_bad_chunk_writes_nothing
  (env : FunctionApp.Env) (event : FunctionApp.EventGridEvent) (d : pydict)
  (cs : list pyval) (w : FunctionApp.World) :
  FunctionApp.data event = PDict d ->
  FunctionApp.recording_chunks_of d = Ok (PList cs) ->
  forallb Ingest.is_dict cs = false ->
  exists w' e,
    FunctionApp.process_recording_event env event w = (w', Exc e) /\
    exn_cls e = AttributeError /\
    FunctionApp.upserted w' = FunctionApp.upserted w /\
    FunctionApp.cosmos_clients w' = FunctionApp.cosmos_clients w.
Proof.
  intros D RC H.
  unfold FunctionApp.process_recording_event, FunctionApp.get_json.
  rewrite D. unfold bind at 1. unfold FunctionApp.log at 1. cbv iota beta.
  unfold try_except.
  unfold bind at 1. unfold lift at 1. simpl py_get.
  unfold bind at 1. unfold lift at 1.
  fold (FunctionApp.recording_chunks_of d). rewrite RC.
  unfold bind at 1. unfold lift at 1. simpl py_iter. cbv iota beta.
  unfold bind at 1.
  match goal with
  | |- context [for_each cs ?body ?w0] =>
      destruct (chunk_loop_fails cs w0 H) as (w1 & e & L & K);
      pose proof (recording_loop_quiet cs _ _ _ L) as [U N]
  end.
  rewrite L. unfold FunctionApp.log, bind, raise. simpl.
  eexists. exists e. split; [reflexivity |]. simpl.
  simpl in U, N. auto.
Qed.

Lemma recording_with_bad_chunk_writes_nothing_witness :
  exists w' e,
    FunctionApp.process_recording_event Scenario.env_ok
      Samples.recording_event_bad_chunk FunctionApp.empty_world
      = (w', Exc e) /\
    exn_cls e = AttributeError /\
    FunctionApp.upserted w' = [] /\
    FunctionApp.cosmos_clients w' = 0%nat.
Proof.
  apply (recording_with_bad_chunk_writes_nothing Scenario.env_ok
           Samples.recording_event_bad_chunk _ _ FunctionApp.empty_world
           eq_refl eq_refl eq_refl).
Defined.

Section ClientCount.
Import FunctionApp Ingest.
Variable env : Env.

Lemma keeps_ret {A} (a : A) : keeps_clients (ret a).
Proof. intros w w' o E. now injection E as <- _. Qed.

Lemma keeps_lift {A} (x : outcome A) : keeps_clients (lift x).
Proof. intros w w' o E. now injection E as <- _. Qed.

Lemma keeps_raise {A} (e : exn) : keeps_clients (raise (A := A) e).
Proof. intros w w' o E. now injection E as <- _. Qed.

Lemma keeps_log (lv : level) (msg : list frag) : keeps_clients (log lv msg).
Proof. intros w w' o E. now injection E as <- _. Qed.

Lemma keeps_upsert (db c : string) (item : pydict) :
  keeps_clients (upsert_item env db c item).
Proof.
  intros w w' o. unfold upsert_item.
  destruct (upsert_fault env c item); intros E; now injection E as <- _.
Qed.

Lemma keeps_bind {A B} (m : M World A) (k : A -> M World B) :
  keeps_clients m -> (forall a, keeps_clients (k a)) ->
  keeps_clients (bind m k).
Proof.
  intros Hm Hk w w' o E. unfold bind in E.
  destruct (m w) as [w1 [a | e]] eqn:E1.
  - rewrite (Hk _ _ _ _ E). exact (Hm _ _ _ E1).
  - injection E as <- _. exact (Hm _ _ _ E1).
Qed.

Lemma keeps_quiet {A} (m : M World A) : quiet m -> keeps_clients m.
Proof. intros Q w w' o E. exact (proj2 (Q _ _ _ E)). Qed.

Lemma opens_one_client : opens_one (get_cosmos_client env).
Proof.
  intros w w' a. unfold get_cosmos_client, external, count_client, bind, ret,
    raise.
  destruct (credential_fault env); [discriminate |]. simpl.
  destruct (client_fault env); [discriminate |].
  intros E. now injection E as <-.
Qed.

Lemma opens_one_then {A B} (m : M World A) (k : A -> M World B) :
  opens_one m -> (forall a, keeps_clients (k a)) -> opens_one (bind m k).
Proof.
  intros Hm Hk w w' b E. unfold bind in E.
  destruct (m w) as [w1 [a | e]] eqn:E1; [| discriminate E].
  rewrite (Hk _ _ _ _ E). exact (Hm _ _ _ E1).
Qed.

Lemma opens_one_after {A B} (m : M World A) (k : A -> M World B) :
  keeps_clients m -> (forall a, opens_one (k a)) -> opens_one (bind m k).
Proof.
  intros Hm Hk w w' b E. unfold bind in E.
  destruct (m w) as [w1 [a | e]] eqn:E1; [| discriminate E].
  rewrite (Hk _ _ _ _ E). f_equal. exact (Hm _ _ _ E1).
Qed.

Lemma opens_one_try {A} (body : M World A) (h : exn -> M World unit) :
  opens_one body -> opens_one (try_except body (fun e => h e ;; raise e)).
Proof.
  intros Hb w w' a E. unfold try_except, bind, raise in E.
  destruct (body w) as [w1 [x | e]] eqn:E1.
  - injection E as <- <-. exact (Hb _ _ _ E1).
  - destruct (h e w1) as [w2 [[] | e2]]; discriminate E.
Qed.

Ltac keeps := repeat (intros; first
  [ apply keeps_log | apply keeps_lift | apply keeps_ret | apply keeps_raise
  | apply keeps_upsert | apply keeps_bind ]).

Ltac prefix := repeat (apply opens_one_after; [keeps | intros]).

Hypothesis store_configured : configured (COSMOS_ENDPOINT env) = true.

Lemma sms_opens_one (event : EventGridEvent) :
  opens_one (process_sms_received env event).
Proof.
  unfold process_sms_received, utcnow.
  apply opens_one_after; [keeps | intros _].
  apply opens_one_try. prefix. rewrite store_configured.
  apply opens_one_then; [apply opens_one_client | keeps].
Qed.

Lemma chat_message_opens_one (i d : pyval) :
  opens_one (process_chat_message env i d).
Proof.
  unfold process_chat_message, utcnow. prefix. rewrite store_configured.
  apply opens_one_then; [apply opens_one_client | keeps].
Qed.

Lemma recording_opens_one (event : EventGridEvent) :
  opens_one (process_recording_event env event).
Proof.
  unfold process_recording_event, utcnow.
  apply opens_one_after; [keeps | intros _].
  apply opens_one_try.
  do 3 (apply opens_one_after; [keeps | intros]).
  apply opens_one_after;
    [apply keeps_quiet, recording_loop_quiet | intros _].
  rewrite store_configured.
  apply opens_one_then; [apply opens_one_client | keeps].
Qed.

End ClientCount.

(** X12. With the store configured, every run of a persisting handler
    that completes has constructed exactly one new store client: the
    client is built per event and is not kept from one invocation to the
    next. *)
Theorem completed_runs_open_one_client
  (env : FunctionApp.Env) (event : FunctionApp.EventGridEvent)
  (w w' : FunctionApp.World) :
  configured (FunctionApp.COSMOS_ENDPOINT env) = true ->
  FunctionApp.process_sms_received env event w = (w', Ok tt) \/
  (py_eq_str (FunctionApp.event_type event)
     "Microsoft.Communication.ChatMessageReceived" = true /\
   FunctionApp.process_chat_event env event w = (w', Ok tt)) \/
  FunctionApp.process_recording_event env event w = (w', Ok tt) ->
  FunctionApp.cosmos_clients w' = S (FunctionApp.cosmos_clients w).
Proof.
  intros C [R | [[T R] | R]].
  - exact (sms_opens_one env C event _ _ _ R).
  - unfold FunctionApp.process_chat_event in R. rewrite T in R.
    unfold bind at 1 in R. unfold FunctionApp.log at 1 in R.
    cbv iota beta in R.
    apply try_except_reraise in R as (w1 & R & _ & ->).
    exact (chat_message_opens_one env C _ _ _ _ _ R).
  - exact (recording_opens_one env C event _ _ _ R).
Qed.

Lemma completed_runs_open_one_client_witness :
  FunctionApp.cosmos_clients
    (fst (FunctionApp.process_chat_event Scenario.env_ok Scenario.chat_event
            (fst (FunctionApp.process_sms_received Scenario.env_ok
                    Scenario.sms_event FunctionApp.empty_world)))) = 2%nat.
Proof.
  apply (completed_runs_open_one_client Scenario.env_ok Scenario.chat_event
           (fst (FunctionApp.process_sms_received Scenario.env_ok
                   Scenario.sms_event FunctionApp.empty_world)) _ eq_refl).
  right. left. split; reflexivity.
Defined.

(** X13. The snapshot [health_check] logs always has exactly the three
    fields [timestamp], [cosmos_db] and [key_vault], in this order: the
    timestamp is the clock reading of the tick, and [key_vault] is always
    ["unknown"], because the function never probes the key vault. *)
Theorem health_snapshot_shape
  (env : FunctionApp.Env) (w : FunctionApp.World) :
  exists w' earlier snapshot,
    FunctionApp.health_check env w = (w', Ok tt) /\
    FunctionApp.logs w' = (earlier ++ [FunctionApp.health_line snapshot])%list /\
    map fst snapshot = ["timestamp"; "cosmos_db"; "key_vault"] /\
    dict_lookup "timestamp" snapshot =
      Some (PStr (FunctionApp.utcnow_isoformat env)) /\
    dict_lookup "key_vault" snapshot = Some (PStr "unknown").
Proof.
  pose (running := (INFO, [Lit "Running health check..."]) : log_entry).
  pose (failed := fun e : exn =>
    (ERROR, [Lit "Cosmos DB health check failed: "; Err e]) : log_entry).
  unfold FunctionApp.health_check, FunctionApp.get_cosmos_client,
    FunctionApp.list_containers.
  destruct (configured (FunctionApp.COSMOS_ENDPOINT env));
    [destruct (FunctionApp.credential_fault env) as [e |];
     [| destruct (FunctionApp.client_fault env) as [e |];
        [| destruct (FunctionApp.list_containers_fault env) as [e |]]] |];
    eexists;
    [ exists ((FunctionApp.logs w ++ [running]) ++ [failed e])%list
    | exists ((FunctionApp.logs w ++ [running]) ++ [failed e])%list
    | exists ((FunctionApp.logs w ++ [running]) ++ [failed e])%list
    | exists (FunctionApp.logs w ++ [running])%list
    | exists (FunctionApp.logs w ++ [running])%list ];
    eexists;
    (split; [cbv [bind try_except ret raise external FunctionApp.log
                  FunctionApp.count_client FunctionApp.utcnow];
             reflexivity |];
     repeat split).
Qed.

(** X14. A tick of [health_check] constructs one store client when the
    endpoint is configured and the credential can be created, whether or
    not the probe then succeeds, and none otherwise. *)
Theorem health_check_client_count
  (env : FunctionApp.Env) (w : FunctionApp.World) :
  FunctionApp.cosmos_clients (fst (FunctionApp.health_check env w)) =
    if configured (FunctionApp.COSMOS_ENDPOINT env)
    then match FunctionApp.credential_fault env with
         | None => S (FunctionApp.cosmos_clients w)
         | Some _ => FunctionApp.cosmos_clients w
         end
    else FunctionApp.cosmos_clients w.
Proof.
  unfold FunctionApp.health_check, FunctionApp.get_cosmos_client,
    FunctionApp.list_containers.
  destruct (configured (FunctionApp.COSMOS_ENDPOINT env));
    [destruct (FunctionApp.credential_fault env) as [e |];
     [| destruct (FunctionApp.client_fault env) as [e |];
        [| destruct (FunctionApp.list_containers_fault env) as [e |]]] |];
    reflexivity.
Qed.

(** X15. For a chat message whose thread and sender ids are strings, with
    the store configured and reachable, [process_chat_message] completes.
    The ids are shortened for the log line only, to their first 20
    characters; the record written keeps both ids in full. *)
Theorem chat_ids_are_shortened_in_the_log_only
  (env : FunctionApp.Env) (event_id : pyval) (d : pydict) (t s : string)
  (w : FunctionApp.World) :
  configured (FunctionApp.COSMOS_ENDPOINT env) = true ->
  dict_lookup "threadId" d = Some (PStr t) ->
  dict_lookup "senderId" d = Some (PStr s) ->
  Ingest.store_fault env "chat-history"
    (FunctionApp.chat_item env event_id d) = None ->
  exists w' item,
    FunctionApp.process_chat_message env event_id (PDict d) w = (w', Ok tt) /\
    FunctionApp.logs w' =
      (FunctionApp.logs w ++
       [(INFO, [Lit "Chat message in thread "; Val (PStr (str_prefix 20 t));
                Lit "... from "; Val (PStr (str_prefix 20 s)); Lit "..."]);
        (INFO, [Lit "Chat message logged: "; Val event_id])])%list /\
    code_points (str_prefix 20 t) = Nat.min 20 (code_points t) /\
    code_points (str_prefix 20 s) = Nat.min 20 (code_points s) /\
    FunctionApp.upserted w' =
      (FunctionApp.upserted w ++
       [(FunctionApp.COSMOS_DATABASE, "chat-history", item)])%list /\
    dict_lookup "threadId" item = Some (PStr t) /\
    dict_lookup "senderId" item = Some (PStr s).
Proof.
  intros C T S F. unfold Ingest.store_fault in F.
  destruct (FunctionApp.credential_fault env) eqn:F1; [discriminate F |].
  destruct (FunctionApp.client_fault env) eqn:F2; [discriminate F |].
  unfold FunctionApp.process_chat_message.
  unfold bind, lift, FunctionApp.log, FunctionApp.utcnow, ret. simpl py_get.
  cbv iota beta.
  assert (dict_get d "threadId" PNone = PStr t) as GT
    by (unfold dict_get; now rewrite T).
  assert (dict_get d "senderId" PNone = PStr s) as GS
    by (unfold dict_get; now rewrite S).
  unfold FunctionApp.chat_item in F. rewrite GT, GS in F.
  rewrite GT, GS. simpl py_slice_to. cbv iota beta. rewrite C.
  unfold FunctionApp.get_cosmos_client, FunctionApp.upsert_item, external,
    FunctionApp.count_client, bind, ret.
  rewrite F1, F2. simpl py_get. cbv iota beta. rewrite F.
  eexists. eexists. split; [reflexivity |]. cbn [FunctionApp.logs FunctionApp.upserted].
  split; [now rewrite <- app_assoc |].
  split; [apply code_points_prefix |].
  split; [apply code_points_prefix |].
  split; [reflexivity |]. split; reflexivity.
Qed.

Lemma chat_ids_are_shortened_in_the_log_only_witness :
  exists w' item,
    FunctionApp.process_chat_message Scenario.env_ok (PStr "evt-3")
      (PDict [("threadId", PStr "19:a-thread-with-a-long-identifier");
              ("senderId", PStr "8:acs:user-1")])
      FunctionApp.empty_world = (w', Ok tt) /\
    FunctionApp.logs w' =
      [(INFO, [Lit "Chat message in thread ";
               Val (PStr "19:a-thread-with-a-l");
               Lit "... from "; Val (PStr "8:acs:user-1"); Lit "..."]);
       (INFO, [Lit "Chat message logged: "; Val (PStr "evt-3")])] /\
    dict_lookup "threadId" item =
      Some (PStr "19:a-thread-with-a-long-identifier").
Proof.
  destruct (chat_ids_are_shortened_in_the_log_only Scenario.env_ok
              (PStr "evt-3")
              [("threadId", PStr "19:a-thread-with-a-long-identifier");
               ("senderId", PStr "8:acs:user-1")]
              "19:a-thread-with-a-long-identifier" "8:acs:user-1"
              FunctionApp.empty_world eq_refl eq_refl eq_refl eq_refl)
    as (w' & item & R & L & _ & _ & _ & I & _).
  exists w', item. split; [exact R |]. split; [exact L | exact I].
Defined.

(* ================================================================== *)
(** * Further properties of the REST API *)
(* ================================================================== *)

Section SmsFacts.
Import App.
Variable env : Env.

Lemma lookup_truthy (k : string) (d : pydict) (v : pyval) :
  dict_lookup k d = Some v -> truthy (PDict d) = true.
Proof. destruct d; [discriminate | reflexivity]. Qed.

Lemma required_present (d : pydict) (f t m : pyval) :
  dict_lookup "from" d = Some f ->
  dict_lookup "to" d = Some t ->
  dict_lookup "message" d = Some m ->
  check_required ["from"; "to"; "message"] (PDict d) = Ok None.
Proof.
  intros F T K. simpl. unfold dict_mem. now rewrite F, T, K.
Qed.

(** [send_sms_view] on a complete body, up to the call of the client. *)
Lemma send_sms_view_complete (d : pydict) (f t m : pyval) (w : World) :
  request_get_json env = Ok (PDict d) ->
  dict_lookup "from" d = Some f ->
  dict_lookup "to" d = Some t ->
  dict_lookup "message" d = Some m ->
  send_sms_view env w =
    (get_sms_client env ;;
     response <-
       lift (sms_send env f t m
               (dict_get d "enable_delivery_report" (PBool true))
               (dict_get d "tag" PNone)) ;;
     result <- lift (first_result response) ;;
     log INFO [Lit "SMS sent: "; Val (message_id result); Lit " to "; Val t] ;;
     ret (jsonify [("message_id", message_id result);
                   ("to", to result);
                   ("successful", successful result);
                   ("http_status", http_status_code result)] 200)) w.
Proof.
  intros J F T K. unfold send_sms_view, bind, lift. rewrite J.
  rewrite (lookup_truthy _ _ _ F). change (negb true) with false. cbv iota.
  rewrite (required_present d f t m F T K).
  destruct (get_sms_client env w) as [w1 [[] | e]]; [| reflexivity].
  simpl py_index. rewrite F, T, K. simpl py_get. reflexivity.
Qed.

Lemma get_sms_client_result (w w' : World) (o : outcome unit) :
  get_sms_client env w = (w', o) ->
  logs w' = logs w /\
  match o with
  | Ok _ => _sms_client w' = true
  | Exc _ => _sms_client w' = _sms_client w
  end.
Proof.
  unfold get_sms_client, get_credential, read, bind, external, ret, raise,
    set_sms_client, set_credential.
  destruct w as [l c s]. simpl.
  destruct s; simpl; [intros E; injection E as <- <-; auto |].
  destruct (configured (ACS_ENDPOINT env)); simpl;
    [| intros E; injection E as <- <-; auto].
  destruct c; simpl.
  - destruct (sms_client_fault env); simpl; intros E; injection E as <- <-;
      auto.
  - destruct (credential_fault env); simpl;
      [intros E; injection E as <- <-; auto |].
    destruct (sms_client_fault env); simpl; intros E; injection E as <- <-;
      auto.
Qed.

End SmsFacts.

(** X16. For a body with [from], [to] and [message], once the SMS client
    is available, [send_sms] asks for a delivery report unless the body
    says otherwise, passes the optional [tag], and answers 200 with the
    id, recipient, success flag and HTTP status of the first result the
    client returns; further results are not reported. *)
Theorem send_sms_reports_the_first_result
  (env : App.Env) (w w1 : App.World) (d : pydict) (f t m : pyval)
  (r : App.SmsSendResult) (rest : list App.SmsSendResult) :
  App.request_get_json env = Ok (PDict d) ->
  dict_lookup "from" d = Some f ->
  dict_lookup "to" d = Some t ->
  dict_lookup "message" d = Some m ->
  App.get_sms_client env w = (w1, Ok tt) ->
  App.sms_send env f t m
    (dict_get d "enable_delivery_report" (PBool true))
    (dict_get d "tag" PNone) = Ok (r :: rest) ->
  exists w',
    App.send_sms env w =
      (w', Ok (App.jsonify [("message_id", App.message_id r);
                            ("to", App.to r);
                            ("successful", App.successful r);
                            ("http_status", App.http_status_code r)] 200)) /\
    App._sms_client w' = true.
Proof.
  intros J F T K G S.
  destruct (get_sms_client_result env _ _ _ G) as [_ Cl].
  unfold App.send_sms, App.handle_errors, try_except.
  rewrite (send_sms_view_complete env d f t m w J F T K).
  unfold bind at 1. rewrite G. unfold bind, lift. rewrite S. simpl.
  eexists. split; [reflexivity |]. exact Cl.
Qed.

Lemma send_sms_reports_the_first_result_witness :
  exists w',
    App.send_sms (ApiScenario.env_with ApiSamples.sms_body) App.empty_world =
      (w', Ok (App.jsonify [("message_id", PStr "msg-1"); ("to", PStr "+2");
                            ("successful", PBool true);
                            ("http_status", PInt 202)] 200)) /\
    App._sms_client w' = true.
Proof.
  apply (send_sms_reports_the_first_result
           (ApiScenario.env_with ApiSamples.sms_body) App.empty_world
           {| App.logs := []; App._credential := true;
              App._sms_client := true |}
           [("from", PStr "+1"); ("to", PStr "+2"); ("message", PStr "hi")]
           (PStr "+1") (PStr "+2") (PStr "hi") ApiScenario.sent []);
    reflexivity.
Defined.

(** X17. When the SMS client returns an empty list for a complete body,
    [send_sms] answers 500 with the [internal_error] body: the
    [IndexError] of [response[0]] is caught by the decorator. *)
Theorem send_sms_empty_response_is_internal_error
  (env : App.Env) (w w1 : App.World) (d : pydict) (f t m : pyval) :
  App.request_get_json env = Ok (PDict d) ->
  dict_lookup "from" d = Some f ->
  dict_lookup "to" d = Some t ->
  dict_lookup "message" d = Some m ->
  App.get_sms_client env w = (w1, Ok tt) ->
  App.sms_send env f t m
    (dict_get d "enable_delivery_report" (PBool true))
    (dict_get d "tag" PNone) = Ok [] ->
  exists w',
    App.send_sms env w =
      (w', Ok (App.jsonify [("error", PStr "Internal server error");
                            ("type", PStr "internal_error")] 500)).
Proof.
  intros J F T K G S.
  unfold App.send_sms, App.handle_errors, try_except.
  rewrite (send_sms_view_complete env d f t m w J F T K).
  unfold bind at 1. rewrite G. unfold bind, lift. rewrite S. simpl.
  eexists. reflexivity.
Qed.

Lemma send_sms_empty_response_is_internal_error_witness :
  exists w',
    App.send_sms (ApiSamples.base_empty_response ApiSamples.sms_body)
      App.empty_world =
      (w', Ok (App.jsonify [("error", PStr "Internal server error");
                            ("type", PStr "internal_error")] 500)).
Proof.
  apply (send_sms_empty_response_is_internal_error
           (ApiSamples.base_empty_response ApiSamples.sms_body)
           App.empty_world
           {| App.logs := []; App._credential := true;
              App._sms_client := true |}
           [("from", PStr "+1"); ("to", PStr "+2"); ("message", PStr "hi")]
           (PStr "+1") (PStr "+2") (PStr "hi"));
    reflexivity.
Defined.

(** X18. When [ACS_ENDPOINT] is not set and no SMS client exists yet, a
    complete request to [send_sms] is answered 400, as a
    [validation_error] with the text of the [ValueError]; the SMS client is
    still absent afterwards. *)
Theorem send_sms_without_endpoint_is_validation_error
  (env : App.Env) (w : App.World) (d : pydict) (f t m : pyval) :
  App.request_get_json env = Ok (PDict d) ->
  dict_lookup "from" d = Some f ->
  dict_lookup "to" d = Some t ->
  dict_lookup "message" d = Some m ->
  App._sms_client w = false ->
  configured (App.ACS_ENDPOINT env) = false ->
  exists w',
    App.send_sms env w =
      (w', Ok (App.jsonify
                 [("error", PStr "ACS_ENDPOINT environment variable not set");
                  ("type", PStr "validation_error")] 400)) /\
    App._sms_client w' = false.
Proof.
  intros J F T K N C.
  unfold App.send_sms, App.handle_errors, try_except.
  rewrite (send_sms_view_complete env d f t m w J F T K).
  unfold bind at 1. unfold App.get_sms_client, App.read. unfold bind at 1.
  rewrite N. cbv iota beta. rewrite C. simpl.
  eexists. split; [reflexivity |]. exact N.
Qed.

Lemma send_sms_without_endpoint_is_validation_error_witness :
  exists w',
    App.send_sms (ApiSamples.base_without_endpoint ApiSamples.sms_body)
      App.empty_world =
      (w', Ok (App.jsonify
                 [("error", PStr "ACS_ENDPOINT environment variable not set");
                  ("type", PStr "validation_error")] 400)) /\
    App._sms_client w' = false.
Proof.
  apply (send_sms_without_endpoint_is_validation_error
           (ApiSamples.base_without_endpoint ApiSamples.sms_body)
           App.empty_world
           [("from", PStr "+1"); ("to", PStr "+2"); ("message", PStr "hi")]
           (PStr "+1") (PStr "+2") (PStr "hi"));
    reflexivity.
Defined.

(** X19. [get_sms_client] creates the client once: after a call that
    returns, the global is set and every later call returns at once and
    changes nothing, whatever the environment has become. A call that
    raises leaves the global as it was, so the next request tries
    again. *)
Theorem sms_client_is_created_once
  (env : App.Env) (w w' : App.World) (o : outcome unit) :
  App.get_sms_client env w = (w', o) ->
  match o with
  | Ok _ =>
      App._sms_client w' = true /\
      forall env', App.get_sms_client env' w' = (w', Ok tt)
  | Exc _ => App._sms_client w' = App._sms_client w
  end.
Proof.
  intros G. destruct (get_sms_client_result env _ _ _ G) as [_ R].
  destruct o as [[] | e]; [| exact R].
  split; [exact R |]. intros env'.
  unfold App.get_sms_client, App.read, bind. now rewrite R.
Qed.

Lemma sms_client_is_created_once_witness :
  let w' := fst (App.get_sms_client (ApiScenario.env_with PNone)
                   App.empty_world) in
  App._sms_client w' = true /\
  forall env', App.get_sms_client env' w' = (w', Ok tt).
Proof.
  intros w'.
  apply (sms_client_is_created_once (ApiScenario.env_with PNone)
           App.empty_world w' (Ok tt)).
  reflexivity.
Defined.

Section ApiBasics.
Import Api.
Variable env : Env.

Lemma no_call_ret {A} (a : A) : no_call (ret a).
Proof. intros w w' o E. injection E as <- _. auto. Qed.

Lemma no_call_lift {A} (x : outcome A) : no_call (lift x).
Proof. intros w w' o E. injection E as <- _. auto. Qed.

Lemma no_call_raise {A} (e : exn) : no_call (raise (A := A) e).
Proof. intros w w' o E. injection E as <- _. auto. Qed.

Lemma no_call_in_app {A} (m : M App.World A) : no_call (in_app m).
Proof.
  intros w w' o E. unfold in_app in E.
  destruct (m (app w)) as [a x]. injection E as <- _. auto.
Qed.

Lemma no_call_log (lv : level) (msg : list frag) : no_call (log lv msg).
Proof. apply no_call_in_app. Qed.

Lemma no_call_bind {A B} (m : M World A) (k : A -> M World B) :
  no_call m -> (forall a, no_call (k a)) -> no_call (bind m k).
Proof.
  intros Hm Hk w w' o E. unfold bind in E.
  destruct (m w) as [w1 [a | e]] eqn:E1.
  - destruct (Hm _ _ _ E1) as [U C]. destruct (Hk _ _ _ _ E) as [U' C'].
    split; congruence.
  - injection E as <- _. exact (Hm _ _ _ E1).
Qed.

(** What the decorator does with the result of the view. *)
Lemma handle_errors_run (f : M World App.Response) (w : World) :
  exists w1 o1,
    f w = (w1, o1) /\
    match o1 with
    | Ok r => handle_errors f w = (w1, Ok r)
    | Exc e =>
        exists w',
          handle_errors f w = (w', Ok (error_response e)) /\
          calls w' = calls w1 /\
          _identity_client w' = _identity_client w1
    end.
Proof.
  unfold handle_errors, try_except.
  destruct (f w) as [w1 [r | e]]; exists w1; eexists; (split; [reflexivity |]).
  - reflexivity.
  - unfold in_app, App.handle_errors, try_except, raise, error_response.
    destruct e as [c text]. simpl.
    destruct c; simpl; eexists; (split; [reflexivity |]); auto.
Qed.

(** The calls [get_identity_client] makes: none. *)
Lemma get_identity_client_calls (w w' : World) (o : outcome unit) :
  get_identity_client env w = (w', o) ->
  calls w' = calls w /\
  match o with
  | Ok _ => _identity_client w' = true
  | Exc _ => _identity_client w' = _identity_client w
  end.
Proof.
  unfold get_identity_client, read, bind.
  destruct (_identity_client w) eqn:I.
  - intros E. injection E as <- <-. auto.
  - destruct (configured (App.ACS_ENDPOINT (base env))); simpl.
    + unfold in_app.
      destruct (App.get_credential (base env) (app w)) as [a [[] | e]];
        [| intros E; injection E as <- <-; auto].
      unfold external, set_identity_client.
      destruct (identity_client_fault env); simpl;
        intros E; injection E as <- <-; auto.
    + intros E. injection E as <- <-. auto.
Qed.

End ApiBasics.

(** X20. A request to create a user whose [token_expires_hours] is an
    integer below 1 or above 24 is answered 400 with an [error] text, and
    nothing else happens: no client is created, no SDK call is made and
    nothing is logged. *)
Theorem create_user_rejects_lifetime_out_of_range
  (env : Api.Env) (w : Api.World) (d : pydict) (z : Z) :
  App.request_get_json (Api.base env) = Ok (PDict d) ->
  dict_lookup "token_expires_hours" d = Some (PInt z) ->
  (z < 1 \/ 24 < z)%Z ->
  Api.create_user env w =
    (w, Ok (App.jsonify
              [("error", PStr "token_expires_hours must be between 1 and 24")]
              400)).
Proof.
  intros J H R.
  assert (dict_get d "token_expires_hours" (PInt 24) = PInt z) as G
    by (unfold dict_get; now rewrite H).
  unfold Api.create_user, Api.handle_errors, try_except, Api.create_user_view.
  unfold bind, lift. rewrite J. unfold Api.or_empty_dict.
  rewrite (lookup_truthy _ _ _ H). simpl py_get. cbv iota beta.
  rewrite G. unfold Api.py_lt_int, Api.py_gt_int.
  simpl Api.as_number. cbv iota beta.
  destruct (Z.ltb_spec z 1) as [L | L]; [reflexivity |].
  simpl Api.as_number. cbv iota beta.
  destruct (Z.gtb_spec z 24) as [K | K]; [reflexivity | lia].
Qed.

Lemma create_user_rejects_lifetime_out_of_range_witness :
  Api.create_user
    (ApiSamples.env_with (PDict [("token_expires_hours", PInt 48)]))
    Api.empty_world =
    (Api.empty_world,
     Ok (App.jsonify
           [("error", PStr "token_expires_hours must be between 1 and 24")]
           400)).
Proof.
  apply (create_user_rejects_lifetime_out_of_range
           (ApiSamples.env_with (PDict [("token_expires_hours", PInt 48)]))
           Api.empty_world [("token_expires_hours", PInt 48)] 48 eq_refl
           eq_refl).
  right. reflexivity.
Defined.

Section CreateUserFacts.
Import Api.
Variable env : Env.

Lemma create_user_view_calls (w w1 : World) (o1 : outcome App.Response) :
  create_user_view env w = (w1, o1) ->
  calls w1 = calls w \/
  exists scopes hours,
    calls w1 = (calls w ++ [CreateUserAndToken scopes hours])%list /\
    lifetime_in_range hours.
Proof.
  unfold create_user_view. unfold bind at 1. unfold lift at 1.
  destruct (App.request_get_json (base env)) as [body | e];
    [| intros E; injection E as <- _; auto].
  cbv iota beta zeta.
  destruct (or_empty_dict body) as [| b | z | s | l | d];
    try (unfold bind, lift; simpl; intros E; injection E as <- _; now left).
  unfold bind at 1. unfold lift at 1. simpl py_get. cbv iota beta.
  unfold bind at 1. unfold lift at 1. cbv iota beta.
  set (hours := dict_get d "token_expires_hours" (PInt 24)).
  set (scopes := dict_get d "scopes" default_scopes).
  unfold bind at 1. unfold lift at 1. unfold py_lt_int.
  destruct (as_number hours) as [z |] eqn:N;
    [| intros E; injection E as <- _; now left].
  cbv iota beta. unfold bind at 1.
  destruct (Z.ltb_spec z 1) as [L | L];
    [unfold ret; intros E; injection E as <- _; now left |].
  unfold lift at 1. unfold py_gt_int. rewrite N. cbv iota beta.
  destruct (Z.gtb_spec z 24) as [K | K];
    [unfold ret; intros E; injection E as <- _; now left |].
  unfold bind at 1.
  destruct (get_identity_client env w) as [w2 [[] | e]] eqn:G;
    apply get_identity_client_calls in G as [G _];
    [| intros E; injection E as <- _; now left].
  unfold bind at 1. unfold record_call at 1. cbv iota beta.
  unfold bind at 1. unfold lift at 1.
  intros E. right. exists scopes, hours. split.
  - destruct (create_user_and_token env scopes hours) as [[uid tr] | e].
    + unfold bind, log, in_app, App.log, ret in E. simpl in E.
      injection E as <- _. simpl. now rewrite G.
    + injection E as <- _. simpl. now rewrite G.
  - exists z. split; [exact N | lia].
Qed.

End CreateUserFacts.

(** X21. Whatever the request and however it ends, [create_user] makes at
    most one SDK call, and when it asks the identity client for a user and
    token, the lifetime it passes is a number between 1 and 24 hours. *)
Theorem create_user_lifetime_is_bounded
  (env : Api.Env) (w w' : Api.World) (o : outcome App.Response) :
  Api.create_user env w = (w', o) ->
  Api.calls w' = Api.calls w \/
  exists scopes hours,
    Api.calls w' =
      (Api.calls w ++ [Api.CreateUserAndToken scopes hours])%list /\
    Api.lifetime_in_range hours.
Proof.
  intros R. unfold Api.create_user in R.
  destruct (handle_errors_run (Api.create_user_view env) w)
    as (w1 & o1 & V & H).
  pose proof (create_user_view_calls env _ _ _ V) as C.
  destruct o1 as [r | e].
  - rewrite H in R. injection R as <- _. exact C.
  - destruct H as (w2 & H & K & _). rewrite H in R. injection R as <- _.
    now rewrite K.
Qed.

Lemma create_user_lifetime_is_bounded_witness :
  let run := Api.create_user
               (ApiSamples.env_with (PDict [("token_expires_hours", PInt 2)]))
               Api.empty_world in
  Api.calls (fst run) = [] \/
  exists scopes hours,
    Api.calls (fst run) = [Api.CreateUserAndToken scopes hours] /\
    Api.lifetime_in_range hours.
Proof.
  intros run.
  apply (create_user_lifetime_is_bounded
           (ApiSamples.env_with (PDict [("token_expires_hours", PInt 2)]))
           Api.empty_world (fst run) (snd run)).
  reflexivity.
Defined.

(** X22. A request to create a user whose JSON body is empty or [null]
    ([request.get_json()] returns a false value, replaced by [{}]) asks the
    identity client, once it is available, for the scopes [voip] and
    [chat] and a lifetime of 24 hours, and answers 201 with the id of the
    new user, the token and its expiry. *)
Theorem create_user_defaults
  (env : Api.Env) (w w1 : Api.World) (body : pyval) (user_id : string)
  (t : Api.TokenResponse) :
  App.request_get_json (Api.base env) = Ok body ->
  truthy body = false ->
  Api.get_identity_client env w = (w1, Ok tt) ->
  Api.create_user_and_token env Api.default_scopes (PInt 24)
    = Ok (user_id, t) ->
  exists w',
    Api.create_user env w =
      (w', Ok (App.jsonify [("user_id", PStr user_id);
                            ("token", PStr (Api.token t));
                            ("expires_on", PStr (Api.expires_on t))] 201)) /\
    Api.calls w' =
      (Api.calls w ++
       [Api.CreateUserAndToken Api.default_scopes (PInt 24)])%list.
Proof.
  intros J T G S.
  pose proof (get_identity_client_calls env _ _ _ G) as [C _].
  unfold Api.create_user, Api.handle_errors, try_except, Api.create_user_view.
  remember (Api.get_identity_client env) as client eqn:Q.
  unfold bind, lift. rewrite J. unfold Api.or_empty_dict. rewrite T.
  unfold Api.default_scopes in *.
  simpl. subst client. rewrite G. unfold dict_get. simpl. rewrite S. simpl.
  eexists. split; [reflexivity |]. simpl. now rewrite C.
Qed.

Lemma create_user_defaults_witness :
  exists w',
    Api.create_user (ApiSamples.env_with PNone) Api.empty_world =
      (w', Ok (App.jsonify [("user_id", PStr "8:acs:0001");
                            ("token", PStr "eyJ");
                            ("expires_on", PStr "2024-01-02T00:00:00")] 201)) /\
    Api.calls w' = [Api.CreateUserAndToken Api.default_scopes (PInt 24)].
Proof.
  apply (create_user_defaults (ApiSamples.env_with PNone) Api.empty_world
           (fst (Api.get_identity_client (ApiSamples.env_with PNone)
                   Api.empty_world))
           PNone "8:acs:0001"
           {| Api.token := "eyJ"; Api.expires_on := "2024-01-02T00:00:00" |});
    reflexivity.
Defined.

Section DeleteUserFacts.
Import Api.
Variable env : Env.

Lemma error_response_body (e : exn) : App.body (error_response e) <> PStr "".
Proof.
  unfold error_response. destruct (exn_cls e); discriminate.
Qed.

Lemma delete_user_view_calls (u : string) (w w1 : World)
  (o1 : outcome App.Response) :
  delete_user_view env u w = (w1, o1) ->
  (calls w1 = calls w /\ exists e, o1 = Exc e) \/
  (calls w1 = (calls w ++ [RevokeTokens u])%list /\
   exists e, o1 = Exc e /\ revoke_tokens_fault env u = Some e) \/
  (calls w1 = (calls w ++ [RevokeTokens u; DeleteUser u])%list /\
   revoke_tokens_fault env u = None /\
   match client_delete_user_fault env u with
   | Some e => o1 = Exc e
   | None => o1 = Ok {| App.body := PStr ""; App.status := 204 |}
   end).
Proof.
  unfold delete_user_view. unfold bind at 1.
  destruct (get_identity_client env w) as [w2 [[] | e]] eqn:G;
    apply get_identity_client_calls in G as [G _];
    [| intros E; injection E as <- <-; left; eauto].
  unfold bind at 1. unfold record_call at 1. cbv iota beta.
  unfold bind at 1. unfold external at 1.
  destruct (revoke_tokens_fault env u) as [e |].
  - unfold raise. intros E. injection E as <- <-. right. left.
    simpl. rewrite G. eauto.
  - unfold ret at 1. cbv iota beta.
    unfold bind at 1. unfold record_call at 1. cbv iota beta.
    unfold bind at 1. unfold external at 1.
    destruct (client_delete_user_fault env u) as [e |].
    + unfold raise. intros E. injection E as <- <-. right. right.
      simpl. rewrite G, <- app_assoc. auto.
    + unfold ret at 1. cbv iota beta.
      unfold bind, log, in_app, App.log, ret. simpl.
      intros E. injection E as <- <-. right. right.
      simpl. rewrite G, <- app_assoc. auto.
Qed.

End DeleteUserFacts.

(** X23. [delete_user] revokes the tokens of the user before it deletes
    the user: in every run the SDK calls it makes are none, the
    revocation alone, or the revocation followed by the deletion. The
    deletion is only asked for after the revocation succeeded, and the
    empty 204 answer is only given when both succeeded. *)
Theorem delete_user_revokes_before_deleting
  (env : Api.Env) (u : string) (w w' : Api.World) (r : App.Response) :
  Api.delete_user env u w = (w', Ok r) ->
  exists new,
    Api.calls w' = (Api.calls w ++ new)%list /\
    (new = [] \/ new = [Api.RevokeTokens u] \/
     new = [Api.RevokeTokens u; Api.DeleteUser u]) /\
    (In (Api.DeleteUser u) new -> Api.revoke_tokens_fault env u = None) /\
    (App.body r = PStr "" ->
     new = [Api.RevokeTokens u; Api.DeleteUser u] /\
     Api.client_delete_user_fault env u = None /\
     App.status r = 204%Z).
Proof.
  intros R. unfold Api.delete_user in R.
  destruct (handle_errors_run (Api.delete_user_view env u) w)
    as (w1 & o1 & V & H).
  assert (Api.calls w' = Api.calls w1 /\
          match o1 with Ok r1 => r = r1 | Exc e => r = Api.error_response e end)
    as [K Q].
  { destruct o1 as [r1 | e].
    - rewrite H in R. now injection R as <- <-.
    - destruct H as (w2 & H & K & _). rewrite H in R.
      injection R as <- <-. auto. }
  rewrite K.
  destruct (delete_user_view_calls env u _ _ _ V)
    as [[C (e & ->)] | [[C (e & -> & F)] | [C [F D]]]].
  - exists []. rewrite app_nil_r. split; [exact C |]. split; [auto |].
    split; [intros [] |]. intros B. subst r.
    now apply error_response_body in B.
  - exists [Api.RevokeTokens u]. split; [exact C |]. split; [auto |].
    split; [intros [X | []]; discriminate X |]. intros B. subst r.
    now apply error_response_body in B.
  - exists [Api.RevokeTokens u; Api.DeleteUser u].
    split; [exact C |]. split; [auto |]. split; [auto |].
    intros B. destruct (Api.client_delete_user_fault env u) as [e |].
    + subst o1 r. now apply error_response_body in B.
    + subst o1 r. auto.
Qed.

Lemma delete_user_revokes_before_deleting_witness :
  let run := Api.delete_user ApiSamples.env_revoke_refused "8:acs:0001"
               Api.empty_world in
  exists new,
    Api.calls (fst run) = new /\
    (new = [] \/ new = [Api.RevokeTokens "8:acs:0001"] \/
     new = [Api.RevokeTokens "8:acs:0001"; Api.DeleteUser "8:acs:0001"]) /\
    (In (Api.DeleteUser "8:acs:0001") new ->
     Api.revoke_tokens_fault ApiSamples.env_revoke_refused "8:acs:0001" = None).
Proof.
  intros run.
  destruct (delete_user_revokes_before_deleting
              ApiSamples.env_revoke_refused "8:acs:0001" Api.empty_world
              (fst run)
              (Api.error_response
                 (Raise (HttpResponseError (Some 404%Z)) "user not found"))
              eq_refl) as (new & C & D & I & _).
  exists new. auto.
Defined.

(** X24. [readiness] never calls the communication service: however the
    request ends, no SDK call is made. Without [ACS_ENDPOINT] and without
    an identity client from an earlier request it answers 400, as a
    [validation_error]; with an identity client already created it
    answers 200 with status ["ready"]. *)
Theorem readiness_checks_the_client_only
  (env : Api.Env) (w : Api.World) :
  Api.calls (fst (Api.readiness env w)) = Api.calls w /\
  (Api._identity_client w = false ->
   configured (App.ACS_ENDPOINT (Api.base env)) = false ->
   snd (Api.readiness env w) =
     Ok (App.jsonify
           [("error", PStr "ACS_ENDPOINT environment variable not set");
            ("type", PStr "validation_error")] 400)) /\
  (Api._identity_client w = true ->
   exists d,
     snd (Api.readiness env w) =
       Ok {| App.body := PDict d; App.status := 200 |} /\
     dict_lookup "status" d = Some (PStr "ready")).
Proof.
  split; [| split].
  - unfold Api.readiness.
    destruct (handle_errors_run (Api.readiness_view env) w)
      as (w1 & o1 & V & H).
    assert (Api.calls w1 = Api.calls w) as C.
    { revert V. unfold Api.readiness_view, bind.
      destruct (Api.get_identity_client env w) as [w2 [[] | e]] eqn:G;
        apply get_identity_client_calls in G as [G _];
        intros E; injection E as <- _; exact G. }
    destruct o1 as [r | e].
    + rewrite H. exact C.
    + destruct H as (w2 & H & K & _). rewrite H. simpl. congruence.
  - intros I C.
    unfold Api.readiness, Api.handle_errors, try_except, Api.readiness_view,
      Api.get_identity_client, Api.read, bind.
    rewrite I. cbv iota beta. rewrite C. reflexivity.
  - intros I.
    unfold Api.readiness, Api.handle_errors, try_except, Api.readiness_view,
      Api.get_identity_client, Api.read, bind.
    rewrite I. cbv iota beta. simpl. eexists. split; reflexivity.
Qed.

Lemma readiness_checks_the_client_only_witness :
  snd (Api.readiness (ApiSamples.env_without_endpoint PNone) Api.empty_world) =
    Ok (App.jsonify
          [("error", PStr "ACS_ENDPOINT environment variable not set");
           ("type", PStr "validation_error")] 400).
Proof.
  apply (proj1 (proj2 (readiness_checks_the_client_only
                         (ApiSamples.env_without_endpoint PNone)
                         Api.empty_world)));
    reflexivity.
Defined.

Section BulkFacts.
Import Api.
Variable env : Env.

(** [send_bulk_sms_view] on a body whose [to] is a list, up to the
    creation of the client. *)
Lemma bulk_view_validated (d : pydict) (tos : list pyval) (w : World) :
  App.request_get_json (base env) = Ok (PDict d) ->
  dict_lookup "to" d = Some (PList tos) ->
  send_bulk_sms_view env w =
    (in_app (App.get_sms_client (base env)) ;;
     from_ <- lift (py_index (PDict d) "from") ;;
     to_ <- lift (py_index (PDict d) "to") ;;
     message <- lift (py_index (PDict d) "message") ;;
     enable_delivery_report <-
       lift (py_get (PDict d) "enable_delivery_report" (PBool true)) ;;
     record_call (SendSms from_ to_ message enable_delivery_report) ;;
     response <-
       lift (App.sms_send (base env) from_ to_ message
               enable_delivery_report PNone) ;;
     let results := map bulk_entry response in
     log INFO [Lit "Bulk SMS sent to ";
               Val (PInt (Z.of_nat (List.length results)));
               Lit " recipients"] ;;
     ret (App.jsonify [("results", PList results)] 200)) w.
Proof.
  intros J T.
  match goal with
  | |- _ = ?rhs => remember rhs as target eqn:Q
  end.
  unfold send_bulk_sms_view.
  unfold bind at 1. unfold lift at 1. rewrite J.
  rewrite (lookup_truthy _ _ _ T). change (negb true) with false.
  cbv iota beta.
  unfold bind at 1. unfold lift at 1. simpl py_contains. unfold dict_mem.
  rewrite T. cbv iota beta.
  unfold bind at 1. unfold bind at 1. unfold lift at 1.
  change (py_index (PDict d) "to") with
    (match dict_lookup "to" d with
     | Some x => Ok x
     | None => Exc (Raise KeyError ("'" ++ "to" ++ "'"))
     end) at 1.
  rewrite T. cbv iota beta. unfold ret at 1. simpl is_list.
  change (negb true) with false. cbv iota beta. now subst target.
Qed.

End BulkFacts.

(** X25. For a body with [from], [message] and a list [to], once the SMS
    client is available, [send_bulk_sms] makes one call to the client with
    the whole list, asking for delivery reports unless the body says
    otherwise, and answers 200 with one entry per result the client
    returns, in the client's order, each with its id, recipient and
    success flag. *)
Theorem send_bulk_sms_reports_every_result
  (env : Api.Env) (w : Api.World) (a1 : App.World) (d : pydict)
  (f m : pyval) (tos : list pyval) (response : list App.SmsSendResult) :
  App.request_get_json (Api.base env) = Ok (PDict d) ->
  dict_lookup "from" d = Some f ->
  dict_lookup "to" d = Some (PList tos) ->
  dict_lookup "message" d = Some m ->
  App.get_sms_client (Api.base env) (Api.app w) = (a1, Ok tt) ->
  App.sms_send (Api.base env) f (PList tos) m
    (dict_get d "enable_delivery_report" (PBool true)) PNone = Ok response ->
  exists w',
    Api.send_bulk_sms env w =
      (w', Ok (App.jsonify
                 [("results", PList (map Api.bulk_entry response))] 200)) /\
    Api.calls w' =
      (Api.calls w ++
       [Api.SendSms f (PList tos) m
          (dict_get d "enable_delivery_report" (PBool true))])%list /\
    List.length (map Api.bulk_entry response) = List.length response.
Proof.
  intros J F T K G S.
  unfold Api.send_bulk_sms, Api.handle_errors, try_except.
  rewrite (bulk_view_validated env d tos w J T).
  unfold bind at 1. unfold Api.in_app at 1. rewrite G. cbv iota beta.
  unfold bind, lift, Api.record_call. simpl py_index. rewrite F, T, K.
  simpl py_get. cbv iota beta. simpl Api.calls. rewrite S.
  unfold Api.log, Api.in_app, App.log, ret. simpl.
  eexists. split; [reflexivity |]. simpl. split; [reflexivity |].
  apply length_map.
Qed.

Lemma send_bulk_sms_reports_every_result_witness :
  exists w',
    Api.send_bulk_sms (ApiSamples.env_with ApiSamples.bulk_body)
      Api.empty_world =
      (w', Ok (App.jsonify
                 [("results",
                   PList [PDict [("message_id", PStr "msg-1");
                                 ("to", PStr "+2");
                                 ("successful", PBool true)]])] 200)) /\
    Api.calls w' =
      [Api.SendSms (PStr "+1") (PList [PStr "+2"; PStr "+3"]) (PStr "hi")
         (PBool true)].
Proof.
  destruct (send_bulk_sms_reports_every_result
              (ApiSamples.env_with ApiSamples.bulk_body) Api.empty_world
              {| App.logs := []; App._credential := true;
                 App._sms_client := true |}
              [("from", PStr "+1"); ("to", PList [PStr "+2"; PStr "+3"]);
               ("message", PStr "hi")]
              (PStr "+1") (PStr "hi") [PStr "+2"; PStr "+3"]
              [ApiScenario.sent]
              eq_refl eq_refl eq_refl eq_refl eq_refl eq_refl)
    as (w' & R & C & _).
  exists w'. split; [exact R | exact C].
Defined.

(** X26. [send_bulk_sms] checks [to] only. A body whose [to] is a list but
    that lacks [from] passes the validation; once the SMS client is
    available the lookup of [from] raises a [KeyError], which is answered
    500 as an [internal_error], and the client is never called. *)
Theorem send_bulk_sms_without_sender_is_internal_error
  (env : Api.Env) (w : Api.World) (a1 : App.World) (d : pydict)
  (tos : list pyval) :
  App.request_get_json (Api.base env) = Ok (PDict d) ->
  dict_lookup "to" d = Some (PList tos) ->
  dict_lookup "from" d = None ->
  App.get_sms_client (Api.base env) (Api.app w) = (a1, Ok tt) ->
  exists w',
    Api.send_bulk_sms env w =
      (w', Ok (App.jsonify [("error", PStr "Internal server error");
                            ("type", PStr "internal_error")] 500)) /\
    Api.calls w' = Api.calls w.
Proof.
  intros J T F G.
  unfold Api.send_bulk_sms, Api.handle_errors, try_except.
  rewrite (bulk_view_validated env d tos w J T).
  unfold bind at 1. unfold Api.in_app at 1. rewrite G. cbv iota beta.
  unfold bind, lift. simpl py_index. rewrite F.
  unfold Api.in_app, App.handle_errors, try_except, raise, bind, App.log, ret.
  simpl. eexists. split; reflexivity.
Qed.

Lemma send_bulk_sms_without_sender_is_internal_error_witness :
  exists w',
    Api.send_bulk_sms (ApiSamples.env_with ApiSamples.bulk_body_without_from)
      Api.empty_world =
      (w', Ok (App.jsonify [("error", PStr "Internal server error");
                            ("type", PStr "internal_error")] 500)) /\
    Api.calls w' = [].
Proof.
  apply (send_bulk_sms_without_sender_is_internal_error
           (ApiSamples.env_with ApiSamples.bulk_body_without_from)
           Api.empty_world
           {| App.logs := []; App._credential := true;
              App._sms_client := true |}
           [("to", PList [PStr "+2"; PStr "+3"]); ("message", PStr "hi")]
           [PStr "+2"; PStr "+3"]);
    reflexivity.
Defined.

(** X27. A request to [send_sms] whose JSON body is not an object (a list,
    a string, a number) never reaches the SMS client: the answer and the
    state left behind are the same whatever the client would have
    returned. *)
Theorem send_sms_non_object_body_never_sends
  (env : App.Env) (w : App.World) (data : pyval)
  (send : pyval -> pyval -> pyval -> pyval -> pyval ->
          outcome (list App.SmsSendResult)) :
  App.request_get_json env = Ok data ->
  Ingest.is_dict data = false ->
  App.send_sms (ApiSamples.with_sms_send env send) w = App.send_sms env w.
Proof.
  intros J D.
  assert (App.send_sms_view (ApiSamples.with_sms_send env send) w =
          App.send_sms_view env w) as V.
  { unfold App.send_sms_view.
    change (App.get_sms_client (ApiSamples.with_sms_send env send))
      with (App.get_sms_client env).
    change (App.request_get_json (ApiSamples.with_sms_send env send))
      with (App.request_get_json env).
    unfold bind, lift. rewrite J.
    destruct (negb (truthy data)); [reflexivity |].
    destruct (App.check_required ["from"; "to"; "message"] data)
      as [[r |] | e]; [reflexivity | | reflexivity].
    destruct (App.get_sms_client env w) as [w1 [[] | e]]; [| reflexivity].
    destruct data; try discriminate D; reflexivity. }
  unfold App.send_sms, App.handle_errors, try_except. now rewrite V.
Qed.

Lemma send_sms_non_object_body_never_sends_witness :
  App.send_sms
    (ApiSamples.with_sms_send
       (ApiScenario.env_with (PList [PStr "from"; PStr "to"; PStr "message"]))
       (fun _ _ _ _ _ => Ok []))
    App.empty_world =
  App.send_sms
    (ApiScenario.env_with (PList [PStr "from"; PStr "to"; PStr "message"]))
    App.empty_world.
Proof.
  apply (send_sms_non_object_body_never_sends
           (ApiScenario.env_with
              (PList [PStr "from"; PStr "to"; PStr "message"]))
           App.empty_world
           (PList [PStr "from"; PStr "to"; PStr "message"])
           (fun _ _ _ _ _ => Ok []));
    reflexivity.
Defined.

Section GetTokenFacts.
Import Api.
Variable env : Env.

Lemma get_token_view_calls (u : string) (w w1 : World)
  (o1 : outcome App.Response) :
  get_token_view env u w = (w1, o1) ->
  calls w1 = calls w \/
  exists d,
    or_empty_dict
      (match App.request_get_json (base env) with
       | Ok body => body
       | Exc _ => PNone
       end) = PDict d /\
    calls w1 = (calls w ++ [GetToken u (dict_get d "scopes" default_scopes)])%list.
Proof.
  unfold get_token_view. unfold bind at 1. unfold lift at 1.
  destruct (App.request_get_json (base env)) as [body | e];
    [| intros E; injection E as <- _; auto].
  cbv iota beta zeta.
  destruct (or_empty_dict body) as [| b | z | s | l | d];
    try (unfold bind, lift; simpl; intros E; injection E as <- _; now left).
  unfold bind at 1. unfold lift at 1. simpl py_get. cbv iota beta.
  unfold bind at 1.
  destruct (get_identity_client env w) as [w2 [[] | e]] eqn:G;
    apply get_identity_client_calls in G as [G _];
    [| intros E; injection E as <- _; now left].
  unfold bind at 1. unfold record_call at 1. cbv iota beta.
  unfold bind at 1. unfold lift at 1.
  intros E. right. exists d. split; [reflexivity |].
  destruct (client_get_token env u (dict_get d "scopes" default_scopes))
    as [tr | e].
  - unfold bind, log, in_app, App.log, ret in E. simpl in E.
    injection E as <- _. simpl. now rewrite G.
  - injection E as <- _. simpl. now rewrite G.
Qed.

End GetTokenFacts.

(** X28. Whatever the request and however it ends, [get_token] makes at
    most one SDK call: a token request for exactly the user id of the
    route, with the [scopes] of the body, or [voip] and [chat] when the
    body is absent or names none. *)
Theorem get_token_asks_for_the_routed_user
  (env : Api.Env) (u : string) (w w' : Api.World) (o : outcome App.Response) :
  Api.get_token env u w = (w', o) ->
  Api.calls w' = Api.calls w \/
  exists d,
    Api.or_empty_dict
      (match App.request_get_json (Api.base env) with
       | Ok body => body
       | Exc _ => PNone
       end) = PDict d /\
    Api.calls w' =
      (Api.calls w ++
       [Api.GetToken u (dict_get d "scopes" Api.default_scopes)])%list.
Proof.
  intros R. unfold Api.get_token in R.
  destruct (handle_errors_run (Api.get_token_view env u) w)
    as (w1 & o1 & V & H).
  pose proof (get_token_view_calls env u _ _ _ V) as C.
  destruct o1 as [r | e].
  - rewrite H in R. injection R as <- _. exact C.
  - destruct H as (w2 & H & K & _). rewrite H in R. injection R as <- _.
    now rewrite K.
Qed.

Lemma get_token_asks_for_the_routed_user_witness :
  let run := Api.get_token (ApiSamples.env_with PNone) "8:acs:0001"
               Api.empty_world in
  Api.calls (fst run) = [] \/
  exists d,
    Api.or_empty_dict PNone = PDict d /\
    Api.calls (fst run) =
      [Api.GetToken "8:acs:0001" (dict_get d "scopes" Api.default_scopes)].
Proof.
  intros run.
  apply (get_token_asks_for_the_routed_user (ApiSamples.env_with PNone)
           "8:acs:0001" Api.empty_world (fst run) (snd run)).
  reflexivity.
Defined.

Section Redelivery.
Import FunctionApp.

Lemma accepted_in_snoc (c : string) (w w' : World) (item : pydict) :
  upserted w' = (upserted w ++ [(COSMOS_DATABASE, c, item)])%list ->
  Ingest.accepted_in c w' = (Ingest.accepted_in c w ++ [item])%list.
Proof.
  intros U. unfold Ingest.accepted_in. rewrite U, filter_app, map_app.
  simpl. now rewrite String.eqb_refl.
Qed.

Lemma store_after_snoc (pk : string) (records : list pydict) (r : pydict) :
  Store.store_after pk (records ++ [r]) =
  Store.upsert pk r (Store.store_after pk records).
Proof. unfold Store.store_after. now rewrite fold_left_app. Qed.

End Redelivery.

(** X29. Redelivery of an SMS event. When the same event is processed
    twice by [process_sms_received], each time with the store configured
    and reachable, the two items written address the same slot (same id,
    same [callId]). In a container that keeps one record per slot, as the
    store contract of the spec says, the first delivery puts its item in
    the slot, and the second delivery replaces it: the container has as
    many records after the second delivery as after the first, and the
    slot holds exactly one record, the item of the second delivery with
    its later [processedAt]. *)
Theorem redelivered_sms_leaves_one_record
  (env1 env2 : FunctionApp.Env) (event_id t : pyval) (d : pydict)
  (w : FunctionApp.World) :
  let event := {| FunctionApp.id := event_id; FunctionApp.event_type := t;
                  FunctionApp.data := PDict d |} in
  let first := FunctionApp.sms_item env1 event_id d in
  let second := FunctionApp.sms_item env2 event_id d in
  let container w := Store.store_after "callId"
                       (Ingest.accepted_in "call-logs" w) in
  configured (FunctionApp.COSMOS_ENDPOINT env1) = true ->
  configured (FunctionApp.COSMOS_ENDPOINT env2) = true ->
  Ingest.store_fault env1 "call-logs" first = None ->
  Ingest.store_fault env2 "call-logs" second = None ->
  exists w1 w2,
    FunctionApp.process_sms_received env1 event w = (w1, Ok tt) /\
    FunctionApp.process_sms_received env2 event w1 = (w2, Ok tt) /\
    Store.slot_of "callId" first = Store.slot_of "callId" second /\
    Store.records_at "callId" (Store.slot_of "callId" first) (container w1)
      = [first] /\
    Store.records_at "callId" (Store.slot_of "callId" first) (container w2)
      = [second] /\
    List.length (container w2) = List.length (container w1).
Proof.
  intros event first second container C1 C2 F1 F2.
  unfold Ingest.store_fault in F1, F2.
  destruct (FunctionApp.credential_fault env1) eqn:A1; [discriminate F1 |].
  destruct (FunctionApp.client_fault env1) eqn:B1; [discriminate F1 |].
  destruct (FunctionApp.credential_fault env2) eqn:A2; [discriminate F2 |].
  destruct (FunctionApp.client_fault env2) eqn:B2; [discriminate F2 |].
  destruct (sms_accepted env1 C1 A1 B1 event_id t d w F1) as (w1 & R1 & U1 & _).
  destruct (sms_accepted env2 C2 A2 B2 event_id t d w1 F2) as (w2 & R2 & U2 & _).
  assert (Store.slot_of "callId" first = Store.slot_of "callId" second) as Q
    by reflexivity.
  exists w1, w2. split; [exact R1 |]. split; [exact R2 |].
  split; [exact Q |]. unfold container.
  rewrite (accepted_in_snoc "call-logs" w1 w2 _ U2).
  rewrite (accepted_in_snoc "call-logs" w w1 _ U1).
  rewrite !store_after_snoc. fold first second.
  split; [| split].
  - apply records_at_upsert. apply store_after_distinct.
  - rewrite Q. apply records_at_upsert. apply upsert_distinct.
    apply store_after_distinct.
  - apply upsert_present_length. rewrite <- Q. apply upsert_slot_present.
Qed.

Lemma redelivered_sms_leaves_one_record_witness :
  let first := FunctionApp.sms_item Scenario.env_ok (PStr "evt-1")
                 Scenario.sms_data in
  let second := FunctionApp.sms_item Samples.env_later (PStr "evt-1")
                  Scenario.sms_data in
  exists w1 w2,
    FunctionApp.process_sms_received Scenario.env_ok Scenario.sms_event
      FunctionApp.empty_world = (w1, Ok tt) /\
    FunctionApp.process_sms_received Samples.env_later Scenario.sms_event w1
      = (w2, Ok tt) /\
    Store.slot_of "callId" first = Store.slot_of "callId" second /\
    Store.records_at "callId" (Store.slot_of "callId" first)
      (Store.store_after "callId" (Ingest.accepted_in "call-logs" w1))
      = [first] /\
    Store.records_at "callId" (Store.slot_of "callId" first)
      (Store.store_after "callId" (Ingest.accepted_in "call-logs" w2))
      = [second] /\
    List.length
      (Store.store_after "callId" (Ingest.accepted_in "call-logs" w2)) =
    List.length
      (Store.store_after "callId" (Ingest.accepted_in "call-logs" w1)).
Proof.
  intros first second.
  apply (redelivered_sms_leaves_one_record Scenario.env_ok Samples.env_later
           (PStr "evt-1") (PStr "Microsoft.Communication.SMSReceived")
           Scenario.sms_data FunctionApp.empty_world
           eq_refl eq_refl eq_refl eq_refl).
Defined.

Section Completion.
Import FunctionApp Ingest.
Variable env : Env.
Hypothesis store_configured : configured (COSMOS_ENDPOINT env) = true.

Lemma sms_completes (event : EventGridEvent) (d : pydict) (w : World) :
  data event = PDict d ->
  store_fault env "call-logs" (sms_item env (id event) d) = None ->
  exists w', process_sms_received env event w = (w', Ok tt).
Proof.
  intros D F. unfold store_fault in F.
  destruct (credential_fault env) eqn:F1; [discriminate F |].
  destruct (client_fault env) eqn:F2; [discriminate F |].
  destruct event as [i t x]. simpl in D. subst x. simpl in F.
  destruct (sms_accepted env store_configured F1 F2 i t d w F)
    as (w' & R & _).
  now exists w'.
Qed.

Lemma chat_completes (event : EventGridEvent) (d : pydict) (w : World) :
  py_eq_str (event_type event) "Microsoft.Communication.ChatMessageReceived"
    = true ->
  data event = PDict d ->
  sliceable (dict_get d "threadId" PNone) = true ->
  sliceable (dict_get d "senderId" PNone) = true ->
  store_fault env "chat-history" (chat_item env (id event) d) = None ->
  exists w', process_chat_event env event w = (w', Ok tt).
Proof.
  intros T D S1 S2 F. unfold store_fault in F.
  destruct (credential_fault env) eqn:F1; [discriminate F |].
  destruct (client_fault env) eqn:F2; [discriminate F |].
  destruct (slice_ok _ S1) as (x1 & X1). destruct (slice_ok _ S2) as (x2 & X2).
  unfold process_chat_event, get_json. rewrite T, D.
  unfold process_chat_message.
  unfold bind, try_except, lift, log, utcnow, ret. simpl py_get.
  cbv iota beta. rewrite X1, X2. cbv iota beta. rewrite store_configured.
  unfold get_cosmos_client, upsert_item, external, count_client, bind, ret.
  rewrite F1, F2. simpl py_get. cbv iota beta.
  fold (chat_item env (id event) d). rewrite F.
  eexists. reflexivity.
Qed.

Lemma recording_completes (event : EventGridEvent) (d : pydict)
  (cs : list pyval) (w : World) :
  data event = PDict d ->
  recording_chunks_of d = Ok (PList cs) ->
  forallb is_dict cs = true ->
  store_fault env "call-logs" (recording_item env (id event) d (PList cs))
    = None ->
  exists w', process_recording_event env event w = (w', Ok tt).
Proof.
  intros D RC H F. unfold store_fault in F.
  destruct (credential_fault env) eqn:F1; [discriminate F |].
  destruct (client_fault env) eqn:F2; [discriminate F |].
  unfold process_recording_event, get_json.
  rewrite D. unfold bind at 1. unfold log at 1. cbv iota beta.
  unfold try_except.
  unfold bind at 1. unfold lift at 1. simpl py_get.
  unfold bind at 1. unfold lift at 1.
  fold (recording_chunks_of d). rewrite RC.
  unfold bind at 1. unfold lift at 1. simpl py_iter. cbv iota beta.
  unfold bind at 1. rewrite (chunk_loop_ok cs _ H).
  rewrite store_configured.
  unfold get_cosmos_client, upsert_item, external, count_client, bind, ret,
    lift, utcnow, log.
  simpl. rewrite F1, F2.
  fold (recording_item env (id event) d (PList cs)). rewrite F.
  eexists. reflexivity.
Qed.

End Completion.

(** C1. With the store configured, every run of a persisting handler
    either completes, and has then written exactly one record, or raises,
    and has then written none. The record's [id] is the id of the event.
    Its partition key field is read from the event data and from nothing
    else: [callId] is the [messageId] entry for an SMS, [threadId] the
    [threadId] entry for a chat message, [callId] the [serverCallId] entry
    for a recording. And the handlers do complete: whenever the data is an
    object, the store raises nothing on the way to the write, and (for a
    chat message) the thread and sender ids are strings or lists, (for a
    recording) the chunks are objects. *)
Theorem persisted_id_and_partition_key
  (env : FunctionApp.Env) (event : FunctionApp.EventGridEvent)
  (w : FunctionApp.World) :
  configured (FunctionApp.COSMOS_ENDPOINT env) = true ->
  (forall w' o,
     FunctionApp.process_sms_received env event w = (w', o) ->
     FunctionApp.wrote_one w w' o "call-logs"
       (FunctionApp.keyed_by event "callId" "messageId")) /\
  (forall w' o,
     py_eq_str (FunctionApp.event_type event)
       "Microsoft.Communication.ChatMessageReceived" = true ->
     FunctionApp.process_chat_event env event w = (w', o) ->
     FunctionApp.wrote_one w w' o "chat-history"
       (FunctionApp.keyed_by event "threadId" "threadId")) /\
  (forall w' o,
     FunctionApp.process_recording_event env event w = (w', o) ->
     FunctionApp.wrote_one w w' o "call-logs"
       (FunctionApp.keyed_by event "callId" "serverCallId")) /\
  (forall d,
     FunctionApp.data event = PDict d ->
     Ingest.store_fault env "call-logs"
       (FunctionApp.sms_item env (FunctionApp.id event) d) = None ->
     exists w', FunctionApp.process_sms_received env event w = (w', Ok tt)) /\
  (forall d,
     py_eq_str (FunctionApp.event_type event)
       "Microsoft.Communication.ChatMessageReceived" = true ->
     FunctionApp.data event = PDict d ->
     Ingest.sliceable (dict_get d "threadId" PNone) = true ->
     Ingest.sliceable (dict_get d "senderId" PNone) = true ->
     Ingest.store_fault env "chat-history"
       (FunctionApp.chat_item env (FunctionApp.id event) d) = None ->
     exists w', FunctionApp.process_chat_event env event w = (w', Ok tt)) /\
  (forall d cs,
     FunctionApp.data event = PDict d ->
     FunctionApp.recording_chunks_of d = Ok (PList cs) ->
     forallb Ingest.is_dict cs = true ->
     Ingest.store_fault env "call-logs"
       (FunctionApp.recording_item env (FunctionApp.id event) d (PList cs))
       = None ->
     exists w',
       FunctionApp.process_recording_event env event w = (w', Ok tt)).
Proof.
  intros C. unfold FunctionApp.wrote_one, FunctionApp.keyed_by.
  repeat split.
  - intros w' o R. apply (sms_run _ C) in R.
    destruct o as [[] | e]; [| exact R].
    destruct R as (d & D & U). eexists. split; [exact U |].
    split; [reflexivity |]. exists d. split; [exact D | reflexivity].
  - intros w' o T R. apply (chat_run _ C _ _ _ _ T) in R.
    destruct o as [[] | e]; [| exact R].
    destruct R as (d & D & U). eexists. split; [exact U |].
    split; [reflexivity |]. exists d. split; [exact D | reflexivity].
  - intros w' o R. apply (recording_run _ C) in R.
    destruct o as [[] | e]; [| exact R].
    destruct R as (d & chunks & D & _ & U). eexists. split; [exact U |].
    split; [reflexivity |]. exists d. split; [exact D | reflexivity].
  - intros d. apply (sms_completes env C).
  - intros d. apply (chat_completes env C).
  - intros d cs. apply (recording_completes env C).
Qed.

Lemma persisted_id_and_partition_key_witness :
  (exists w',
     FunctionApp.process_sms_received Scenario.env_ok Scenario.sms_event
       FunctionApp.empty_world = (w', Ok tt) /\
     FunctionApp.wrote_one FunctionApp.empty_world w' (Ok tt) "call-logs"
       (FunctionApp.keyed_by Scenario.sms_event "callId" "messageId")) /\
  (exists w',
     FunctionApp.process_chat_event Scenario.env_ok Scenario.chat_event
       FunctionApp.empty_world = (w', Ok tt) /\
     FunctionApp.wrote_one FunctionApp.empty_world w' (Ok tt) "chat-history"
       (FunctionApp.keyed_by Scenario.chat_event "threadId" "threadId")) /\
  (exists w',
     FunctionApp.process_recording_event Scenario.env_ok
       Samples.recording_event_two_chunks FunctionApp.empty_world
       = (w', Ok tt) /\
     FunctionApp.wrote_one FunctionApp.empty_world w' (Ok tt) "call-logs"
       (FunctionApp.keyed_by Samples.recording_event_two_chunks
          "callId" "serverCallId")).
Proof.
  split; [| split].
  - destruct (persisted_id_and_partition_key Scenario.env_ok
                Scenario.sms_event FunctionApp.empty_world eq_refl)
      as (W & _ & _ & K & _ & _).
    destruct (K _ eq_refl eq_refl) as (w' & R).
    exists w'. split; [exact R | exact (W _ _ R)].
  - destruct (persisted_id_and_partition_key Scenario.env_ok
                Scenario.chat_event FunctionApp.empty_world eq_refl)
      as (_ & W & _ & _ & K & _).
    destruct (K _ eq_refl eq_refl eq_refl eq_refl eq_refl) as (w' & R).
    exists w'. split; [exact R | exact (W _ _ eq_refl R)].
  - destruct (persisted_id_and_partition_key Scenario.env_ok
                Samples.recording_event_two_chunks FunctionApp.empty_world
                eq_refl)
      as (_ & _ & W & _ & _ & K).
    destruct (K _ _ eq_refl eq_refl eq_refl eq_refl) as (w' & R).
    exists w'. split; [exact R | exact (W _ _ R)].
Defined.

(** C5, as the spec states it, fails outside the chat function: the SMS
    function does not look at the event type. An event of a type no
    function knows, delivered to [process_sms_received], is processed to
    completion and written to the store, and no warning is logged. Only
    [process_chat_event] routes on the type; the theorem of C5 is about
    that function. *)
Lemma unknown_type_sms_event_is_written :
  exists w' item,
    FunctionApp.process_sms_received Scenario.env_ok
      Samples.sms_event_of_unknown_type FunctionApp.empty_world
      = (w', Ok tt) /\
    FunctionApp.upserted w' =
      [(FunctionApp.COSMOS_DATABASE, "call-logs", item)] /\
    Forall (fun line => fst line = INFO) (FunctionApp.logs w').
Proof.
  eexists. eexists. split; [reflexivity |]. split; [reflexivity |].
  repeat constructor.
Qed.
